(** * Bitstamp exchange client: a shallow embedding and its properties

    The development follows the JavaScript module of the client
    (constructor, [_get]/[_post]/[_request], the paginator
    [iterateRequestTxs], the normalizers and the public endpoint methods)
    and [lib/constants.js].

    Modelling conventions.
    - A JavaScript string is a sequence of UTF-16 code units.  The currency
      codes that a caller passes, and what [toUpperCase] returns, are lists
      of code units ([Str.js]); [Str.toUpperCase] follows the upper-case
      mapping of Unicode, code point by code point.  Constants, messages and
      the strings of the exchange are [string]s, whose characters are code
      units below 256; [toLowerCase], which the module applies to the status
      of an order only, acts on the letters A..Z.
    - A JavaScript number is an IEEE-754 binary64 value, that is a primitive
      [float].  Amounts in smallest subunits, identifiers, offsets and time
      values are integers and are kept in [Z], where sums are exact.
    - A [Date] is its time value in milliseconds, [None] for an invalid date.
    - Records of the exchange and of the client are typed records; the
      [error] field of a response body has the two shapes of the wire format.
    - Continuation-passing calls are written in direct style: calling
      [callback(err)] is returning [inl err], calling [callback(null, x)] is
      returning [inr x].  The requests handed to the HTTP transport are
      recorded, in order, in the state of the [Net] monad; the transport is
      a function from requests to responses.
    - The cycle of the paginator takes a bound on its iterations ([fuel]);
      it is shown to end on every finite history.
    - Exceptions that the module does not catch (a missing callback, a
      field read on [undefined]) are outside the model. *)

From Stdlib Require Import ZArith List String Ascii Bool Lia.
From Stdlib Require Import PrimFloat FloatOps SpecFloat Uint63.
From Stdlib Require Import DecimalString.
Import ListNotations.

Set Implicit Arguments.
Set Warnings "-register-all".
Open Scope string_scope.
Open Scope list_scope.
Open Scope Z_scope.

(* ================================================================== *)
(** ** Strings *)

Module Str.

(** A string as JavaScript has it: its UTF-16 code units. *)
Definition js : Type := list Z.

Definition unit_of (c : ascii) : Z := Z.of_nat (nat_of_ascii c).

(** The code units of a [string], whose characters are code units below
    256. *)
Fixpoint units (s : string) : js :=
  match s with
  | EmptyString => []
  | String c r => unit_of c :: units r
  end.

(** [a === b] on strings. *)
Fixpoint eqb (a b : js) : bool :=
  match a, b with
  | [], [] => true
  | u :: a', v :: b' => (u =? v) && eqb a' b'
  | _, _ => false
  end.

Definition isLead (u : Z) : bool := (0xD800 <=? u) && (u <=? 0xDBFF).
Definition isTrail (u : Z) : bool := (0xDC00 <=? u) && (u <=? 0xDFFF).

(** The code points of a string: a leading surrogate followed by a trailing
    one is one code point, every other code unit stands for itself. *)
Fixpoint codePoints (s : js) : list Z :=
  match s with
  | [] => []
  | u :: r =>
      match r with
      | v :: r' =>
          if isLead u && isTrail v
          then (0x10000 + (u - 0xD800) * 1024 + (v - 0xDC00)) :: codePoints r'
          else u :: codePoints r
      | [] => [u]
      end
  end.

Definition codeUnits (cp : Z) : js :=
  if 0xFFFF <? cp
  then [0xD800 + (cp - 0x10000) / 1024; 0xDC00 + (cp - 0x10000) mod 1024]
  else [cp].

Definition ofCodePoints (l : list Z) : js := flat_map codeUnits l.

(** The upper-case mapping of the Unicode character database (14.0).  The
    code points with a single upper-case code point are listed as runs
    (first, last, step, difference); [upper_special] lists those whose
    upper-case form has several code points.  Every other code point is
    its own upper-case form.  Later versions of the database add mappings
    to capitals encoded since, none of them in the range of ASCII. *)
Definition upper_runs : list (Z * Z * Z * Z) :=
  [(97, 122, 1, -32); (181, 181, 1, 743); (224, 246, 1, -32);
    (248, 254, 1, -32); (255, 255, 1, 121); (257, 303, 2, -1);
    (305, 305, 1, -232); (307, 311, 2, -1); (314, 328, 2, -1);
    (331, 375, 2, -1); (378, 382, 2, -1); (383, 383, 1, -300);
    (384, 384, 1, 195); (387, 389, 2, -1); (392, 392, 1, -1);
    (396, 396, 1, -1); (402, 402, 1, -1); (405, 405, 1, 97);
    (409, 409, 1, -1); (410, 410, 1, 163); (414, 414, 1, 130);
    (417, 421, 2, -1); (424, 424, 1, -1); (429, 429, 1, -1);
    (432, 432, 1, -1); (436, 438, 2, -1); (441, 441, 1, -1);
    (445, 445, 1, -1); (447, 447, 1, 56); (453, 453, 1, -1);
    (454, 454, 1, -2); (456, 456, 1, -1); (457, 457, 1, -2);
    (459, 459, 1, -1); (460, 460, 1, -2); (462, 476, 2, -1);
    (477, 477, 1, -79); (479, 495, 2, -1); (498, 498, 1, -1);
    (499, 499, 1, -2); (501, 501, 1, -1); (505, 543, 2, -1);
    (547, 563, 2, -1); (572, 572, 1, -1); (575, 576, 1, 10815);
    (578, 578, 1, -1); (583, 591, 2, -1); (592, 592, 1, 10783);
    (593, 593, 1, 10780); (594, 594, 1, 10782); (595, 595, 1, -210);
    (596, 596, 1, -206); (598, 599, 1, -205); (601, 601, 1, -202);
    (603, 603, 1, -203); (604, 604, 1, 42319); (608, 608, 1, -205);
    (609, 609, 1, 42315); (611, 611, 1, -207); (613, 613, 1, 42280);
    (614, 614, 1, 42308); (616, 616, 1, -209); (617, 617, 1, -211);
    (618, 618, 1, 42308); (619, 619, 1, 10743); (620, 620, 1, 42305);
    (623, 623, 1, -211); (625, 625, 1, 10749); (626, 626, 1, -213);
    (629, 629, 1, -214); (637, 637, 1, 10727); (640, 640, 1, -218);
    (642, 642, 1, 42307); (643, 643, 1, -218); (647, 647, 1, 42282);
    (648, 648, 1, -218); (649, 649, 1, -69); (650, 651, 1, -217);
    (652, 652, 1, -71); (658, 658, 1, -219); (669, 669, 1, 42261);
    (670, 670, 1, 42258); (837, 837, 1, 84); (881, 883, 2, -1);
    (887, 887, 1, -1); (891, 893, 1, 130); (940, 940, 1, -38);
    (941, 943, 1, -37); (945, 961, 1, -32); (962, 962, 1, -31);
    (963, 971, 1, -32); (972, 972, 1, -64); (973, 974, 1, -63);
    (976, 976, 1, -62); (977, 977, 1, -57); (981, 981, 1, -47);
    (982, 982, 1, -54); (983, 983, 1, -8); (985, 1007, 2, -1);
    (1008, 1008, 1, -86); (1009, 1009, 1, -80); (1010, 1010, 1, 7);
    (1011, 1011, 1, -116); (1013, 1013, 1, -96); (1016, 1016, 1, -1);
    (1019, 1019, 1, -1); (1072, 1103, 1, -32); (1104, 1119, 1, -80);
    (1121, 1153, 2, -1); (1163, 1215, 2, -1); (1218, 1230, 2, -1);
    (1231, 1231, 1, -15); (1233, 1327, 2, -1); (1377, 1414, 1, -48);
    (4304, 4346, 1, 3008); (4349, 4351, 1, 3008); (5112, 5117, 1, -8);
    (7296, 7296, 1, -6254); (7297, 7297, 1, -6253); (7298, 7298, 1, -6244);
    (7299, 7300, 1, -6242); (7301, 7301, 1, -6243); (7302, 7302, 1, -6236);
    (7303, 7303, 1, -6181); (7304, 7304, 1, 35266); (7545, 7545, 1, 35332);
    (7549, 7549, 1, 3814); (7566, 7566, 1, 35384); (7681, 7829, 2, -1);
    (7835, 7835, 1, -59); (7841, 7935, 2, -1); (7936, 7943, 1, 8);
    (7952, 7957, 1, 8); (7968, 7975, 1, 8); (7984, 7991, 1, 8);
    (8000, 8005, 1, 8); (8017, 8023, 2, 8); (8032, 8039, 1, 8);
    (8048, 8049, 1, 74); (8050, 8053, 1, 86); (8054, 8055, 1, 100);
    (8056, 8057, 1, 128); (8058, 8059, 1, 112); (8060, 8061, 1, 126);
    (8112, 8113, 1, 8); (8126, 8126, 1, -7205); (8144, 8145, 1, 8);
    (8160, 8161, 1, 8); (8165, 8165, 1, 7); (8526, 8526, 1, -28);
    (8560, 8575, 1, -16); (8580, 8580, 1, -1); (9424, 9449, 1, -26);
    (11312, 11359, 1, -48); (11361, 11361, 1, -1); (11365, 11365, 1, -10795);
    (11366, 11366, 1, -10792); (11368, 11372, 2, -1); (11379, 11379, 1, -1);
    (11382, 11382, 1, -1); (11393, 11491, 2, -1); (11500, 11502, 2, -1);
    (11507, 11507, 1, -1); (11520, 11557, 1, -7264); (11559, 11559, 1, -7264);
    (11565, 11565, 1, -7264); (42561, 42605, 2, -1); (42625, 42651, 2, -1);
    (42787, 42799, 2, -1); (42803, 42863, 2, -1); (42874, 42876, 2, -1);
    (42879, 42887, 2, -1); (42892, 42892, 1, -1); (42897, 42899, 2, -1);
    (42900, 42900, 1, 48); (42903, 42921, 2, -1); (42933, 42947, 2, -1);
    (42952, 42954, 2, -1); (42961, 42961, 1, -1); (42967, 42969, 2, -1);
    (42998, 42998, 1, -1); (43859, 43859, 1, -928); (43888, 43967, 1, -38864);
    (65345, 65370, 1, -32); (66600, 66639, 1, -40); (66776, 66811, 1, -40);
    (66967, 66977, 1, -39); (66979, 66993, 1, -39); (66995, 67001, 1, -39);
    (67003, 67004, 1, -39); (68800, 68850, 1, -64); (71872, 71903, 1, -32);
    (93792, 93823, 1, -32); (125218, 125251, 1, -34)].

Definition upper_special : list (Z * list Z) :=
  [(223, [83; 83]); (329, [700; 78]); (496, [74; 780]);
    (912, [921; 776; 769]); (944, [933; 776; 769]); (1415, [1333; 1362]);
    (7830, [72; 817]); (7831, [84; 776]); (7832, [87; 778]);
    (7833, [89; 778]); (7834, [65; 702]); (8016, [933; 787]);
    (8018, [933; 787; 768]); (8020, [933; 787; 769]); (8022, [933; 787; 834]);
    (8064, [7944; 921]); (8065, [7945; 921]); (8066, [7946; 921]);
    (8067, [7947; 921]); (8068, [7948; 921]); (8069, [7949; 921]);
    (8070, [7950; 921]); (8071, [7951; 921]); (8072, [7944; 921]);
    (8073, [7945; 921]); (8074, [7946; 921]); (8075, [7947; 921]);
    (8076, [7948; 921]); (8077, [7949; 921]); (8078, [7950; 921]);
    (8079, [7951; 921]); (8080, [7976; 921]); (8081, [7977; 921]);
    (8082, [7978; 921]); (8083, [7979; 921]); (8084, [7980; 921]);
    (8085, [7981; 921]); (8086, [7982; 921]); (8087, [7983; 921]);
    (8088, [7976; 921]); (8089, [7977; 921]); (8090, [7978; 921]);
    (8091, [7979; 921]); (8092, [7980; 921]); (8093, [7981; 921]);
    (8094, [7982; 921]); (8095, [7983; 921]); (8096, [8040; 921]);
    (8097, [8041; 921]); (8098, [8042; 921]); (8099, [8043; 921]);
    (8100, [8044; 921]); (8101, [8045; 921]); (8102, [8046; 921]);
    (8103, [8047; 921]); (8104, [8040; 921]); (8105, [8041; 921]);
    (8106, [8042; 921]); (8107, [8043; 921]); (8108, [8044; 921]);
    (8109, [8045; 921]); (8110, [8046; 921]); (8111, [8047; 921]);
    (8114, [8122; 921]); (8115, [913; 921]); (8116, [902; 921]);
    (8118, [913; 834]); (8119, [913; 834; 921]); (8124, [913; 921]);
    (8130, [8138; 921]); (8131, [919; 921]); (8132, [905; 921]);
    (8134, [919; 834]); (8135, [919; 834; 921]); (8140, [919; 921]);
    (8146, [921; 776; 768]); (8147, [921; 776; 769]); (8150, [921; 834]);
    (8151, [921; 776; 834]); (8162, [933; 776; 768]); (8163, [933; 776; 769]);
    (8164, [929; 787]); (8166, [933; 834]); (8167, [933; 776; 834]);
    (8178, [8186; 921]); (8179, [937; 921]); (8180, [911; 921]);
    (8182, [937; 834]); (8183, [937; 834; 921]); (8188, [937; 921]);
    (64256, [70; 70]); (64257, [70; 73]); (64258, [70; 76]);
    (64259, [70; 70; 73]); (64260, [70; 70; 76]); (64261, [83; 84]);
    (64262, [83; 84]); (64275, [1348; 1350]); (64276, [1348; 1333]);
    (64277, [1348; 1339]); (64278, [1358; 1350]); (64279, [1348; 1341])].

Definition in_run (c : Z) (r : Z * Z * Z * Z) : bool :=
  let '(first, last, step, _) := r in
  (first <=? c) && (c <=? last) && ((c - first) mod step =? 0).

Definition toUppercase (c : Z) : list Z :=
  match find (fun e => fst e =? c) upper_special with
  | Some e => snd e
  | None =>
      match find (in_run c) upper_runs with
      | Some (_, _, _, difference) => [c + difference]
      | None => [c]
      end
  end.

(** [String.prototype.toUpperCase]: the upper-case forms of the code points
    of the string, in order. *)
Definition toUpperCase (s : js) : js :=
  ofCodePoints (flat_map toUppercase (codePoints s)).

Definition isUpper (c : ascii) : bool :=
  let n := nat_of_ascii c in (65 <=? n)%nat && (n <=? 90)%nat.

(** A code unit that is a small letter a..z. *)
Definition isLower (u : Z) : bool := (97 <=? u) && (u <=? 122).

Definition downcase (c : ascii) : ascii :=
  if isUpper c then ascii_of_nat (nat_of_ascii c + 32) else c.

(** [String.prototype.toLowerCase] on a string of the exchange. *)
Fixpoint toLowerCase (s : string) : string :=
  match s with
  | EmptyString => EmptyString
  | String c r => String (downcase c) (toLowerCase r)
  end.

(** Two characters are the same letter when they are equal or are the
    upper-case and lower-case forms of one ASCII letter. *)
Definition same_letter (a b : ascii) : Prop :=
  a = b \/
  (isUpper a = true /\ nat_of_ascii b = (nat_of_ascii a + 32)%nat) \/
  (isUpper b = true /\ nat_of_ascii a = (nat_of_ascii b + 32)%nat).

(** Equality of strings up to letter case, character by character. *)
Inductive eq_ignore_case : string -> string -> Prop :=
  | eic_nil : eq_ignore_case "" ""
  | eic_cons a b s t :
    same_letter a b -> eq_ignore_case s t ->
    eq_ignore_case (String a s) (String b t).

(** Decimal rendering of an integer: [String(n)] and [n.toString()]. *)
Definition ofZ (n : Z) : string := NilZero.string_of_int (Z.to_int n).

End Str.

(** A [string], and so a literal, stands for its code units wherever a
    [Str.js] is wanted. *)
Coercion Str.units : string >-> Str.js.

Arguments Str.units : simpl never.
Arguments Str.toUpperCase : simpl never.
Arguments Str.toUppercase : simpl never.

(* ================================================================== *)
(** ** Regular expressions

    The two patterns of the response interpreter are anchored at both
    ends, so [RegExp.prototype.test] is a match of the whole string.  The
    matcher works by derivatives. *)

Module Regex.

Inductive cls : Type :=
  | Lit (c : ascii)      (* a literal character, also an escaped one: \. *)
  | Digit                (* \d *)
  | UpperAZ              (* [A-Z] *)
  | AnyChar.             (* .  : any character but a line terminator *)

Definition cls_mem (k : cls) (c : ascii) : bool :=
  let n := nat_of_ascii c in
  match k with
  | Lit d => Ascii.eqb d c
  | Digit => (48 <=? n)%nat && (n <=? 57)%nat
  | UpperAZ => (65 <=? n)%nat && (n <=? 90)%nat
  | AnyChar => negb ((n =? 10)%nat || (n =? 13)%nat)
  end.

Inductive t : Type :=
  | Never
  | Eps
  | Chr (k : cls)
  | Seq (r s : t)
  | Alt (r s : t)
  | Star (r : t).

Fixpoint nullable (r : t) : bool :=
  match r with
  | Never => false
  | Eps => true
  | Chr _ => false
  | Seq r s => nullable r && nullable s
  | Alt r s => nullable r || nullable s
  | Star _ => true
  end.

Definition seq (r s : t) : t :=
  match r, s with
  | Never, _ => Never
  | _, Never => Never
  | Eps, _ => s
  | _, Eps => r
  | _, _ => Seq r s
  end.

Definition alt (r s : t) : t :=
  match r, s with
  | Never, _ => s
  | _, Never => r
  | _, _ => Alt r s
  end.

Fixpoint deriv (c : ascii) (r : t) : t :=
  match r with
  | Never => Never
  | Eps => Never
  | Chr k => if cls_mem k c then Eps else Never
  | Seq r s =>
      if nullable r then alt (seq (deriv c r) s) (deriv c s)
      else seq (deriv c r) s
  | Alt r s => alt (deriv c r) (deriv c s)
  | Star r => seq (deriv c r) (Star r)
  end.

Fixpoint matches (r : t) (s : string) : bool :=
  match s with
  | EmptyString => nullable r
  | String c s' => matches (deriv c r) s'
  end.

(** Pattern combinators, named after the regular-expression syntax. *)
Fixpoint text (s : string) : t :=
  match s with
  | EmptyString => Eps
  | String c s' => Seq (Chr (Lit c)) (text s')
  end.

Definition plus (r : t) : t := Seq r (Star r).          (* r+ *)
Definition opt (r : t) : t := Alt r Eps.                 (* r? *)
Definition times3 (r : t) : t := Seq r (Seq r r).        (* r{3} *)
Definition dot : t := Chr AnyChar.                       (* . *)

Fixpoint cat (rs : list t) : t :=
  match rs with
  | [] => Eps
  | r :: rs' => Seq r (cat rs')
  end.

(** \d+(\.\d+)? *)
Definition decimal : t :=
  Seq (plus (Chr Digit)) (opt (Seq (Chr (Lit ".")) (plus (Chr Digit)))).

(** [A-Z]{3} *)
Definition currency : t := times3 (Chr UpperAZ).

(** The strings that a regular expression denotes. *)
Inductive lang : t -> string -> Prop :=
| lang_eps : lang Eps ""
| lang_chr k c : cls_mem k c = true -> lang (Chr k) (String c "")
| lang_seq r s u v : lang r u -> lang s v -> lang (Seq r s) (u ++ v)
| lang_alt_l r s u : lang r u -> lang (Alt r s) u
| lang_alt_r r s u : lang s u -> lang (Alt r s) u
| lang_star_nil r : lang (Star r) ""
| lang_star_more r u v :
    lang r u -> lang (Star r) v -> lang (Star r) (u ++ v).

End Regex.

(** /^You need \d+(\.\d+)? [A-Z]{3} to open that order. You have only
    \d+(\.\d+)? [A-Z]{3} available. Check your account balance for
    details.$/ ; the three full stops are unescaped in the source. *)
Definition REGEX_PATTERN_BUY_ERROR_INSUFFICIENT_FUNDS : Regex.t :=
  Regex.cat
    [ Regex.text "You need "; Regex.decimal; Regex.text " "; Regex.currency;
      Regex.text " to open that order"; Regex.dot;
      Regex.text " You have only "; Regex.decimal; Regex.text " ";
      Regex.currency; Regex.text " available"; Regex.dot;
      Regex.text " Check your account balance for details"; Regex.dot ].

(** /^You have only \d+(\.\d+)? [A-Z]{3} available. Check your account
    balance for details.$/ *)
Definition REGEX_PATTERN_SELL_ERROR_INSUFFICIENT_FUNDS : Regex.t :=
  Regex.cat
    [ Regex.text "You have only "; Regex.decimal; Regex.text " ";
      Regex.currency; Regex.text " available"; Regex.dot;
      Regex.text " Check your account balance for details"; Regex.dot ].

(** [pattern.test(msg)] *)
Definition test (pattern : Regex.t) (msg : string) : bool :=
  Regex.matches pattern msg.


(* ================================================================== *)
(** ** lib/constants.js *)

Definition HOST : string := "https://www.bitstamp.net".
Definition REQUEST_TIMEOUT : Z := 5000.
Definition TYPE_SELL_ORDER : string := "sell".
Definition TYPE_BUY_ORDER : string := "buy".
Definition TYPE_DEPOSIT : Z := 0.
Definition TYPE_WITHDRAWAL : Z := 1.
Definition TYPE_MARKET_TRADE : Z := 2.

(* ================================================================== *)
(** ** Values, errors and the wire format *)

(** The JavaScript values that reach the client as amounts and prices. *)
Inductive JsValue : Type :=
| JsUndefined
| JsNull
| JsBoolean (b : bool)
| JsNumber (x : float)
| JsString (s : string).

(** A [Date]: its time value in milliseconds since the epoch, [None] for an
    invalid date (time value NaN). *)
Definition Date : Type := option Z.

(** [a > b] on dates compares the time values; it is false as soon as one
    of them is NaN. *)
Definition Date_gt (a b : Date) : bool :=
  match a, b with
  | Some x, Some y => y <? x
  | _, _ => false
  end.

(** Modelled from the spec: lib/error_codes.js is not part of the sources;
    these are the codes the module refers to.  The spec's error taxonomy
    names the situations; the module tags validation, parse and listing
    failures with [MODULE_ERROR]. *)
Inductive ErrorCode : Type :=
| MODULE_ERROR
| EXCHANGE_SERVER_ERROR
| INSUFFICIENT_FUNDS.

(** The [error] field of a response body: [{error: "message"}] or
    [{error: {field: [messages...], ...}}]. *)
Inductive ErrorPayload : Type :=
| ErrorText (s : string)
| ErrorFields (fields : list (string * list string)).

(** What travels as an error. *)
Inductive JsError : Type :=
| Exception (what : string)
    (* an exception object: a network failure, or what JSON.parse throws *)
| BareString (s : string)
    (* a plain string passed where an error is expected *)
| PayloadError (p : ErrorPayload)
    (* new Error(JSON.stringify(data.error)) *)
| CodedError (message : string) (code : ErrorCode) (cause : option JsError).
    (* the Error built by constructError: message, code, optional cause *)

(** Truthiness: the only falsy error value is the empty string. *)
Definition truthy (e : JsError) : bool :=
  match e with
  | BareString EmptyString => false
  | _ => true
  end.

Definition truthy_opt (e : option JsError) : bool :=
  match e with
  | Some e => truthy e
  | None => false
  end.

Definition error_code (e : JsError) : option ErrorCode :=
  match e with
  | CodedError _ c _ => Some c
  | _ => None
  end.

Definition error_cause (e : JsError) : option JsError :=
  match e with
  | CodedError _ _ c => c
  | _ => None
  end.

(** Parameters of the authenticated calls, one shape per endpoint. *)
Inductive PostParams : Type :=
| NoParams                                              (* null *)
| TxListParams (limit offset : Z) (sort : string)       (* {limit, offset, sort} *)
| OrderStatusParams (id : Z)                            (* {id} *)
| OrderParams (amount : float) (price : float).         (* {amount, price} *)

Record SignedForm : Type := mkForm {
  form_key : string;
  form_signature : Str.js;
  form_nonce : Z;
  form_params : PostParams
}.

Record RequestOptions : Type := mkRequest {
  req_url : string;
  req_method : string;
  req_headers : list (string * string);
  req_timeout : Z;
  req_form : option SignedForm
}.

(** The body handed to the response handler, as [JSON.parse] sees it. *)
Inductive Body (P : Type) : Type :=
| NoBody                                   (* undefined or the empty string *)
| Unparsable (e : JsError)                 (* JSON.parse throws e *)
| Parsed (error : option ErrorPayload) (data : P).
Arguments NoBody {P}.
Arguments Unparsable {P} e.
Arguments Parsed {P} error data.

(** The three arguments of the response handler: [err], [res.error], [body]. *)
Record Response (P : Type) : Type := mkResponse {
  resp_err : option JsError;
  resp_res_error : option JsError;
  resp_body : Body P
}.

(** Settings given to the constructor, and the client it builds. *)
Record Settings : Type := mkSettings {
  set_key : option string;
  set_secret : option string;
  set_clientId : option string;
  set_host : option string;
  set_timeout : option Z
}.

Record Client : Type := mkClient {
  key : option string;
  secret : option string;
  clientId : option string;
  host : string;
  timeout : Z
}.

(** ** Raw records of the exchange *)

Record RawTx : Type := mkTx {
  tx_id : Z;
  tx_datetime : string;
  tx_type : Z;
  tx_btc : JsValue;
  tx_usd : JsValue;
  tx_fee : JsValue;
  tx_order_id : Z
}.

Record RawTicker : Type := mkRawTicker {
  rt_bid : JsValue; rt_ask : JsValue; rt_last : JsValue; rt_high : JsValue;
  rt_low : JsValue; rt_vwap : JsValue; rt_volume : JsValue
}.

Record RawOrderBook : Type := mkRawOrderBook {
  rob_bids : option (list (JsValue * JsValue));
  rob_asks : option (list (JsValue * JsValue))
}.

Record RawBalance : Type := mkRawBalance {
  rb_usd_available : JsValue; rb_btc_available : JsValue;
  rb_usd_balance : JsValue; rb_btc_balance : JsValue
}.

Record Fill : Type := mkFill {
  fill_btc : JsValue;
  fill_usd : JsValue;
  fill_fee : JsValue
}.

Record RawOrderStatus : Type := mkRawOrderStatus {
  os_id : option Z;
  os_status : string;
  os_transactions : list Fill
}.

Record RawPlaced : Type := mkRawPlaced {
  rp_id : Z;
  rp_orderType : option string
}.

(** ** Normalized records *)

Record Transaction : Type := mkTransaction {
  txn_externalId : string;
  txn_timestamp : string;
  txn_state : string;
  txn_amount : Z;
  txn_currency : string;
  txn_type : string;
  txn_raw : RawTx
}.

Record Ticker : Type := mkTicker {
  tk_baseCurrency : Str.js;
  tk_quoteCurrency : Str.js;
  tk_bid : float; tk_ask : float; tk_lastPrice : float;
  tk_high24Hours : float; tk_low24Hours : float; tk_vwap24Hours : float;
  tk_volume24Hours : Z
}.

Record BookEntry : Type := mkEntry {
  be_price : float;
  be_baseAmount : Z
}.

Record OrderBook : Type := mkOrderBook {
  ob_baseCurrency : Str.js;
  ob_quoteCurrency : Str.js;
  ob_bids : list BookEntry;
  ob_asks : list BookEntry
}.

Record Balance : Type := mkBalance {
  bal_available_USD : Z; bal_available_BTC : Z;
  bal_total_USD : Z; bal_total_BTC : Z
}.

(** The argument of [getTrade]: [trade.raw.id] and [trade.raw.orderType]. *)
Record TradeRef : Type := mkTradeRef {
  ref_id : Z;
  ref_orderType : string
}.

Record Order : Type := mkOrder {
  ord_externalId : string;
  ord_type : string;
  ord_state : string;
  ord_baseAmount : Z;
  ord_quoteAmount : Z;
  ord_baseCurrency : string;
  ord_quoteCurrency : string;
  ord_feeAmount : Z;
  ord_feeCurrency : string;
  ord_raw : RawOrderStatus
}.

Record ListedTrade : Type := mkListedTrade {
  lt_externalId : string;
  lt_type : string;
  lt_state : string;
  lt_baseCurrency : string;
  lt_baseAmount : Z;
  lt_quoteCurrency : string;
  lt_quoteAmount : Z;
  lt_feeCurrency : string;
  lt_feeAmount : Z;
  lt_tradeTime : Date;
  lt_raw : RawTx
}.

Record PlacedTrade : Type := mkPlacedTrade {
  pt_externalId : string;
  pt_type : string;
  pt_state : string;
  pt_baseAmount : float;
  pt_baseCurrency : string;
  pt_quoteCurrency : string;
  pt_limitPrice : float;
  pt_raw : RawPlaced
}.

(** The argument of [listTransactions] and [listTrades]: the latest known
    record, with [raw.datetime] and, for a trade fetched by [getTrade], the
    [datetime] of [raw.transactions[0]]. *)
Record Latest : Type := mkLatest {
  latest_datetime : string;
  latest_first_fill_datetime : option string
}.

(* ================================================================== *)
(** ** The network monad

    A computation runs over the list of requests handed to the transport so
    far and may extend it. *)

Definition Net (A : Type) : Type :=
  list RequestOptions -> A * list RequestOptions.

Definition ret {A : Type} (a : A) : Net A := fun log => (a, log).

Definition bind {A B : Type} (m : Net A) (k : A -> Net B) : Net B :=
  fun log => let (a, log') := m log in k a log'.

Notation "x <- m ;; k" := (bind m (fun x => k))
  (at level 61, m at next level, right associativity).

(** Hand one request to the transport and receive its response. *)
Definition send {P : Type} (transport : RequestOptions -> Response P)
    (req : RequestOptions) : Net (Response P) :=
  fun log => (transport req, log ++ [req]).

(** Run a public operation from an empty log: its outcome and the requests
    it issued. *)
Definition run {A : Type} (m : Net A) : A * list RequestOptions := m [].

(* ================================================================== *)
(** ** Constructor and error construction *)

(** [x || default] on an optional string and an optional number. *)
Definition or_string (x : option string) (d : string) : string :=
  match x with
  | Some EmptyString | None => d
  | Some s => s
  end.

Definition or_number (x : option Z) (d : Z) : Z :=
  match x with
  | Some 0 | None => d
  | Some n => n
  end.

Definition Bitstamp (settings : Settings) : Client :=
  {| key := set_key settings;
     secret := set_secret settings;
     clientId := set_clientId settings;
     host := or_string (set_host settings) HOST;
     timeout := or_number (set_timeout settings) REQUEST_TIMEOUT |}.

(** [!x] on an optional string: undefined and the empty string are falsy. *)
Definition missing (x : option string) : bool :=
  match x with
  | Some EmptyString | None => true
  | Some _ => false
  end.

Definition constructError (message : string) (errorCode : ErrorCode)
    (errorCause : option JsError) : JsError :=
  CodedError message errorCode
    (if truthy_opt errorCause then errorCause else None).

(** [_.find(list, predicate)] *)
Definition find_message (pattern : Regex.t) (allErrors : list string)
  : option string :=
  List.find (test pattern) allErrors.

(** [a || b] on optional strings. *)
Definition or_else (a b : option string) : option string :=
  match a with
  | Some EmptyString | None => b
  | Some _ => a
  end.

(** [data.error['__all__']] *)
Fixpoint lookup_field (name : string) (fields : list (string * list string))
  : option (list string) :=
  match fields with
  | [] => None
  | (k, v) :: rest => if String.eqb k name then Some v else lookup_field name rest
  end.

Definition all_errors (p : ErrorPayload) : option (list string) :=
  match p with
  | ErrorText _ => None
  | ErrorFields fields => lookup_field "__all__" fields
  end.

(** Truthiness of [data.error]. *)
Definition payload_truthy (p : option ErrorPayload) : bool :=
  match p with
  | None => false
  | Some (ErrorText EmptyString) => false
  | Some _ => true
  end.

(** The part of the response handler that runs once a body has an [error]
    field: the generic error, then the check for known errors. *)
Definition classify_error (p : ErrorPayload) : JsError :=
  let error :=
    constructError
      "There is an error in the body of the response from the exchange service..."
      EXCHANGE_SERVER_ERROR (Some (PayloadError p)) in
  match all_errors p with
  | Some allErrors =>
      let insufficientFundsErrorMessage :=
        or_else
          (find_message REGEX_PATTERN_BUY_ERROR_INSUFFICIENT_FUNDS allErrors)
          (find_message REGEX_PATTERN_SELL_ERROR_INSUFFICIENT_FUNDS allErrors) in
      match insufficientFundsErrorMessage with
      | Some EmptyString | None => error
      | Some msg => constructError msg INSUFFICIENT_FUNDS None
      end
  | None => error
  end.

(** [requestFunction(err, res, body)] inside [_request]. *)
Definition requestFunction {P : Type} (r : Response P) : JsError + P :=
  let transportError : JsError + P :=
    inl (constructError
           "There is an error in the response from the Bitstamp service..."
           EXCHANGE_SERVER_ERROR (resp_err r)) in
  let responseError : JsError + P :=
    inl (constructError
           "The exchange service responded with an error..."
           EXCHANGE_SERVER_ERROR (resp_res_error r)) in
  if truthy_opt (resp_err r) then transportError           (* err || ... *)
  else
    match resp_body r with
    | NoBody => transportError                              (* ... || !body *)
    | Unparsable e =>
        if truthy_opt (resp_res_error r) then responseError
        else
          inl (constructError
                 "Could not understand response from exchange server."
                 MODULE_ERROR (Some e))
    | Parsed error data =>
        if truthy_opt (resp_res_error r) then responseError
        else
          match error with
          | Some p =>
              if payload_truthy error then inl (classify_error p)
              else inr data
          | None => inr data
          end
    end.

(* ================================================================== *)
(** ** The exchange and the platform, for concrete runs

    [Wire] reads and writes the timestamps of the exchange.  [Sample] holds
    one instance of each outside collaborator, an exchange that serves a
    fixed history, and the records used in the examples. *)

Module Wire.

Definition digit (c : ascii) : option Z :=
  let n := nat_of_ascii c in
  if (48 <=? n)%nat && (n <=? 57)%nat then Some (Z.of_nat (n - 48)) else None.

Fixpoint digits (acc : Z) (s : string) : option Z :=
  match s with
  | EmptyString => Some acc
  | String c r =>
      match digit c with
      | Some d => digits (acc * 10 + d) r
      | None => None
      end
  end.

(** The number written by the [len] digits of [s] from position [start]. *)
Definition field (s : string) (start len : nat) : option Z :=
  let f := substring start len s in
  if (String.length f =? len)%nat then digits 0 f else None.

(** Days from 1970-01-01 to the civil date [y]-[m]-[d]. *)
Definition days_from_civil (y m d : Z) : Z :=
  let y := if m <=? 2 then y - 1 else y in
  let era := y / 400 in
  let yoe := y - era * 400 in
  let mp := if 2 <? m then m - 3 else m + 9 in
  let doy := (153 * mp + 2) / 5 + d - 1 in
  let doe := yoe * 365 + yoe / 4 - yoe / 100 + doy in
  era * 146097 + doe - 719468.

(** The civil date, [(y, m, d)], of a day counted from 1970-01-01. *)
Definition civil_from_days (z : Z) : Z * Z * Z :=
  let z := z + 719468 in
  let era := z / 146097 in
  let doe := z - era * 146097 in
  let yoe := (doe - doe / 1460 + doe / 36524 - doe / 146096) / 365 in
  let doy := doe - (365 * yoe + yoe / 4 - yoe / 100) in
  let mp := (5 * doy + 2) / 153 in
  let d := doy - (153 * mp + 2) / 5 + 1 in
  let m := if mp <? 10 then mp + 3 else mp - 9 in
  let y := yoe + era * 400 in
  ((if m <=? 2 then y + 1 else y), m, d).

Definition in_range (lo x hi : Z) : bool := (lo <=? x) && (x <=? hi).

(** [new Date(s)] on the timestamps of the exchange, ["YYYY-MM-DD HH:MM:SS"],
    read as UTC, with or without the suffix ["+0"]; invalid otherwise. *)
Definition Date_parse (s : string) : Date :=
  let suffix := substring 19 (String.length s - 19) s in
  let shape :=
    ((substring 4 1 s =? "-") && (substring 7 1 s =? "-")
     && (substring 10 1 s =? " ") && (substring 13 1 s =? ":")
     && (substring 16 1 s =? ":")
     && ((suffix =? "") || (suffix =? "+0")))%string in
  match field s 0 4, field s 5 2, field s 8 2,
        field s 11 2, field s 14 2, field s 17 2 with
  | Some y, Some mo, Some d, Some h, Some mi, Some sec =>
      if shape && in_range 1 mo 12 && in_range 1 d 31 && in_range 0 h 23
         && in_range 0 mi 59 && in_range 0 sec 59
      then Some ((((days_from_civil y mo d * 24 + h) * 60 + mi) * 60 + sec) * 1000)
      else None
  | _, _, _, _, _, _ => None
  end.

(** [n] in decimal, padded with zeros to [width] digits. *)
Definition padded (width : nat) (n : Z) : string :=
  let s := NilZero.string_of_int (Z.to_int n) in
  (string_of_list_ascii (repeat "0"%char (width - String.length s)) ++ s)%string.

(** The timestamp of the exchange for a time value. *)
Definition datetime (ms : Z) : string :=
  let secs := ms / 1000 in
  let days := secs / 86400 in
  let rest := secs mod 86400 in
  let '(y, m, d) := civil_from_days days in
  (padded 4 y ++ "-" ++ padded 2 m ++ "-" ++ padded 2 d ++ " "
   ++ padded 2 (rest / 3600) ++ ":" ++ padded 2 (rest / 60 mod 60) ++ ":"
   ++ padded 2 (rest mod 60))%string.

(** [d.toISOString()]; on an invalid date it throws, which is outside the
    model. *)
Definition Date_toISOString (d : Date) : string :=
  match d with
  | Some ms =>
      let secs := ms / 1000 in
      let days := secs / 86400 in
      let rest := secs mod 86400 in
      let '(y, m, d) := civil_from_days days in
      (padded 4 y ++ "-" ++ padded 2 m ++ "-" ++ padded 2 d ++ "T"
       ++ padded 2 (rest / 3600) ++ ":" ++ padded 2 (rest / 60 mod 60) ++ ":"
       ++ padded 2 (rest mod 60) ++ "." ++ padded 3 (ms mod 1000) ++ "Z")%string
  | None => "Invalid Date"
  end.

End Wire.

(** The listing endpoint of an exchange that holds [history], newest first:
    a request for [limit] records from [offset] is answered with that slice
    of the history. *)
Definition page (history : list RawTx) (limit offset : Z) : list RawTx :=
  firstn (Z.to_nat limit) (skipn (Z.to_nat offset) history).

Definition respond {P : Type} (data : P) : Response P :=
  {| resp_err := None; resp_res_error := None; resp_body := Parsed None data |}.

Definition respond_error {P : Type} (p : ErrorPayload) (data : P) : Response P :=
  {| resp_err := None; resp_res_error := None;
     resp_body := Parsed (Some p) data |}.

Definition exchange (history : list RawTx) (req : RequestOptions)
  : Response (list RawTx) :=
  match req_form req with
  | Some f =>
      match form_params f with
      | TxListParams limit offset _ => respond (page history limit offset)
      | _ => respond_error (ErrorText "Invalid parameters") []
      end
  | None => respond_error (ErrorText "Missing key, signature and nonce parameters") []
  end.

(** The offset a listing request asks for. *)
Definition requested_offset (req : RequestOptions) : option Z :=
  match req_form req with
  | Some f =>
      match form_params f with
      | TxListParams _ offset _ => Some offset
      | _ => None
      end
  | None => None
  end.

(** The page size a listing request asks for. *)
Definition requested_limit (req : RequestOptions) : option Z :=
  match req_form req with
  | Some f =>
      match form_params f with
      | TxListParams limit _ _ => Some limit
      | _ => None
      end
  | None => None
  end.

Module Sample.

Definition getTime (k : nat) : Z := 1463140800000 + Z.of_nat k.

(** A stand-in for the digest primitive. *)
Definition hmacSha256Hex (secret message : string) : string :=
  (message ++ secret)%string.

(** A JavaScript number for [n / 10^k], correctly rounded. *)
Definition scaled (n : Z) (k : nat) : float :=
  PrimFloat.div (PrimFloat.of_uint63 (Uint63.of_Z n))
                (PrimFloat.of_uint63 (Uint63.of_Z (10 ^ Z.of_nat k))).

(** Integer and fraction digits of a plain decimal numeral. *)
Fixpoint split_point (s : string) : string * option string :=
  match s with
  | EmptyString => (EmptyString, None)
  | String c r =>
      if Ascii.eqb c "."%char then (EmptyString, Some r)
      else let (i, f) := split_point r in (String c i, f)
  end.

Definition unsigned_decimal (s : string) : option (Z * nat) :=
  let (i, f) := split_point s in
  let f := match f with Some f => f | None => "" end in
  if (i =? "")%string then None
  else
    match Wire.digits 0 (i ++ f)%string with
    | Some n => Some (n, String.length f)
    | None => None
    end.

(** [parseFloat] on numbers and on plain decimal numerals of at most 15
    digits; NaN elsewhere. *)
Definition parseFloat (v : JsValue) : float :=
  match v with
  | JsNumber x => x
  | JsString (String "-"%char s) =>
      match unsigned_decimal s with
      | Some (n, k) => PrimFloat.opp (scaled n k)
      | None => nan
      end
  | JsString s =>
      match unsigned_decimal s with
      | Some (n, k) => scaled n k
      | None => nan
      end
  | _ => nan
  end.

(** The integer nearest to [x * 10^k], halves away from zero; 0 when [x] is
    not finite. *)
Definition round_scaled (x : float) (k : Z) : Z :=
  match Prim2SF x with
  | S754_finite s m e =>
      let num := Z.pos m * 10 ^ k * 2 ^ (Z.max e 0) in
      let den := 2 ^ (Z.max (- e) 0) in
      let q := (2 * num + den) / (2 * den) in
      if s then - q else q
  | _ => 0
  end.

Definition decimals (currency : Str.js) : Z :=
  if Str.eqb currency "BTC" then 8 else 2.

Definition toSmallestSubunit (amount : JsValue) (currency : Str.js) : Z :=
  round_scaled (parseFloat amount) (decimals currency).

Definition fromSmallestSubunit (amount : float) (currency : string) : float :=
  PrimFloat.div amount
    (PrimFloat.of_uint63 (Uint63.of_Z (10 ^ decimals currency))).

Definition settings : Settings :=
  {| set_key := Some "key"; set_secret := Some "secret";
     set_clientId := Some "1234"; set_host := None; set_timeout := None |}.

(** Settings without an API key. *)
Definition settings_no_key : Settings :=
  {| set_key := None; set_secret := Some "secret";
     set_clientId := Some "1234"; set_host := None; set_timeout := None |}.

(** 2016-05-13 12:00:00 UTC *)
Definition noon : Z := 1463140800000.

(** The [k]-th record of a history, one deposit of 0.5 BTC per minute going
    back from [noon]. *)
Definition deposit (k : nat) : RawTx :=
  {| tx_id := 100000 - Z.of_nat k;
     tx_datetime := Wire.datetime (noon - 60000 * Z.of_nat k);
     tx_type := TYPE_DEPOSIT;
     tx_btc := JsString "0.50000000";
     tx_usd := JsString "0.00";
     tx_fee := JsString "0.00";
     tx_order_id := 0 |}.

(** A history of [n] records, newest first. *)
Definition history (n : nat) : list RawTx := map deposit (seq 0 n).


(** The error body that the exchange sends for a sell order larger than the
    balance. *)
Definition no_funds : ErrorPayload :=
  ErrorFields
    [("__all__",
      ["You have only 0.00000000 BTC available. Check your account balance for details."])].

Definition balance : RawBalance :=
  {| rb_usd_available := JsString "1250.00";
     rb_btc_available := JsString "0.00000000";
     rb_usd_balance := JsString "1250.00";
     rb_btc_balance := JsString "0.00000000" |}.

Definition placed : RawPlaced := {| rp_id := 987654; rp_orderType := None |}.

(** An order filled in two parts. *)
Definition order_status : RawOrderStatus :=
  {| os_id := None;
     os_status := "Finished";
     os_transactions :=
       [ {| fill_btc := JsString "0.50000000"; fill_usd := JsString "150.00";
            fill_fee := JsString "0.38" |};
         {| fill_btc := JsString "0.25000000"; fill_usd := JsString "75.50";
            fill_fee := JsString "0.19" |} ] |}.

Definition ticker : RawTicker :=
  {| rt_bid := JsString "649.89"; rt_ask := JsString "650.12";
     rt_last := JsString "649.97"; rt_high := JsString "652.55";
     rt_low := JsString "634.98"; rt_vwap := JsString "647.37";
     rt_volume := JsString "12.3456789" |}.

End Sample.

(* ================================================================== *)
(** ** The client

    The collaborators outside the module are variables of the section: the
    clock, the HMAC primitive of [crypto], [parseFloat], the [Date]
    constructor on strings and [toISOString], and the two conversions of
    lib/currency.js, which is not part of the sources. *)

Section Client.

(** [new Date().getTime()] when [k] requests have been issued. *)
Variable getTime : nat -> Z.

(** [crypto.createHmac('sha256', secret).update(message).digest('hex')] *)
Variable hmacSha256Hex : string -> string -> string.

Variable parseFloat : JsValue -> float.

(** [new Date(s)] and [d.toISOString()]. *)
Variable Date_parse : string -> Date.
Variable Date_toISOString : Date -> string.

(** [Currency.toSmallestSubunit(amount, currency)]: an amount in main units
    to integer subunits; [Currency.fromSmallestSubunit] goes back. *)
Variable toSmallestSubunit : JsValue -> Str.js -> Z.
Variable fromSmallestSubunit : float -> string -> float.

Set Default Proof Using "Type".

(** *** Helper methods *)

Definition USER_AGENT : string * string :=
  ("User-Agent",
   "Bitstamp Node.js API Client|(github.com/CoinifySoftware/bitstamp-exc.git)").

(** [_.defaultsDeep({headers: {'User-Agent': ...}}, params)] *)
Definition withUserAgent (params : RequestOptions) : RequestOptions :=
  {| req_url := req_url params;
     req_method := req_method params;
     req_headers := USER_AGENT :: req_headers params;
     req_timeout := req_timeout params;
     req_form := req_form params |}.

Definition _request {P : Type} (transport : RequestOptions -> Response P)
    (params : RequestOptions) : Net (JsError + P) :=
  let params := withUserAgent params in
  if (req_method params =? "GET")%string then
    r <- send transport params ;; ret (requestFunction r)
  else if (req_method params =? "POST")%string then
    r <- send transport params ;; ret (requestFunction r)
  else
    ret (inl (constructError "The request must be either POST or GET."
                MODULE_ERROR None)).

Definition _get {P : Type} (self : Client)
    (transport : RequestOptions -> Response P) (action : string)
  : Net (JsError + P) :=
  let path := ("/api/" ++ action ++ "/")%string in
  let options :=
    {| req_url := (host self ++ path)%string;
       req_method := "GET";
       req_headers := [];
       req_timeout := timeout self;
       req_form := None |} in
  _request transport options.

(** The string held by a field that is not missing. *)
Definition present (x : option string) : string :=
  match x with
  | Some s => s
  | None => ""
  end.

Definition Date_getTime : Net Z :=
  fun log => (getTime (List.length log), log).

Definition _post {P : Type} (self : Client)
    (transport : RequestOptions -> Response P) (action : string)
    (params : PostParams) : Net (JsError + P) :=
  if missing (key self) || missing (secret self) || missing (clientId self)
  then
    ret (inl (BareString
                "Must provide key, secret and client ID to make this API request."))
  else
    let path := ("/api/" ++ action ++ "/")%string in
    now <- Date_getTime ;;
    let nonce := now * 10 in
    let message :=
      (Str.ofZ nonce ++ present (clientId self) ++ present (key self))%string in
    let signature :=
      Str.toUpperCase (hmacSha256Hex (present (secret self)) message) in
    let params :=
      {| form_key := present (key self);
         form_signature := signature;
         form_nonce := nonce;
         form_params := params |} in
    let options :=
      {| req_url := (host self ++ path)%string;
         req_method := "POST";
         req_headers := [("Content-Type", "application/json")];
         req_timeout := timeout self;
         req_form := Some params |} in
    _request transport options.

(** *** The paginator *)

Definition responseLength : Z := 1000.
Definition BITSTAMP_REQUEST_LIMIT : Z := 100.

(** The variables that the closures of [iterateRequestTxs] share. *)
Record Loop : Type := mkLoop {
  transactionsAll : list RawTx;
  offset : Z;
  continueIteration : bool
}.

Definition initial : Loop :=
  {| transactionsAll := []; offset := 0; continueIteration := true |}.

(** [res.every(function (tx) {...})]: the scan of one page. *)
Fixpoint every (earliestDate : Date) (res : list RawTx) (st : Loop) : Loop :=
  match res with
  | [] => st
  | tx :: rest =>
      let currentTxDateTime := Date_parse (tx_datetime tx) in
      if Date_gt earliestDate currentTxDateTime then
        {| transactionsAll := transactionsAll st;
           offset := offset st;
           continueIteration := false |}
      else
        every earliestDate rest
          {| transactionsAll := transactionsAll st ++ [tx];
             offset := offset st;
             continueIteration := continueIteration st |}
  end.

(** The callback given to [_post], on a page [res]: scan it, test its
    length against the limit, move the offset. *)
Definition onPage (earliestDate : Date) (res : list RawTx) (st : Loop) : Loop :=
  let st1 := every earliestDate res st in
  let continue :=
    if Z.of_nat (List.length res) <? BITSTAMP_REQUEST_LIMIT then false
    else continueIteration st1 in
  {| transactionsAll := transactionsAll st1;
     offset := offset st1 + responseLength;
     continueIteration := continue |}.

(** [post]: one iteration of the cycle. *)
Definition post (self : Client)
    (transport : RequestOptions -> Response (list RawTx))
    (earliestDate : Date) (st : Loop) : Net (JsError + Loop) :=
  r <- _post self transport "user_transactions"
         (TxListParams BITSTAMP_REQUEST_LIMIT (offset st) "desc") ;;
  match r with
  | inl err => ret (inl err)
  | inr res => ret (inr (onPage earliestDate res st))
  end.

(** [check]: the condition of the cycle. *)
Definition check (st : Loop) : bool := continueIteration st.

(** [async.doWhilst(post, check, done)], before [done]: run [post]; stop
    with its error, or test [check] and go on.  [fuel] bounds the number of
    iterations; [None] when it is used up. *)
Fixpoint doWhilst (fuel : nat) (self : Client)
    (transport : RequestOptions -> Response (list RawTx))
    (earliestDate : Date) (st : Loop)
  : Net (option (JsError + list RawTx)) :=
  match fuel with
  | O => ret None
  | S fuel' =>
      r <- post self transport earliestDate st ;;
      match r with
      | inl err => ret (Some (inl err))
      | inr st' =>
          if check st' then doWhilst fuel' self transport earliestDate st'
          else ret (Some (inr (transactionsAll st')))
      end
  end.

(** [done(err, deposits)] *)
Definition done (r : JsError + list RawTx) : JsError + list RawTx :=
  match r with
  | inl err =>
      inl (constructError "Trades could not be listed." MODULE_ERROR (Some err))
  | inr deposits => inr deposits
  end.

Definition iterateRequestTxs (fuel : nat) (self : Client)
    (transport : RequestOptions -> Response (list RawTx))
    (earliestDate : Date) : Net (option (JsError + list RawTx)) :=
  r <- doWhilst fuel self transport earliestDate initial ;;
  ret (option_map done r).

(** *** Normalizers *)

Definition constructTransactionObject (currentTx : RawTx) : Transaction :=
  let tx :=
    {| txn_externalId := Str.ofZ (tx_id currentTx);
       txn_timestamp :=
         Date_toISOString (Date_parse (tx_datetime currentTx ++ "+0")%string);
       txn_state := "completed";
       txn_amount := 0;
       txn_currency := "";
       txn_type :=
         if tx_type currentTx =? TYPE_DEPOSIT then "deposit" else "withdrawal";
       txn_raw := currentTx |} in
  if PrimFloat.eqb (parseFloat (tx_btc currentTx)) 0%float then
    {| txn_externalId := txn_externalId tx;
       txn_timestamp := txn_timestamp tx;
       txn_state := txn_state tx;
       txn_amount :=
         toSmallestSubunit (JsNumber (parseFloat (tx_usd currentTx))) "USD";
       txn_currency := "USD";
       txn_type := txn_type tx;
       txn_raw := txn_raw tx |}
  else
    {| txn_externalId := txn_externalId tx;
       txn_timestamp := txn_timestamp tx;
       txn_state := txn_state tx;
       txn_amount :=
         toSmallestSubunit (JsNumber (parseFloat (tx_btc currentTx))) "BTC";
       txn_currency := "BTC";
       txn_type := txn_type tx;
       txn_raw := txn_raw tx |}.

(** [_.sum] *)
Definition sum (l : list Z) : Z := fold_left Z.add l 0.

(** *** API endpoints *)

Definition getTicker (self : Client)
    (transport : RequestOptions -> Response RawTicker)
    (baseCurrency quoteCurrency : Str.js) : Net (JsError + Ticker) :=
  let baseCurrency := Str.toUpperCase baseCurrency in
  let quoteCurrency := Str.toUpperCase quoteCurrency in
  if negb (Str.eqb baseCurrency "BTC") || negb (Str.eqb quoteCurrency "USD")
  then
    ret (inl (constructError
                "Bitstamp only supports BTC and USD as base and quote currencies, respectively."
                MODULE_ERROR None))
  else
    r <- _get self transport "ticker" ;;
    match r with
    | inl err => ret (inl err)
    | inr res =>
        let ticker :=
          {| tk_baseCurrency := baseCurrency;
             tk_quoteCurrency := quoteCurrency;
             tk_bid := parseFloat (rt_bid res);
             tk_ask := parseFloat (rt_ask res);
             tk_lastPrice := parseFloat (rt_last res);
             tk_high24Hours := parseFloat (rt_high res);
             tk_low24Hours := parseFloat (rt_low res);
             tk_vwap24Hours := parseFloat (rt_vwap res);
             tk_volume24Hours :=
               toSmallestSubunit (JsNumber (parseFloat (rt_volume res)))
                 baseCurrency |} in
        ret (inr ticker)
    end.

Definition convertRawEntry (entry : JsValue * JsValue) : BookEntry :=
  {| be_price := parseFloat (fst entry);
     be_baseAmount := toSmallestSubunit (JsNumber (parseFloat (snd entry))) "BTC" |}.

(** [x || []] *)
Definition or_empty {A : Type} (x : option (list A)) : list A :=
  match x with
  | Some l => l
  | None => []
  end.

Definition getOrderBook (self : Client)
    (transport : RequestOptions -> Response RawOrderBook)
    (baseCurrency quoteCurrency : Str.js) : Net (JsError + OrderBook) :=
  let baseCurrency := Str.toUpperCase baseCurrency in
  let quoteCurrency := Str.toUpperCase quoteCurrency in
  if negb (Str.eqb baseCurrency "BTC") || negb (Str.eqb quoteCurrency "USD")
  then
    ret (inl (constructError
                "Bitstamp only supports BTC and USD as base and quote currencies, respectively."
                MODULE_ERROR None))
  else
    r <- _get self transport "order_book" ;;
    match r with
    | inl err => ret (inl err)
    | inr res =>
        let rawBids := or_empty (rob_bids res) in
        let rawAsks := or_empty (rob_asks res) in
        ret (inr {| ob_baseCurrency := baseCurrency;
                    ob_quoteCurrency := quoteCurrency;
                    ob_bids := map convertRawEntry rawBids;
                    ob_asks := map convertRawEntry rawAsks |})
    end.

Definition getBalance (self : Client)
    (transport : RequestOptions -> Response RawBalance)
  : Net (JsError + Balance) :=
  r <- _post self transport "balance" NoParams ;;
  match r with
  | inl err => ret (inl err)
  | inr res =>
      ret (inr {| bal_available_USD :=
                    toSmallestSubunit (rb_usd_available res) "USD";
                  bal_available_BTC :=
                    toSmallestSubunit (rb_btc_available res) "BTC";
                  bal_total_USD := toSmallestSubunit (rb_usd_balance res) "USD";
                  bal_total_BTC := toSmallestSubunit (rb_btc_balance res) "BTC" |})
  end.

(** [_.defaults(res, {id: id})] *)
Definition withId (res : RawOrderStatus) (id : Z) : RawOrderStatus :=
  {| os_id := match os_id res with Some i => Some i | None => Some id end;
     os_status := os_status res;
     os_transactions := os_transactions res |}.

Definition getTrade (self : Client)
    (transport : RequestOptions -> Response RawOrderStatus)
    (trade : option TradeRef) : Net (JsError + Order) :=
  match trade with
  | None =>
      ret (inl (constructError "Trade object is a required parameter."
                  MODULE_ERROR None))
  | Some trade =>
      if negb (ref_orderType trade =? TYPE_SELL_ORDER)%string
         && negb (ref_orderType trade =? TYPE_BUY_ORDER)%string
      then
        ret (inl (constructError
                    "Trade object must have a raw orderType parameter with value either 'sell' or 'buy'."
                    MODULE_ERROR None))
      else
        r <- _post self transport "order_status"
               (OrderStatusParams (ref_id trade)) ;;
        match r with
        | inl err => ret (inl err)
        | inr res =>
            let res := withId res (ref_id trade) in
            let baseAmounts :=
              map (fun tx =>
                     let baseAmount := toSmallestSubunit (fill_btc tx) "BTC" in
                     if (ref_orderType trade =? TYPE_SELL_ORDER)%string
                     then - baseAmount else baseAmount)
                  (os_transactions res) in
            let quoteAmounts :=
              map (fun tx =>
                     let quoteAmount := toSmallestSubunit (fill_usd tx) "USD" in
                     if (ref_orderType trade =? TYPE_BUY_ORDER)%string
                     then - quoteAmount else quoteAmount)
                  (os_transactions res) in
            let feeAmounts :=
              map (fun tx => toSmallestSubunit (fill_fee tx) "USD")
                  (os_transactions res) in
            ret (inr {| ord_externalId := Str.ofZ (ref_id trade);
                        ord_type := "limit";
                        ord_state :=
                          if (Str.toLowerCase (os_status res) =? "finished")%string
                          then "closed" else "open";
                        ord_baseAmount := sum baseAmounts;
                        ord_quoteAmount := sum quoteAmounts;
                        ord_baseCurrency := "BTC";
                        ord_quoteCurrency := "USD";
                        ord_feeAmount := sum feeAmounts;
                        ord_feeCurrency := "USD";
                        ord_raw := res |})
        end
  end.

(** [new Date(0)] *)
Definition epoch : Date := Some 0.

(** [latestTxDate] in [listTransactions]. *)
Definition transactionsBoundary (latestTransaction : option Latest) : Date :=
  match latestTransaction with
  | Some latest => Date_parse (latest_datetime latest)
  | None => epoch
  end.

(** [latestTxDate] in [listTrades]. *)
Definition tradesBoundary (latestTrade : option Latest) : Date :=
  match latestTrade with
  | Some latest =>
      match latest_first_fill_datetime latest with
      | Some datetime => Date_parse datetime
      | None => Date_parse (latest_datetime latest)
      end
  | None => epoch
  end.

Definition listTransactions (fuel : nat) (self : Client)
    (transport : RequestOptions -> Response (list RawTx))
    (latestTransaction : option Latest)
  : Net (option (JsError + list Transaction)) :=
  let latestTxDate := transactionsBoundary latestTransaction in
  r <- iterateRequestTxs fuel self transport latestTxDate ;;
  match r with
  | None => ret None
  | Some (inl err) => ret (Some (inl err))
  | Some (inr transactions) =>
      let transactions :=
        filter (fun tx => (tx_type tx =? TYPE_DEPOSIT)
                          || (tx_type tx =? TYPE_WITHDRAWAL)) transactions in
      ret (Some (inr (map constructTransactionObject transactions)))
  end.

Definition constructListedTrade (tx : RawTx) : ListedTrade :=
  {| lt_externalId := Str.ofZ (tx_order_id tx);
     lt_type := "limit";
     lt_state := "closed";
     lt_baseCurrency := "BTC";
     lt_baseAmount := toSmallestSubunit (JsNumber (parseFloat (tx_btc tx))) "BTC";
     lt_quoteCurrency := "USD";
     lt_quoteAmount := toSmallestSubunit (JsNumber (parseFloat (tx_usd tx))) "USD";
     lt_feeCurrency := "USD";
     lt_feeAmount := toSmallestSubunit (JsNumber (parseFloat (tx_fee tx))) "USD";
     lt_tradeTime := Date_parse (tx_datetime tx);
     lt_raw := tx |}.

(** The promise of [listTrades] rejects with [inl] and resolves with [inr]. *)
Definition listTrades (fuel : nat) (self : Client)
    (transport : RequestOptions -> Response (list RawTx))
    (latestTrade : option Latest)
  : Net (option (JsError + list ListedTrade)) :=
  let latestTxDate := tradesBoundary latestTrade in
  r <- iterateRequestTxs fuel self transport latestTxDate ;;
  match r with
  | None => ret None
  | Some (inl err) => ret (Some (inl err))
  | Some (inr transactions) =>
      let transactions :=
        filter (fun tx => tx_type tx =? TYPE_MARKET_TRADE) transactions in
      ret (Some (inr (map constructListedTrade transactions)))
  end.

Definition placeTrade (self : Client)
    (transport : RequestOptions -> Response RawPlaced)
    (baseAmount limitPrice : JsValue) (baseCurrency quoteCurrency : Str.js)
  : Net (JsError + PlacedTrade) :=
  let baseCurrency := Str.toUpperCase baseCurrency in
  let quoteCurrency := Str.toUpperCase quoteCurrency in
  let amountError : JsError :=
    constructError "The base amount must be a number." MODULE_ERROR None in
  let priceError : JsError :=
    constructError "The limit price must be a positive number."
      MODULE_ERROR None in
  if negb (Str.eqb baseCurrency "BTC") || negb (Str.eqb quoteCurrency "USD")
  then
    ret (inl (constructError
                "Base and Quote currencies should be BTC and USD, respectively"
                MODULE_ERROR None))
  else
    match baseAmount with
    | JsNumber amount =>                  (* defined, and typeof is 'number' *)
        if PrimFloat.eqb amount 0%float then ret (inl amountError)
        else
          match limitPrice with
          | JsNumber price =>
              if PrimFloat.ltb price 0%float then ret (inl priceError)
              else
                let orderType :=
                  if PrimFloat.ltb amount 0%float then TYPE_SELL_ORDER
                  else TYPE_BUY_ORDER in
                let amountSubUnit :=
                  if (orderType =? TYPE_SELL_ORDER)%string
                  then PrimFloat.mul amount (-1)%float else amount in
                let amountMainUnit := fromSmallestSubunit amountSubUnit "BTC" in
                r <- _post self transport orderType
                       (OrderParams amountMainUnit price) ;;
                match r with
                | inl err => ret (inl err)
                | inr res =>
                    ret (inr {| pt_externalId := Str.ofZ (rp_id res);
                                pt_type := "limit";
                                pt_state := "open";
                                pt_baseAmount := amount;
                                pt_baseCurrency := "BTC";
                                pt_quoteCurrency := "USD";
                                pt_limitPrice := price;
                                pt_raw :=
                                  {| rp_id := rp_id res;
                                     rp_orderType := Some orderType |} |})
                end
          | _ => ret (inl priceError)       (* undefined, or not a number *)
          end
    | _ => ret (inl amountError)            (* undefined, or not a number *)
    end.

(** *** Vocabulary of the properties *)

(** The sum of a list of amounts, by recursion on the list. *)
Fixpoint total (l : list Z) : Z :=
  match l with
  | [] => 0
  | x :: rest => x + total rest
  end.

(** An error value that carries a message and a code. *)
Definition coded (e : JsError) : Prop :=
  exists message code cause, e = CodedError message code cause.

(** The errors of the response interpreter on a response [r], each with the
    cause it keeps: the transport's error, the error of the response object,
    the exception of the parser, the error payload of the body; the
    insufficient-funds error keeps the matched message and no cause. *)
Inductive response_error {P : Type} (r : Response P) : JsError -> Prop :=
| transport_failed :
    truthy_opt (resp_err r) = true ->
    response_error r
      (CodedError
         "There is an error in the response from the Bitstamp service..."
         EXCHANGE_SERVER_ERROR (resp_err r))
| body_missing :
    truthy_opt (resp_err r) = false ->
    resp_body r = NoBody ->
    response_error r
      (CodedError
         "There is an error in the response from the Bitstamp service..."
         EXCHANGE_SERVER_ERROR None)
| response_flagged :
    truthy_opt (resp_res_error r) = true ->
    response_error r
      (CodedError "The exchange service responded with an error..."
         EXCHANGE_SERVER_ERROR (resp_res_error r))
| body_unparsable x :
    resp_body r = Unparsable x ->
    truthy x = true ->
    response_error r
      (CodedError "Could not understand response from exchange server."
         MODULE_ERROR (Some x))
| body_unparsable_falsy x :
    resp_body r = Unparsable x ->
    truthy x = false ->
    response_error r
      (CodedError "Could not understand response from exchange server."
         MODULE_ERROR None)
| payload_generic p data :
    resp_body r = Parsed (Some p) data ->
    response_error r
      (CodedError
         "There is an error in the body of the response from the exchange service..."
         EXCHANGE_SERVER_ERROR (Some (PayloadError p)))
| payload_insufficient_funds p data allErrors msg :
    resp_body r = Parsed (Some p) data ->
    all_errors p = Some allErrors ->
    In msg allErrors ->
    response_error r (CodedError msg INSUFFICIENT_FUNDS None).

(** All three credentials are set. *)
Definition credentials (self : Client) : bool :=
  negb (missing (key self) || missing (secret self) || missing (clientId self)).


(** [l] is [m] with some elements left out, the order kept. *)
Inductive subseq {A : Type} : list A -> list A -> Prop :=
| subseq_nil : subseq [] []
| subseq_skip x l m : subseq l m -> subseq l (x :: m)
| subseq_take x l m : subseq l m -> subseq (x :: l) (x :: m).

(** The offsets [start], [start + 1000], ... of [n] listing requests. *)
Definition offsets (start : Z) (n : nat) : list (option Z) :=
  map (fun k => Some (start + 1000 * Z.of_nat k)) (seq 0 n).

(** What [_post] hands to its callback when a credential is missing. *)
Definition refusal : JsError :=
  BareString "Must provide key, secret and client ID to make this API request.".

(** Characters and numerals of the error messages of the exchange. *)
Definition is_digit (c : ascii) : Prop :=
  (48 <= nat_of_ascii c <= 57)%nat.

Definition is_capital (c : ascii) : Prop :=
  (65 <= nat_of_ascii c <= 90)%nat.

Definition is_line_end (c : ascii) : Prop :=
  nat_of_ascii c = 10%nat \/ nat_of_ascii c = 13%nat.

Fixpoint all_chars (P : ascii -> Prop) (s : string) : Prop :=
  match s with
  | EmptyString => True
  | String c r => P c /\ all_chars P r
  end.

(** One digit or more. *)
Definition digits (s : string) : Prop := s <> "" /\ all_chars is_digit s.

(** Digits, or digits, a point and digits: 12 and 12.50, not 12. or .5 *)
Definition decimal_numeral (s : string) : Prop :=
  digits s
  \/ exists i f, s = (i ++ "." ++ f)%string /\ digits i /\ digits f.

(** Three capital letters. *)
Definition currency_code (s : string) : Prop :=
  exists a b c,
    s = String a (String b (String c ""))
    /\ is_capital a /\ is_capital b /\ is_capital c.

(** The arguments that the two checks of [placeTrade] refuse: an amount
    that is not a number or equals zero, a price that is not a number or is
    below zero. *)
Definition invalid_amount (baseAmount : JsValue) : Prop :=
  match baseAmount with
  | JsNumber amount => PrimFloat.eqb amount 0%float = true
  | _ => True
  end.

Definition invalid_price (limitPrice : JsValue) : Prop :=
  match limitPrice with
  | JsNumber price => PrimFloat.ltb price 0%float = true
  | _ => True
  end.

(** The code units of the upper-case form of one code point. *)
Definition upper_units (c : Z) : Str.js := Str.ofCodePoints (Str.toUppercase c).

(** [w] begins with [l]. *)
Fixpoint begins (l w : Str.js) : bool :=
  match l, w with
  | [], _ => true
  | u :: l', v :: w' => (u =? v) && begins l' w'
  | _ :: _, [] => false
  end.

(** What the table has to satisfy for the code points in [sources] to be
    the only ones whose upper-case form can open a string that reads
    [x :: rest]: no form of several code points opens it, a run reaches [x]
    only from a listed code point, and [x] itself is listed. *)
Definition only_from (sources : list Z) (x : Z) (rest : Str.js) : bool :=
  forallb (fun e => negb (begins (Str.ofCodePoints (snd e)) (x :: rest)))
    Str.upper_special
  && forallb (fun r =>
                let '(_, _, _, difference) := r in
                negb (Str.in_run (x - difference) r)
                || existsb (Z.eqb (x - difference)) sources)
       Str.upper_runs
  && existsb (Z.eqb x) sources
  && forallb (fun c => Str.eqb (upper_units c) [x]) sources
  && (x <? 0xD800).

(** [s] has one code unit out of each list of [choices], in order. *)
Definition spelled (choices : list (list Z)) (s : Str.js) : Prop :=
  Forall2 (fun l u => In u l) choices s.

(** The spellings of the two supported codes: capital and small letters,
    and for the S also the long s (U+017F). *)
Definition supported_base : Str.js -> Prop :=
  spelled [[66; 98]; [84; 116]; [67; 99]].

Definition supported_quote : Str.js -> Prop :=
  spelled [[85; 117]; [83; 115; 383]; [68; 100]].

(* ================================================================== *)
(** ** Properties *)

Unset Implicit Arguments.

(** *** The matcher *)

Lemma append_nil_r (s : string) : (s ++ "")%string = s.
Proof. induction s as [| c s IH]; simpl; [reflexivity | now rewrite IH]. Qed.

Lemma append_assoc (s u v : string) :
  ((s ++ u) ++ v)%string = (s ++ (u ++ v))%string.
Proof. induction s as [| c s IH]; simpl; [reflexivity | now rewrite IH]. Qed.

Lemma append_eq_nil (u v : string) :
  (u ++ v)%string = "" -> u = "" /\ v = "".
Proof. destruct u; simpl; [auto | discriminate]. Qed.

Lemma lang_never (w : string) : ~ Regex.lang Regex.Never w.
Proof. intros H. inversion H. Qed.

Lemma lang_eps_inv (w : string) : Regex.lang Regex.Eps w -> w = "".
Proof. intros H. inversion H. reflexivity. Qed.

Lemma lang_seq_inv (r s : Regex.t) (w : string) :
  Regex.lang (Regex.Seq r s) w ->
  exists u v, w = (u ++ v)%string /\ Regex.lang r u /\ Regex.lang s v.
Proof. intros H. inversion H; subst. eauto. Qed.

Lemma lang_alt_inv (r s : Regex.t) (w : string) :
  Regex.lang (Regex.Alt r s) w -> Regex.lang r w \/ Regex.lang s w.
Proof. intros H. inversion H; subst; auto. Qed.

Lemma lang_star_cons (e : Regex.t) (w : string) :
  Regex.lang e w ->
  forall r c s,
    e = Regex.Star r -> w = String c s ->
    exists u v,
      s = (u ++ v)%string /\ Regex.lang r (String c u)
      /\ Regex.lang (Regex.Star r) v.
Proof.
  induction 1 as [| | | | | | r0 u v Hu _ Hv IHv]; intros r1 c1 s1 He Hw;
    try discriminate.
  injection He as ->.
  destruct u as [| c' u'].
  - simpl in Hw. apply (IHv r1 c1 s1 eq_refl Hw).
  - simpl in Hw. injection Hw as -> <-. eauto.
Qed.

Lemma nullable_lang (r : Regex.t) :
  Regex.nullable r = true <-> Regex.lang r "".
Proof.
  induction r as [| | k | r IHr s IHs | r IHr s IHs | r IHr]; simpl.
  - split; [discriminate | intros H; inversion H].
  - split; [constructor | reflexivity].
  - split; [discriminate | intros H; inversion H].
  - rewrite andb_true_iff, IHr, IHs. split.
    + intros [Hr Hs]. apply (@Regex.lang_seq r s "" "" Hr Hs).
    + intros H. apply lang_seq_inv in H as (u & v & Huv & Hr & Hs).
      symmetry in Huv. apply append_eq_nil in Huv as [-> ->]. auto.
  - rewrite orb_true_iff, IHr, IHs. split.
    + intros [H | H]; [now apply Regex.lang_alt_l | now apply Regex.lang_alt_r].
    + apply lang_alt_inv.
  - split; [constructor | reflexivity].
Qed.

Lemma seq_lang (r s : Regex.t) (w : string) :
  Regex.lang (Regex.seq r s) w <-> Regex.lang (Regex.Seq r s) w.
Proof.
  assert (Hnever_l : forall s0,
    Regex.lang Regex.Never w <-> Regex.lang (Regex.Seq Regex.Never s0) w).
  { intros s0. split; intros H; [now apply lang_never in H |].
    apply lang_seq_inv in H as (u & v & _ & Hu & _). now apply lang_never in Hu. }
  assert (Hnever_r : forall r0,
    Regex.lang Regex.Never w <-> Regex.lang (Regex.Seq r0 Regex.Never) w).
  { intros r0. split; intros H; [now apply lang_never in H |].
    apply lang_seq_inv in H as (u & v & _ & _ & Hv). now apply lang_never in Hv. }
  assert (Heps_l : forall s0,
    Regex.lang s0 w <-> Regex.lang (Regex.Seq Regex.Eps s0) w).
  { intros s0. split; intros H.
    - apply (@Regex.lang_seq Regex.Eps s0 "" w Regex.lang_eps H).
    - apply lang_seq_inv in H as (u & v & -> & Hu & Hv).
      apply lang_eps_inv in Hu as ->. exact Hv. }
  assert (Heps_r : forall r0,
    Regex.lang r0 w <-> Regex.lang (Regex.Seq r0 Regex.Eps) w).
  { intros r0. split; intros H.
    - rewrite <- (append_nil_r w).
      apply (@Regex.lang_seq r0 Regex.Eps w "" H Regex.lang_eps).
    - apply lang_seq_inv in H as (u & v & -> & Hu & Hv).
      apply lang_eps_inv in Hv as ->. now rewrite append_nil_r. }
  destruct r; destruct s; simpl;
    first [ apply Hnever_l | apply Hnever_r | apply Heps_l | apply Heps_r
          | reflexivity ].
Qed.

Lemma alt_lang (r s : Regex.t) (w : string) :
  Regex.lang (Regex.alt r s) w <-> Regex.lang (Regex.Alt r s) w.
Proof.
  assert (Hl : forall s0,
    Regex.lang s0 w <-> Regex.lang (Regex.Alt Regex.Never s0) w).
  { intros s0. split; intros H; [now apply Regex.lang_alt_r |].
    apply lang_alt_inv in H as [H | H]; [now apply lang_never in H | exact H]. }
  assert (Hr : forall r0,
    Regex.lang r0 w <-> Regex.lang (Regex.Alt r0 Regex.Never) w).
  { intros r0. split; intros H; [now apply Regex.lang_alt_l |].
    apply lang_alt_inv in H as [H | H]; [exact H | now apply lang_never in H]. }
  destruct r; destruct s; simpl;
    first [ apply Hl | apply Hr | reflexivity ].
Qed.

Lemma deriv_lang (c : ascii) (r : Regex.t) :
  forall w, Regex.lang (Regex.deriv c r) w <-> Regex.lang r (String c w).
Proof.
  induction r as [| | k | r IHr s IHs | r IHr s IHs | r IHr]; intros w; simpl.
  - split; intros H; inversion H.
  - split; intros H; inversion H.
  - destruct (Regex.cls_mem k c) eqn:Hk.
    + split; intros H.
      * apply lang_eps_inv in H as ->. now constructor.
      * inversion H; subst. constructor.
    + split; intros H; [inversion H |].
      inversion H; subst. congruence.
  - assert (Hleft :
      Regex.lang (Regex.seq (Regex.deriv c r) s) w ->
      Regex.lang (Regex.Seq r s) (String c w)).
    { intros H. apply seq_lang in H.
      apply lang_seq_inv in H as (u & v & -> & Hu & Hv).
      apply IHr in Hu.
      apply (@Regex.lang_seq r s (String c u) v Hu Hv). }
    assert (Hsplit :
      Regex.lang (Regex.Seq r s) (String c w) ->
      Regex.lang (Regex.seq (Regex.deriv c r) s) w
      \/ (Regex.lang r "" /\ Regex.lang s (String c w))).
    { intros H. apply lang_seq_inv in H as (u & v & Huv & Hu & Hv).
      destruct u as [| c' u'].
      - simpl in Huv. subst v. right. auto.
      - simpl in Huv. injection Huv as <- ->.
        left. apply seq_lang. apply Regex.lang_seq; [now apply IHr | exact Hv]. }
    destruct (Regex.nullable r) eqn:Hn.
    + rewrite alt_lang. split.
      * intros H. apply lang_alt_inv in H as [H | H]; [now apply Hleft |].
        apply IHs in H. apply nullable_lang in Hn.
        apply (@Regex.lang_seq r s "" (String c w) Hn H).
      * intros H. apply Hsplit in H as [H | [_ H]].
        -- now apply Regex.lang_alt_l.
        -- apply Regex.lang_alt_r. now apply IHs.
    + split; [exact Hleft |].
      intros H. apply Hsplit in H as [H | [H _]]; [exact H |].
      apply nullable_lang in H. congruence.
  - rewrite alt_lang. split; intros H.
    + apply lang_alt_inv in H as [H | H].
      * apply Regex.lang_alt_l. now apply IHr.
      * apply Regex.lang_alt_r. now apply IHs.
    + apply lang_alt_inv in H as [H | H].
      * apply Regex.lang_alt_l. now apply IHr.
      * apply Regex.lang_alt_r. now apply IHs.
  - rewrite seq_lang. split; intros H.
    + apply lang_seq_inv in H as (u & v & -> & Hu & Hv).
      apply IHr in Hu.
      apply (@Regex.lang_star_more r (String c u) v Hu Hv).
    + destruct (lang_star_cons _ _ H r c w eq_refl eq_refl)
        as (u & v & -> & Hu & Hv).
      apply Regex.lang_seq; [now apply IHr | exact Hv].
Qed.

(** The matcher decides membership in the language of the pattern. *)
Lemma matches_lang (s : string) :
  forall r, Regex.matches r s = true <-> Regex.lang r s.
Proof.
  induction s as [| c s IH]; intros r; simpl.
  - apply nullable_lang.
  - rewrite IH. apply deriv_lang.
Qed.

Corollary test_lang (pattern : Regex.t) (msg : string) :
  test pattern msg = true <-> Regex.lang pattern msg.
Proof. apply matches_lang. Qed.

(** *** Letter case *)

Lemma eqb_eq (a b : Str.js) : Str.eqb a b = true <-> a = b.
Proof.
  revert b. induction a as [| u a IH]; intros [| v b]; simpl;
    try (split; [discriminate | discriminate]); [split; reflexivity |].
  rewrite andb_true_iff, Z.eqb_eq, IH.
  split; [intros [-> ->]; reflexivity | intros H; injection H; auto].
Qed.

Lemma eqb_refl (a : Str.js) : Str.eqb a a = true.
Proof. now apply eqb_eq. Qed.

Lemma nat_of_ascii_bound (a : ascii) : (nat_of_ascii a < 256)%nat.
Proof. apply nat_ascii_bounded. Qed.

Lemma unit_of_bound (a : ascii) : 0 <= Str.unit_of a < 256.
Proof.
  unfold Str.unit_of. pose proof (nat_of_ascii_bound a). lia.
Qed.

(** A string without leading surrogates is the list of its code points. *)
Lemma codePoints_plain (s : Str.js) :
  Forall (fun u => Str.isLead u = false) s -> Str.codePoints s = s.
Proof.
  induction 1 as [| u r Hu _ IH]; [reflexivity |].
  cbn [Str.codePoints]. destruct r as [| v r']; [reflexivity |].
  rewrite Hu. cbn [andb]. now rewrite IH.
Qed.

Lemma units_plain (s : string) :
  Forall (fun u => Str.isLead u = false) (Str.units s).
Proof.
  induction s as [| c s IH]; [constructor |].
  change (Str.units (String c s)) with (Str.unit_of c :: Str.units s).
  constructor; [| exact IH].
  pose proof (unit_of_bound c). unfold Str.isLead.
  apply andb_false_iff. left. apply Z.leb_gt. lia.
Qed.

Lemma codePoints_units (s : string) : Str.codePoints (Str.units s) = Str.units s.
Proof. apply codePoints_plain, units_plain. Qed.

Lemma toUpperCase_flat_map (s : Str.js) :
  Str.toUpperCase s = flat_map upper_units (Str.codePoints s).
Proof.
  unfold Str.toUpperCase, Str.ofCodePoints.
  induction (Str.codePoints s) as [| c l IH]; [reflexivity |].
  cbn [flat_map]. rewrite flat_map_app, IH. reflexivity.
Qed.

Lemma toUpperCase_units (s : string) :
  Str.toUpperCase s = flat_map upper_units (Str.units s).
Proof. now rewrite toUpperCase_flat_map, codePoints_units. Qed.

Lemma capitals_checked :
  forallb (fun n => Str.eqb (Str.toUppercase (Z.of_nat (n + 32)))
                      (Str.toUppercase (Z.of_nat n)))
    (seq 65 26) = true.
Proof. vm_compute. reflexivity. Qed.

Lemma same_letter_toUppercase (a b : ascii) :
  Str.same_letter a b ->
  Str.toUppercase (Str.unit_of a) = Str.toUppercase (Str.unit_of b).
Proof.
  assert (H : forall n, (65 <= n <= 90)%nat ->
                        Str.toUppercase (Z.of_nat (n + 32))
                        = Str.toUppercase (Z.of_nat n)).
  { intros n Hn. apply eqb_eq.
    apply (proj1 (forallb_forall _ _) capitals_checked).
    apply in_seq. lia. }
  unfold Str.same_letter, Str.isUpper, Str.unit_of.
  intros [-> | [[Hu Hb] | [Hu Ha]]]; [reflexivity | |];
    apply andb_prop in Hu as [H1 H2];
    apply Nat.leb_le in H1; apply Nat.leb_le in H2.
  - rewrite Hb. symmetry. apply H. lia.
  - rewrite Ha. apply H. lia.
Qed.

Lemma eq_ignore_case_toUpperCase (s t : string) :
  Str.eq_ignore_case s t -> Str.toUpperCase s = Str.toUpperCase t.
Proof.
  rewrite !toUpperCase_units.
  induction 1 as [| a b s t Hab _ IH]; [reflexivity |].
  change (Str.units (String a s)) with (Str.unit_of a :: Str.units s).
  change (Str.units (String b t)) with (Str.unit_of b :: Str.units t).
  cbn [flat_map]. unfold upper_units at 1 3.
  now rewrite (same_letter_toUppercase _ _ Hab), IH.
Qed.

(** *** The strings that upper-case to a code *)

Lemma begins_app (l r w : Str.js) : l ++ r = w -> begins l w = true.
Proof.
  revert w. induction l as [| u l IH]; intros w H; [reflexivity |].
  destruct w as [| v w]; [discriminate |].
  injection H as -> H. simpl. rewrite Z.eqb_refl. now apply IH.
Qed.

Lemma toUppercase_cases (c : Z) :
  (exists e, In e Str.upper_special /\ Str.toUppercase c = snd e)
  \/ (exists r, In r Str.upper_runs /\ Str.in_run c r = true
                /\ Str.toUppercase c = [c + snd r])
  \/ Str.toUppercase c = [c].
Proof.
  unfold Str.toUppercase.
  destruct (find (fun e => fst e =? c) Str.upper_special) as [e |] eqn:Hs.
  - left. exists e. apply find_some in Hs as [Hin _]. now split.
  - destruct (find (Str.in_run c) Str.upper_runs) as [r |] eqn:Hr.
    + right. left. exists r. apply find_some in Hr as [Hin Hrun].
      destruct r as [[[first last] step] difference]. now repeat split.
    + right. right. reflexivity.
Qed.

Lemma codeUnits_head (c x : Z) (l w : Str.js) :
  x < 0xD800 -> Str.codeUnits c ++ l = x :: w -> c = x /\ l = w.
Proof.
  unfold Str.codeUnits. intros Hx.
  remember (0xD800 + (c - 0x10000) / 1024) as lead eqn:Hlead.
  destruct (0xFFFF <? c) eqn:Hc; cbn [app]; intros H.
  - apply Z.ltb_lt in Hc. injection H as H _.
    assert (0 <= (c - 0x10000) / 1024) by (apply Z.div_pos; lia).
    exfalso. lia.
  - injection H as -> ->. now split.
Qed.

Lemma codeUnits_nonempty (c : Z) : Str.codeUnits c <> [].
Proof. unfold Str.codeUnits. destruct (0xFFFF <? c); discriminate. Qed.

Lemma upper_special_nonempty :
  forallb (fun e => negb (Str.eqb (Str.ofCodePoints (snd e)) []))
    Str.upper_special = true.
Proof. vm_compute. reflexivity. Qed.

Lemma upper_units_nonempty (c : Z) : upper_units c <> [].
Proof.
  unfold upper_units.
  destruct (toUppercase_cases c) as [(e & Hin & ->) | [(r & _ & _ & ->) | ->]].
  - pose proof (proj1 (forallb_forall _ _) upper_special_nonempty e Hin) as H.
    cbv beta in H. intros E. rewrite E in H. discriminate.
  - unfold Str.ofCodePoints. simpl. rewrite app_nil_r.
    apply codeUnits_nonempty.
  - unfold Str.ofCodePoints. simpl. rewrite app_nil_r.
    apply codeUnits_nonempty.
Qed.

(** One step of reading an upper-cased string from the left. *)
Lemma upper_units_head (sources : list Z) (x : Z) (rest l : Str.js) (c : Z) :
  only_from sources x rest = true ->
  upper_units c ++ l = x :: rest ->
  In c sources /\ l = rest.
Proof.
  unfold only_from. rewrite !andb_true_iff.
  intros [[[[Hspecial Hruns] Hself] _] Hx]. apply Z.ltb_lt in Hx.
  assert (Hmem : forall y, existsb (Z.eqb y) sources = true -> In y sources).
  { intros y H. apply existsb_exists in H as (z & Hin & Hz).
    apply Z.eqb_eq in Hz. now subst z. }
  unfold upper_units.
  destruct (toUppercase_cases c)
    as [(e & Hin & ->) | [(r & Hin & Hrun & ->) | ->]]; intros H.
  - pose proof (proj1 (forallb_forall _ _) Hspecial e Hin) as Hno.
    cbv beta in Hno. rewrite (begins_app _ _ _ H) in Hno. discriminate.
  - unfold Str.ofCodePoints in H. simpl in H. rewrite app_nil_r in H.
    apply codeUnits_head in H as [Hc ->]; [| exact Hx].
    split; [| reflexivity].
    pose proof (proj1 (forallb_forall _ _) Hruns r Hin) as Hr.
    destruct r as [[[first last] step] difference].
    cbn [snd] in Hc. cbv beta iota in Hr.
    replace (x - difference) with c in Hr by lia.
    rewrite Hrun in Hr. simpl in Hr. now apply Hmem.
  - unfold Str.ofCodePoints in H. simpl in H. rewrite app_nil_r in H.
    apply codeUnits_head in H as [-> ->]; [| exact Hx].
    split; [now apply Hmem | reflexivity].
Qed.

Lemma only_from_upper (sources : list Z) (x : Z) (rest : Str.js) (c : Z) :
  only_from sources x rest = true -> In c sources -> upper_units c = [x].
Proof.
  unfold only_from. rewrite !andb_true_iff.
  intros [[_ Hall] _] Hin. apply eqb_eq.
  exact (proj1 (forallb_forall _ _) Hall c Hin).
Qed.

(** A string whose code points are all below 0x10000 has no surrogate pair:
    it is the list of its code points. *)
Lemma codePoints_basic (s : Str.js) :
  Forall (fun c => c < 0x10000) (Str.codePoints s) -> Str.codePoints s = s.
Proof.
  induction s as [| u r IH]; [reflexivity |].
  cbn [Str.codePoints]. destruct r as [| v r']; [reflexivity |].
  destruct (Str.isLead u && Str.isTrail v) eqn:Hpair; intros H.
  - exfalso. apply Forall_inv in H.
    apply andb_prop in Hpair as [Hu Hv].
    unfold Str.isLead in Hu. unfold Str.isTrail in Hv.
    apply andb_prop in Hu as [Hu _]. apply andb_prop in Hv as [Hv _].
    apply Z.leb_le in Hu. apply Z.leb_le in Hv. lia.
  - f_equal. apply IH. now apply Forall_inv_tail in H.
Qed.

(** The strings that upper-case to a code of three letters. *)
Lemma toUpperCase_spelled (p q r : list Z) (x y z : Z) (s : Str.js) :
  only_from p x [y; z] = true ->
  only_from q y [z] = true ->
  only_from r z [] = true ->
  Forall (fun c => c < 0xD800) (p ++ q ++ r) ->
  (Str.toUpperCase s = [x; y; z] <-> spelled [p; q; r] s).
Proof.
  intros Hp Hq Hr Hsmall. rewrite toUpperCase_flat_map. split.
  - intros H.
    destruct (Str.codePoints s) as [| a l] eqn:Hs; [discriminate |].
    cbn [flat_map] in H.
    apply (upper_units_head _ _ _ _ _ Hp) in H as [Ha H].
    destruct l as [| b l]; [discriminate |].
    cbn [flat_map] in H.
    apply (upper_units_head _ _ _ _ _ Hq) in H as [Hb H].
    destruct l as [| c l]; [discriminate |].
    cbn [flat_map] in H.
    apply (upper_units_head _ _ _ _ _ Hr) in H as [Hc H].
    destruct l as [| d l].
    + assert (Hplain : Str.codePoints s = s).
      { apply codePoints_basic. rewrite Hs.
        rewrite Forall_forall in Hsmall.
        repeat constructor;
          match goal with
          | |- ?c < _ =>
              assert (c < 0xD800) by (apply Hsmall; rewrite !in_app_iff; auto);
              lia
          end. }
      rewrite Hplain in Hs. subst s.
      repeat constructor; assumption.
    + exfalso. cbn [flat_map] in H.
      apply app_eq_nil in H as [H _].
      exact (upper_units_nonempty d H).
  - intros H.
    inversion H as [| p' a ? l Ha H1]; subst.
    inversion H1 as [| q' b ? l' Hb H2]; subst.
    inversion H2 as [| r' c ? l'' Hc H3]; subst.
    inversion H3; subst.
    rewrite codePoints_plain.
    + cbn [flat_map].
      rewrite (only_from_upper _ _ _ _ Hp Ha), (only_from_upper _ _ _ _ Hq Hb),
        (only_from_upper _ _ _ _ Hr Hc).
      reflexivity.
    + rewrite Forall_forall in Hsmall.
      repeat constructor; unfold Str.isLead;
        apply andb_false_iff; left; apply Z.leb_gt;
        apply Hsmall; rewrite !in_app_iff; auto.
Qed.

Lemma toUpperCase_BTC (s : Str.js) :
  Str.toUpperCase s = "BTC" <-> supported_base s.
Proof.
  apply (toUpperCase_spelled [66; 98] [84; 116] [67; 99] 66 84 67 s);
    try (vm_compute; reflexivity).
  repeat constructor.
Qed.

Lemma toUpperCase_USD (s : Str.js) :
  Str.toUpperCase s = "USD" <-> supported_quote s.
Proof.
  apply (toUpperCase_spelled [85; 117] [83; 115; 383] [68; 100] 85 83 68 s);
    try (vm_compute; reflexivity).
  repeat constructor.
Qed.

(** An upper-cased string of code units below 256 has no small letter
    a..z. *)
Lemma toUpperCase_no_lower (s : string) :
  Forall (fun u => Str.isLower u = false) (Str.toUpperCase s).
Proof.
  rewrite toUpperCase_units.
  induction s as [| c s IH]; [constructor |].
  change (Str.units (String c s)) with (Str.unit_of c :: Str.units s).
  cbn [flat_map]. apply Forall_app. split; [| exact IH].
  destruct c as [[] [] [] [] [] [] [] []]; vm_compute; repeat constructor.
Qed.

Lemma downcase_same_letter (a b : ascii) :
  Str.downcase a = Str.downcase b <-> Str.same_letter a b.
Proof.
  unfold Str.same_letter, Str.downcase, Str.isUpper.
  pose proof (nat_of_ascii_bound a) as Ba.
  pose proof (nat_of_ascii_bound b) as Bb.
  destruct ((65 <=? nat_of_ascii a)%nat && (nat_of_ascii a <=? 90)%nat) eqn:Ua;
    destruct ((65 <=? nat_of_ascii b)%nat && (nat_of_ascii b <=? 90)%nat) eqn:Ub.
  - apply andb_prop in Ua as [A1 A2]. apply andb_prop in Ub as [B1 B2].
    apply Nat.leb_le in A1, A2, B1, B2.
    split.
    + intros H. left.
      apply (f_equal nat_of_ascii) in H.
      rewrite !nat_ascii_embedding in H by lia.
      rewrite <- (ascii_nat_embedding a), <- (ascii_nat_embedding b).
      f_equal. lia.
    + intros [-> | [[_ H] | [_ H]]]; [reflexivity | lia | lia].
  - apply andb_prop in Ua as [A1 A2]. apply Nat.leb_le in A1, A2.
    split.
    + intros H. right. left. split; [reflexivity |].
      rewrite <- H. rewrite nat_ascii_embedding by lia. reflexivity.
    + intros [-> | [[_ H] | [H _]]].
      * exfalso. rewrite Bool.andb_false_iff, !Nat.leb_gt in Ub. lia.
      * rewrite <- H. apply ascii_nat_embedding.
      * discriminate.
  - apply andb_prop in Ub as [B1 B2]. apply Nat.leb_le in B1, B2.
    split.
    + intros H. right. right. split; [reflexivity |].
      rewrite H. rewrite nat_ascii_embedding by lia. reflexivity.
    + intros [-> | [[H _] | [_ H]]].
      * exfalso. rewrite Bool.andb_false_iff, !Nat.leb_gt in Ua. lia.
      * discriminate.
      * rewrite <- H. symmetry. apply ascii_nat_embedding.
  - split.
    + intros ->. left. reflexivity.
    + intros [-> | [[H _] | [H _]]]; [reflexivity | discriminate | discriminate].
Qed.

Lemma toLowerCase_eq_ignore_case (s t : string) :
  Str.toLowerCase s = Str.toLowerCase t <-> Str.eq_ignore_case s t.
Proof.
  split.
  - revert t. induction s as [| a s IH]; intros [| b t]; simpl; intros H;
      try discriminate.
    + constructor.
    + injection H as Hc Hs. constructor.
      * now apply downcase_same_letter.
      * now apply IH.
  - induction 1 as [| a b s t Hab _ IH]; simpl; [reflexivity |].
    apply downcase_same_letter in Hab. now rewrite Hab, IH.
Qed.

(** *** Runs of the helper methods *)

Lemma bind_run (A B : Type) (m : Net A) (k : A -> Net B)
    (log log' : list RequestOptions) (a : A) :
  m log = (a, log') -> bind m k log = k a log'.
Proof. intros H. unfold bind. now rewrite H. Qed.

(** The request that [_get] builds for an action. *)
Lemma _get_run (P : Type) (self : Client)
    (transport : RequestOptions -> Response P) (action : string)
    (log : list RequestOptions) :
  exists req,
    req_method req = "GET"
    /\ req_url req = (host self ++ "/api/" ++ action ++ "/")%string
    /\ req_form req = None
    /\ _get self transport action log
       = (requestFunction (transport req), log ++ [req]).
Proof.
  unfold _get, _request, bind, send, ret. simpl.
  eexists. repeat split; reflexivity.
Qed.

Lemma pair_test_false (baseCurrency quoteCurrency : Str.js) :
  Str.toUpperCase baseCurrency = "BTC" ->
  Str.toUpperCase quoteCurrency = "USD" ->
  negb (Str.eqb (Str.toUpperCase baseCurrency) "BTC")
  || negb (Str.eqb (Str.toUpperCase quoteCurrency) "USD") = false.
Proof. intros -> ->. reflexivity. Qed.

Lemma pair_test_true (baseCurrency quoteCurrency : Str.js) :
  ~ (supported_base baseCurrency /\ supported_quote quoteCurrency) ->
  negb (Str.eqb (Str.toUpperCase baseCurrency) "BTC")
  || negb (Str.eqb (Str.toUpperCase quoteCurrency) "USD") = true.
Proof.
  intros H.
  destruct (Str.eqb (Str.toUpperCase baseCurrency) "BTC") eqn:Eb;
    [| reflexivity].
  destruct (Str.eqb (Str.toUpperCase quoteCurrency) "USD") eqn:Eq;
    [| reflexivity].
  apply eqb_eq in Eb, Eq.
  exfalso. apply H.
  split; [now apply toUpperCase_BTC | now apply toUpperCase_USD].
Qed.

(** *** Currency-pair validation *)

(** C9, amended.  [getTicker], [getOrderBook] and [placeTrade] fail with
    the validation error, and leave the log of requests as it was, on every
    pair of codes other than BTC and USD written in capital or small
    letters, where the S of USD may also be the long s (U+017F), which
    [toUpperCase] turns into S as well.  The codes are arbitrary strings of
    code units. *)
Theorem unsupported_pair_is_rejected
    (self : Client)
    (tickerTransport : RequestOptions -> Response RawTicker)
    (bookTransport : RequestOptions -> Response RawOrderBook)
    (orderTransport : RequestOptions -> Response RawPlaced)
    (baseAmount limitPrice : JsValue) (baseCurrency quoteCurrency : Str.js)
    (log : list RequestOptions) :
  ~ (supported_base baseCurrency /\ supported_quote quoteCurrency) ->
  getTicker self tickerTransport baseCurrency quoteCurrency log
  = (inl (CodedError
            "Bitstamp only supports BTC and USD as base and quote currencies, respectively."
            MODULE_ERROR None), log)
  /\ getOrderBook self bookTransport baseCurrency quoteCurrency log
     = (inl (CodedError
               "Bitstamp only supports BTC and USD as base and quote currencies, respectively."
               MODULE_ERROR None), log)
  /\ placeTrade self orderTransport baseAmount limitPrice
       baseCurrency quoteCurrency log
     = (inl (CodedError
               "Base and Quote currencies should be BTC and USD, respectively"
               MODULE_ERROR None), log).
Proof.
  intros H. apply pair_test_true in H.
  unfold getTicker, getOrderBook, placeTrade.
  rewrite H. repeat split; reflexivity.
Qed.

(** *** The response interpreter *)

Lemma matched_message_nonempty (msg : string) :
  test REGEX_PATTERN_BUY_ERROR_INSUFFICIENT_FUNDS msg = true
  \/ test REGEX_PATTERN_SELL_ERROR_INSUFFICIENT_FUNDS msg = true ->
  msg <> "".
Proof. intros [H | H] ->; vm_compute in H; discriminate. Qed.

Lemma or_else_first (msg : string) (b : option string) :
  msg <> "" -> or_else (Some msg) b = Some msg.
Proof. destruct msg; [congruence | reflexivity]. Qed.

(** The message that the check for insufficient funds settles on. *)
Lemma insufficient_funds_message (allErrors : list string) :
  (exists msg,
     In msg allErrors
     /\ (test REGEX_PATTERN_BUY_ERROR_INSUFFICIENT_FUNDS msg = true
         \/ test REGEX_PATTERN_SELL_ERROR_INSUFFICIENT_FUNDS msg = true)) ->
  exists msg,
    or_else (find_message REGEX_PATTERN_BUY_ERROR_INSUFFICIENT_FUNDS allErrors)
            (find_message REGEX_PATTERN_SELL_ERROR_INSUFFICIENT_FUNDS allErrors)
    = Some msg
    /\ In msg allErrors
    /\ msg <> ""
    /\ (test REGEX_PATTERN_BUY_ERROR_INSUFFICIENT_FUNDS msg = true
        \/ test REGEX_PATTERN_SELL_ERROR_INSUFFICIENT_FUNDS msg = true).
Proof.
  intros (m & Hin & Hm). unfold find_message.
  destruct (find (test REGEX_PATTERN_BUY_ERROR_INSUFFICIENT_FUNDS) allErrors)
    as [b |] eqn:Hb.
  - apply find_some in Hb as [Hbin Hbt].
    assert (b <> "") by (apply matched_message_nonempty; now left).
    exists b. rewrite or_else_first by assumption. auto.
  - destruct Hm as [Hm | Hm].
    + pose proof (find_none _ _ Hb _ Hin) as Hf. congruence.
    + destruct (find (test REGEX_PATTERN_SELL_ERROR_INSUFFICIENT_FUNDS) allErrors)
        as [c |] eqn:Hc.
      * apply find_some in Hc as [Hcin Hct].
        assert (c <> "") by (apply matched_message_nonempty; now right).
        exists c. simpl. auto.
      * pose proof (find_none _ _ Hc _ Hin) as Hf. congruence.
Qed.

(** C4. When the parsed body of a response has an [error] field with an
    [__all__] list and some message of the list matches the buy-side or the
    sell-side insufficient-funds pattern, the response interpreter returns,
    in place of the generic server error, an error with the code
    [INSUFFICIENT_FUNDS] whose message is a matching message of the list,
    unchanged: the first buy-side match, or else the first sell-side one. *)
Theorem insufficient_funds_is_reclassified (P : Type) (r : Response P)
    (fields : list (string * list string)) (allErrors : list string)
    (data : P) :
  truthy_opt (resp_err r) = false ->
  truthy_opt (resp_res_error r) = false ->
  resp_body r = Parsed (Some (ErrorFields fields)) data ->
  lookup_field "__all__" fields = Some allErrors ->
  (exists msg,
     In msg allErrors
     /\ (test REGEX_PATTERN_BUY_ERROR_INSUFFICIENT_FUNDS msg = true
         \/ test REGEX_PATTERN_SELL_ERROR_INSUFFICIENT_FUNDS msg = true)) ->
  exists msg,
    In msg allErrors
    /\ (test REGEX_PATTERN_BUY_ERROR_INSUFFICIENT_FUNDS msg = true
        \/ test REGEX_PATTERN_SELL_ERROR_INSUFFICIENT_FUNDS msg = true)
    /\ or_else
         (find_message REGEX_PATTERN_BUY_ERROR_INSUFFICIENT_FUNDS allErrors)
         (find_message REGEX_PATTERN_SELL_ERROR_INSUFFICIENT_FUNDS allErrors)
       = Some msg
    /\ requestFunction r = inl (CodedError msg INSUFFICIENT_FUNDS None)
    /\ requestFunction r
       <> inl (constructError
                 "There is an error in the body of the response from the exchange service..."
                 EXCHANGE_SERVER_ERROR
                 (Some (PayloadError (ErrorFields fields)))).
Proof.
  intros Herr Hres Hbody Hall Hex.
  destruct (insufficient_funds_message _ Hex) as (msg & Hor & Hin & Hne & Hm).
  exists msg. repeat split; try assumption.
  - unfold requestFunction. rewrite Herr, Hbody, Hres. simpl.
    unfold classify_error. simpl. rewrite Hall, Hor.
    destruct msg; [congruence | reflexivity].
  - unfold requestFunction. rewrite Herr, Hbody, Hres. simpl.
    unfold classify_error. simpl. rewrite Hall, Hor.
    destruct msg; [congruence | discriminate].
Qed.

(** *** The transaction normalizer *)

(** C6. The normalized transaction is denominated in USD, with the USD
    amount converted to subunits, when [parseFloat] of the raw BTC amount is
    exactly zero, and in BTC, with the BTC amount converted, otherwise; one
    amount and currency pair is populated, never both. *)
Theorem constructTransactionObject_selects_currency (currentTx : RawTx) :
  let tx := constructTransactionObject currentTx in
  (PrimFloat.eqb (parseFloat (tx_btc currentTx)) 0%float = true ->
   txn_currency tx = "USD"
   /\ txn_amount tx
      = toSmallestSubunit (JsNumber (parseFloat (tx_usd currentTx))) "USD")
  /\ (PrimFloat.eqb (parseFloat (tx_btc currentTx)) 0%float = false ->
      txn_currency tx = "BTC"
      /\ txn_amount tx
         = toSmallestSubunit (JsNumber (parseFloat (tx_btc currentTx))) "BTC")
  /\ (txn_currency tx = "USD" \/ txn_currency tx = "BTC")
  /\ txn_raw tx = currentTx.
Proof.
  unfold constructTransactionObject.
  destruct (PrimFloat.eqb (parseFloat (tx_btc currentTx)) 0%float); simpl;
    repeat split; auto; discriminate.
Qed.

(** *** The order normalizer *)

Lemma fold_left_add_total (l : list Z) (a : Z) :
  fold_left Z.add l a = a + total l.
Proof.
  revert a. induction l as [| x l IH]; intros a; simpl; [lia |].
  rewrite IH. lia.
Qed.

Lemma sum_total (l : list Z) : sum l = total l.
Proof. unfold sum. now rewrite fold_left_add_total. Qed.

Lemma total_opp (l : list Z) : total (map Z.opp l) = - total l.
Proof. induction l as [| x l IH]; simpl; [reflexivity | rewrite IH; lia]. Qed.

Lemma total_positive (l : list Z) :
  l <> [] -> Forall (fun a => 0 < a) l -> 0 < total l.
Proof.
  intros Hne Hall. induction Hall as [| x l Hx Hl IH]; [congruence |].
  simpl. destruct l as [| y l]; [simpl; lia |].
  assert (0 < total (y :: l)) by (apply IH; discriminate). lia.
Qed.

Lemma state_closed_iff (status : string) :
  (if (Str.toLowerCase status =? "finished")%string then "closed" else "open")
  = "closed"
  <-> Str.eq_ignore_case status "finished".
Proof.
  rewrite <- toLowerCase_eq_ignore_case.
  change (Str.toLowerCase "finished") with "finished".
  destruct (Str.toLowerCase status =? "finished")%string eqn:E.
  - apply String.eqb_eq in E. split; [intros _; exact E | reflexivity].
  - apply String.eqb_neq in E. split; [discriminate | contradiction].
Qed.

(** C5. For an order fetched by [getTrade], the base, quote and fee amounts
    of the normalized trade are the sums over the fills of the converted
    amounts, each base amount negated for a sell order and each quote amount
    negated for a buy order; a sell order with at least one fill, all of
    positive base amount, has a negative [baseAmount]; and the state is
    "closed" exactly when the status reported by the exchange is "finished"
    up to letter case, "open" otherwise. *)
Theorem getTrade_aggregates_fills
    (self : Client) (transport : RequestOptions -> Response RawOrderStatus)
    (trade : TradeRef) (order : Order) (log log' : list RequestOptions) :
  getTrade self transport (Some trade) log = (inr order, log') ->
  let fills := os_transactions (ord_raw order) in
  let base := map (fun tx => toSmallestSubunit (fill_btc tx) "BTC") fills in
  let quote := map (fun tx => toSmallestSubunit (fill_usd tx) "USD") fills in
  let fee := map (fun tx => toSmallestSubunit (fill_fee tx) "USD") fills in
  (exists res,
     _post self transport "order_status" (OrderStatusParams (ref_id trade)) log
     = (inr res, log')
     /\ ord_raw order = withId res (ref_id trade)
     /\ os_status (ord_raw order) = os_status res
     /\ fills = os_transactions res)
  /\ (ref_orderType trade = "sell"
      /\ ord_baseAmount order = total (map Z.opp base)
      /\ ord_baseAmount order = - total base
      /\ ord_quoteAmount order = total quote
      \/
      ref_orderType trade = "buy"
      /\ ord_baseAmount order = total base
      /\ ord_quoteAmount order = total (map Z.opp quote)
      /\ ord_quoteAmount order = - total quote)
  /\ ord_feeAmount order = total fee
  /\ (ref_orderType trade = "sell" -> fills <> [] ->
      Forall (fun amount => 0 < amount) base -> ord_baseAmount order < 0)
  /\ (ord_state order = "closed"
      <-> Str.eq_ignore_case (os_status (ord_raw order)) "finished")
  /\ (ord_state order = "open"
      <-> ~ Str.eq_ignore_case (os_status (ord_raw order)) "finished").
Proof.
  unfold getTrade. intros H.
  destruct (ref_orderType trade =? TYPE_SELL_ORDER)%string eqn:Es;
    [| destruct (ref_orderType trade =? TYPE_BUY_ORDER)%string eqn:Eb;
       [| simpl in H; discriminate] ];
    simpl in H;
    destruct (_post self transport "order_status"
                (OrderStatusParams (ref_id trade)) log)
      as [[err | res] log1] eqn:Hpost;
    erewrite bind_run in H by exact Hpost;
    try discriminate;
    injection H as <- <-; cbv zeta; simpl ord_raw; simpl os_transactions;
    simpl os_status; simpl ord_baseAmount; simpl ord_quoteAmount;
    simpl ord_feeAmount; simpl ord_state.
  - apply String.eqb_eq in Es.
    assert (Eb : (ref_orderType trade =? TYPE_BUY_ORDER)%string = false)
      by (rewrite Es; reflexivity).
    rewrite Eb, !sum_total.
    assert (Hbase :
      total (map (fun tx => - toSmallestSubunit (fill_btc tx) "BTC")
               (os_transactions res))
      = - total (map (fun tx => toSmallestSubunit (fill_btc tx) "BTC")
                   (os_transactions res))).
    { rewrite <- total_opp, map_map. reflexivity. }
    split; [exists res; auto |].
    split.
    { left. rewrite Hbase, total_opp. auto. }
    split; [reflexivity |].
    split.
    { intros _ Hne Hpos. rewrite Hbase.
      assert (0 < total (map (fun tx => toSmallestSubunit (fill_btc tx) "BTC")
                           (os_transactions res))).
      { apply total_positive; [| assumption].
        destruct (os_transactions res); [congruence | discriminate]. }
      lia. }
    split; [apply state_closed_iff |].
    rewrite <- state_closed_iff.
    destruct (Str.toLowerCase (os_status res) =? "finished")%string;
      split; congruence.
  - apply String.eqb_eq in Eb.
    rewrite !sum_total.
    assert (Hquote :
      total (map (fun tx => - toSmallestSubunit (fill_usd tx) "USD")
               (os_transactions res))
      = - total (map (fun tx => toSmallestSubunit (fill_usd tx) "USD")
                   (os_transactions res))).
    { rewrite <- total_opp, map_map. reflexivity. }
    split; [exists res; auto |].
    split.
    { right. rewrite Hquote, total_opp. auto. }
    split; [reflexivity |].
    split.
    { intros Hs. rewrite Hs in Es. discriminate. }
    split; [apply state_closed_iff |].
    rewrite <- state_closed_iff.
    destruct (Str.toLowerCase (os_status res) =? "finished")%string;
      split; congruence.
Qed.

(** *** Errors out of the helper methods *)

Lemma classify_error_coded (p : ErrorPayload) : coded (classify_error p).
Proof.
  unfold classify_error, coded, constructError.
  destruct (all_errors p) as [allErrors |]; [| eauto].
  destruct (or_else _ _) as [[| c msg] |]; eauto.
Qed.

Lemma requestFunction_error_coded (P : Type) (r : Response P) (e : JsError) :
  requestFunction r = inl e -> coded e.
Proof.
  unfold requestFunction, coded, constructError.
  destruct (truthy_opt (resp_err r)).
  - intros H. injection H as <-. eauto.
  - destruct (resp_body r) as [| x | error data].
    + intros H. injection H as <-. eauto.
    + destruct (truthy_opt (resp_res_error r)); intros H; injection H as <-;
        eauto.
    + destruct (truthy_opt (resp_res_error r)).
      * intros H. injection H as <-. eauto.
      * destruct error as [p |]; [| discriminate].
        destruct (payload_truthy (Some p)); [| discriminate].
        intros H. injection H as <-. apply classify_error_coded.
Qed.

Lemma coded_truthy (e : JsError) : coded e -> truthy e = true.
Proof. intros (m & c & k & ->). reflexivity. Qed.

Lemma _request_error_coded (P : Type)
    (transport : RequestOptions -> Response P) (params : RequestOptions)
    (log log' : list RequestOptions) (e : JsError) :
  _request transport params log = (inl e, log') -> coded e.
Proof.
  unfold _request.
  destruct (req_method (withUserAgent params) =? "GET")%string.
  - unfold bind, send, ret. intros H. injection H as H _.
    eapply requestFunction_error_coded. eassumption.
  - destruct (req_method (withUserAgent params) =? "POST")%string.
    + unfold bind, send, ret. intros H. injection H as H _.
      eapply requestFunction_error_coded. eassumption.
    + unfold ret. intros H. injection H as <- _.
      unfold coded, constructError. eauto.
Qed.

(** The request that [_post] builds when the credentials are set. *)
Lemma _post_run (P : Type) (self : Client)
    (transport : RequestOptions -> Response P) (action : string)
    (params : PostParams) (log : list RequestOptions) :
  credentials self = true ->
  exists req,
    req_method req = "POST"
    /\ req_url req = (host self ++ "/api/" ++ action ++ "/")%string
    /\ (exists form, req_form req = Some form /\ form_params form = params)
    /\ _post self transport action params log
       = (requestFunction (transport req), log ++ [req]).
Proof.
  unfold credentials, _post. intros H.
  apply negb_true_iff in H. rewrite H.
  unfold bind, Date_getTime, _request, send, ret. simpl.
  eexists. repeat split; try reflexivity.
  eexists. split; reflexivity.
Qed.

(** Without them [_post] hands a bare string to its callback and issues no
    request. *)
Lemma _post_without_credentials (P : Type) (self : Client)
    (transport : RequestOptions -> Response P) (action : string)
    (params : PostParams) (log : list RequestOptions) :
  credentials self = false ->
  _post self transport action params log
  = (inl (BareString
            "Must provide key, secret and client ID to make this API request."),
     log).
Proof.
  unfold credentials, _post. intros H.
  apply negb_false_iff in H. rewrite H. reflexivity.
Qed.

Lemma _post_error_truthy (P : Type) (self : Client)
    (transport : RequestOptions -> Response P) (action : string)
    (params : PostParams) (log log' : list RequestOptions) (e : JsError) :
  _post self transport action params log = (inl e, log') -> truthy e = true.
Proof.
  destruct (credentials self) eqn:Hc.
  - destruct (_post_run P self transport action params log Hc)
      as (req & _ & _ & _ & ->).
    intros H. injection H as H _.
    apply coded_truthy. eapply requestFunction_error_coded. eassumption.
  - rewrite _post_without_credentials by assumption.
    intros H. injection H as <- _. reflexivity.
Qed.

Lemma _post_error_coded (P : Type) (self : Client)
    (transport : RequestOptions -> Response P) (action : string)
    (params : PostParams) (log log' : list RequestOptions) (e : JsError) :
  credentials self = true ->
  _post self transport action params log = (inl e, log') -> coded e.
Proof.
  intros Hc.
  destruct (_post_run P self transport action params log Hc)
    as (req & _ & _ & _ & ->).
  intros H. injection H as H _.
  eapply requestFunction_error_coded. eassumption.
Qed.

(** *** The scan of a page *)

Lemma Date_gt_irrefl (d : Date) : Date_gt d d = false.
Proof. destruct d as [x |]; simpl; [apply Z.ltb_irrefl | reflexivity]. Qed.

Lemma every_accepts (earliestDate : Date) (res : list RawTx) (st : Loop) :
  Forall (fun t => Date_gt earliestDate (Date_parse (tx_datetime t)) = false)
    res ->
  every earliestDate res st
  = {| transactionsAll := transactionsAll st ++ res;
       offset := offset st;
       continueIteration := continueIteration st |}.
Proof.
  intros H. revert st.
  induction H as [| t res Ht _ IH]; intros st; simpl.
  - rewrite app_nil_r. now destruct st.
  - rewrite Ht, IH. simpl. now rewrite <- app_assoc.
Qed.

Lemma every_stops (earliestDate : Date) (pre : list RawTx) (tx : RawTx)
    (rest : list RawTx) (st : Loop) :
  Forall (fun t => Date_gt earliestDate (Date_parse (tx_datetime t)) = false)
    pre ->
  Date_gt earliestDate (Date_parse (tx_datetime tx)) = true ->
  every earliestDate (pre ++ tx :: rest) st
  = {| transactionsAll := transactionsAll st ++ pre;
       offset := offset st;
       continueIteration := false |}.
Proof.
  intros H Htx. revert st.
  induction H as [| t pre Ht _ IH]; intros st; simpl.
  - rewrite Htx, app_nil_r. reflexivity.
  - rewrite Ht, IH. simpl. now rewrite <- app_assoc.
Qed.

(** One turn of the cycle. *)
Lemma doWhilst_step (fuel : nat) (self : Client)
    (transport : RequestOptions -> Response (list RawTx))
    (earliestDate : Date) (st : Loop) (log : list RequestOptions) :
  doWhilst (S fuel) self transport earliestDate st log
  = match post self transport earliestDate st log with
    | (inl err, log1) => (Some (inl err), log1)
    | (inr st1, log1) =>
        if continueIteration st1
        then doWhilst fuel self transport earliestDate st1 log1
        else (Some (inr (transactionsAll st1)), log1)
    end.
Proof.
  simpl. unfold bind at 1, check.
  destruct (post self transport earliestDate st log) as [[err | st1] log1];
    [reflexivity |].
  destruct (continueIteration st1); reflexivity.
Qed.

(** X19. The moment the scan of a page meets a transaction whose timestamp
    is strictly older than the boundary, it stops: that transaction and the
    later ones of the page are not appended, the ones before it are, and
    the loop ends after this iteration.  A transaction whose timestamp
    equals the boundary is not older: the scan appends it and goes on. *)
Theorem scan_stops_at_older_transaction
    (self : Client) (transport : RequestOptions -> Response (list RawTx))
    (earliestDate : Date) (st : Loop)
    (pre : list RawTx) (tx : RawTx) (rest : list RawTx)
    (log log' : list RequestOptions) (fuel : nat) :
  Forall (fun t => Date_gt earliestDate (Date_parse (tx_datetime t)) = false)
    pre ->
  Date_gt earliestDate (Date_parse (tx_datetime tx)) = true ->
  _post self transport "user_transactions"
    (TxListParams BITSTAMP_REQUEST_LIMIT (offset st) "desc") log
  = (inr (pre ++ tx :: rest), log') ->
  every earliestDate (pre ++ tx :: rest) st
  = {| transactionsAll := transactionsAll st ++ pre;
       offset := offset st;
       continueIteration := false |}
  /\ (exists st',
        post self transport earliestDate st log = (inr st', log')
        /\ transactionsAll st' = transactionsAll st ++ pre
        /\ continueIteration st' = false)
  /\ doWhilst (S fuel) self transport earliestDate st log
     = (Some (inr (transactionsAll st ++ pre)), log')
  /\ (forall t st0,
        Date_parse (tx_datetime t) = earliestDate ->
        every earliestDate [t] st0
        = {| transactionsAll := transactionsAll st0 ++ [t];
             offset := offset st0;
             continueIteration := continueIteration st0 |}).
Proof.
  intros Hpre Htx Hpost.
  pose proof (every_stops earliestDate pre tx rest st Hpre Htx) as Hevery.
  assert (Hstep :
    post self transport earliestDate st log
    = (inr (onPage earliestDate (pre ++ tx :: rest) st), log')).
  { unfold post. erewrite bind_run by exact Hpost. reflexivity. }
  assert (Hall :
    transactionsAll (onPage earliestDate (pre ++ tx :: rest) st)
    = transactionsAll st ++ pre)
    by (unfold onPage; rewrite Hevery; reflexivity).
  assert (Hflag :
    continueIteration (onPage earliestDate (pre ++ tx :: rest) st) = false).
  { unfold onPage. rewrite Hevery. simpl.
    now destruct (Z.of_nat (List.length (pre ++ tx :: rest))
                  <? BITSTAMP_REQUEST_LIMIT). }
  split; [exact Hevery |].
  split; [eexists; eauto |].
  split.
  - rewrite doWhilst_step, Hstep, Hflag, Hall. reflexivity.
  - intros t st0 <-. apply every_accepts.
    constructor; [apply Date_gt_irrefl | constructor].
Qed.

(** *** Failure of a page *)


Lemma post_error (self : Client)
    (transport : RequestOptions -> Response (list RawTx))
    (earliestDate : Date) (st : Loop) (log log' : list RequestOptions)
    (cause : JsError) :
  post self transport earliestDate st log = (inl cause, log') ->
  _post self transport "user_transactions"
    (TxListParams BITSTAMP_REQUEST_LIMIT (offset st) "desc") log
  = (inl cause, log').
Proof.
  unfold post.
  destruct (_post self transport "user_transactions"
              (TxListParams BITSTAMP_REQUEST_LIMIT (offset st) "desc") log)
    as [[err | res] log1] eqn:Hpost;
    erewrite bind_run by exact Hpost; unfold ret; intros H.
  - injection H as <- <-. reflexivity.
  - discriminate.
Qed.


(** *** The paginator against an exchange that serves a history *)

Lemma requestFunction_respond (P : Type) (data : P) :
  requestFunction (respond data) = inr data.
Proof. reflexivity. Qed.

Lemma post_exchange (self : Client) (history : list RawTx)
    (earliestDate : Date) (st : Loop) (log : list RequestOptions) :
  credentials self = true ->
  exists req,
    requested_limit req = Some BITSTAMP_REQUEST_LIMIT
    /\ requested_offset req = Some (offset st)
    /\ post self (exchange history) earliestDate st log
       = (inr (onPage earliestDate
                 (page history BITSTAMP_REQUEST_LIMIT (offset st)) st),
          log ++ [req]).
Proof.
  intros Hc.
  destruct (_post_run _ self (exchange history) "user_transactions"
              (TxListParams BITSTAMP_REQUEST_LIMIT (offset st) "desc") log Hc)
    as (req & _ & _ & (form & Hform & Hparams) & Hrun).
  exists req.
  unfold requested_limit, requested_offset. rewrite Hform, Hparams.
  repeat split.
  unfold post. erewrite bind_run by exact Hrun.
  unfold exchange. rewrite Hform, Hparams.
  rewrite requestFunction_respond. reflexivity.
Qed.

Lemma every_offset (earliestDate : Date) (res : list RawTx) (st : Loop) :
  offset (every earliestDate res st) = offset st.
Proof.
  revert st. induction res as [| tx res IH]; intros st; simpl; [reflexivity |].
  destruct (Date_gt earliestDate (Date_parse (tx_datetime tx)));
    [reflexivity | now rewrite IH].
Qed.

Lemma onPage_offset (earliestDate : Date) (res : list RawTx) (st : Loop) :
  offset (onPage earliestDate res st) = offset st + responseLength.
Proof. unfold onPage. simpl. now rewrite every_offset. Qed.

Lemma onPage_continues (earliestDate : Date) (res : list RawTx) (st : Loop) :
  continueIteration (onPage earliestDate res st) = true ->
  BITSTAMP_REQUEST_LIMIT <= Z.of_nat (List.length res).
Proof.
  unfold onPage. simpl.
  destruct (Z.of_nat (List.length res) <? BITSTAMP_REQUEST_LIMIT) eqn:E;
    [discriminate |].
  intros _. apply Z.ltb_ge. exact E.
Qed.

Lemma page_length (history : list RawTx) (limit offset : Z) :
  List.length (page history limit offset)
  = Nat.min (Z.to_nat limit) (List.length history - Z.to_nat offset).
Proof. unfold page. now rewrite length_firstn, length_skipn. Qed.

(** The cycle ends on every finite history. *)
Lemma doWhilst_exchange_terminates (self : Client) (history : list RawTx)
    (earliestDate : Date) :
  credentials self = true ->
  forall (fuel : nat) (st : Loop) (log : list RequestOptions),
    0 <= offset st ->
    (List.length history - Z.to_nat (offset st) < fuel)%nat ->
    exists txs log',
      doWhilst fuel self (exchange history) earliestDate st log
      = (Some (inr txs), log').
Proof.
  intros Hc. induction fuel as [| fuel IH]; intros st log Hoff Hfuel; [lia |].
  destruct (post_exchange self history earliestDate st log Hc)
    as (req & _ & _ & Hpost).
  rewrite doWhilst_step, Hpost.
  destruct (continueIteration
              (onPage earliestDate
                 (page history BITSTAMP_REQUEST_LIMIT (offset st)) st))
    eqn:Hflag; [| eauto].
  apply onPage_continues in Hflag. rewrite page_length in Hflag.
  unfold BITSTAMP_REQUEST_LIMIT in Hflag.
  apply IH; rewrite onPage_offset; unfold responseLength; lia.
Qed.

Lemma iterateRequestTxs_terminates (self : Client) (history : list RawTx)
    (earliestDate : Date) (log : list RequestOptions) :
  credentials self = true ->
  exists fuel txs log',
    iterateRequestTxs fuel self (exchange history) earliestDate log
    = (Some (inr txs), log').
Proof.
  intros Hc.
  destruct (doWhilst_exchange_terminates self history earliestDate Hc
              (S (List.length history)) initial log)
    as (txs & log' & Hrun); [simpl; lia | simpl; lia |].
  exists (S (List.length history)), txs, log'.
  unfold iterateRequestTxs. erewrite bind_run by exact Hrun. reflexivity.
Qed.

(** *** Validation of the arguments of [placeTrade] *)

(** What the two checks of [placeTrade] reject and what they let through:
    an amount that is not a number or is zero, a price that is not a number
    or is below zero are rejected before any request; every other pair of
    numbers, a price of zero included, goes on to the request. *)
Lemma placeTrade_checks
    (self : Client) (transport : RequestOptions -> Response RawPlaced)
    (baseAmount limitPrice : JsValue) (log : list RequestOptions) :
  ((forall amount, baseAmount = JsNumber amount ->
                   PrimFloat.eqb amount 0%float = true) ->
   placeTrade self transport baseAmount limitPrice "BTC" "USD" log
   = (inl (CodedError "The base amount must be a number." MODULE_ERROR None),
      log))
  /\ (forall amount,
        baseAmount = JsNumber amount ->
        PrimFloat.eqb amount 0%float = false ->
        (forall price, limitPrice = JsNumber price ->
                       PrimFloat.ltb price 0%float = true) ->
        placeTrade self transport baseAmount limitPrice "BTC" "USD" log
        = (inl (CodedError "The limit price must be a positive number."
                  MODULE_ERROR None), log))
  /\ (forall amount price,
        baseAmount = JsNumber amount ->
        PrimFloat.eqb amount 0%float = false ->
        limitPrice = JsNumber price ->
        PrimFloat.ltb price 0%float = false ->
        credentials self = true ->
        exists req form,
          snd (placeTrade self transport baseAmount limitPrice "BTC" "USD" log)
          = log ++ [req]
          /\ req_method req = "POST"
          /\ req_form req = Some form
          /\ exists amountMainUnit,
               form_params form = OrderParams amountMainUnit price).
Proof.
  unfold placeTrade. cbv zeta.
  change (Str.toUpperCase "BTC") with (Str.units "BTC").
  change (Str.toUpperCase "USD") with (Str.units "USD").
  change (negb (Str.eqb "BTC" "BTC") || negb (Str.eqb "USD" "USD"))
    with false. cbv iota.
  split; [| split].
  - intros H. destruct baseAmount as [| | | amount |]; try reflexivity.
    rewrite (H amount eq_refl). reflexivity.
  - intros amount -> Ha H. rewrite Ha.
    destruct limitPrice as [| | | price |]; try reflexivity.
    rewrite (H price eq_refl). reflexivity.
  - intros amount price -> Ha -> Hp Hc. rewrite Ha, Hp.
    match goal with
    | |- context [_post ?s ?t ?a ?p] =>
        destruct (_post_run _ s t a p log Hc)
          as (req & Hm & _ & (form & Hform & Hparams) & Hrun)
    end.
    exists req, form.
    erewrite bind_run by exact Hrun.
    repeat split; try assumption.
    + destruct (requestFunction (transport req)); reflexivity.
    + eexists. exact Hparams.
Qed.

(** *** Errors surfaced by the public operations *)

(** What the response handler returns as an error, case by case, with the
    cause it keeps. *)
Lemma requestFunction_cause (P : Type) (r : Response P) (e : JsError) :
  requestFunction r = inl e -> response_error r e.
Proof.
  unfold requestFunction, constructError.
  destruct (truthy_opt (resp_err r)) eqn:Herr.
  - intros H. injection H as <-. now apply transport_failed.
  - destruct (resp_body r) as [| x | error data] eqn:Hbody.
    + intros H. injection H as <-. now apply body_missing.
    + destruct (truthy_opt (resp_res_error r)) eqn:Hres;
        intros H; injection H as <-.
      * now apply response_flagged.
      * simpl. destruct (truthy x) eqn:Hx.
        -- now apply body_unparsable.
        -- now apply body_unparsable_falsy with (x := x).
    + destruct (truthy_opt (resp_res_error r)) eqn:Hres.
      * intros H. injection H as <-. now apply response_flagged.
      * destruct error as [p |]; [| discriminate].
        destruct (payload_truthy (Some p)); [| discriminate].
        intros H. injection H as <-.
        unfold classify_error, constructError. simpl.
        destruct (all_errors p) as [allErrors |] eqn:Hall;
          [| now apply payload_generic with (data := data)].
        destruct (or_else _ _) as [[| c msg] |] eqn:Hor;
          try (now apply payload_generic with (data := data)).
        apply payload_insufficient_funds
          with (p := p) (data := data) (allErrors := allErrors);
          try assumption.
        unfold or_else, find_message in Hor.
        destruct (find (test REGEX_PATTERN_BUY_ERROR_INSUFFICIENT_FUNDS)
                    allErrors) as [[| c1 m1] |] eqn:Hb.
        -- apply find_some in Hor as [Hin _]. exact Hin.
        -- injection Hor as <- <-. apply find_some in Hb as [Hin _].
           exact Hin.
        -- apply find_some in Hor as [Hin _]. exact Hin.
Qed.

(** The error of a listing run is the listing error around the error of the
    page that failed. *)
Lemma doWhilst_error (self : Client)
    (transport : RequestOptions -> Response (list RawTx))
    (earliestDate : Date) (fuel : nat) :
  forall (st : Loop) (log log' : list RequestOptions) (cause : JsError),
    doWhilst fuel self transport earliestDate st log
    = (Some (inl cause), log') ->
    exists st1 log1,
      post self transport earliestDate st1 log1 = (inl cause, log').
Proof.
  induction fuel as [| fuel IH]; intros st log log' cause; [discriminate |].
  rewrite doWhilst_step.
  destruct (post self transport earliestDate st log) as [[err | st1] log1]
    eqn:Hpost.
  - intros H. injection H as <- <-. eauto.
  - destruct (continueIteration st1); [apply IH | discriminate].
Qed.

Lemma iterateRequestTxs_error (self : Client)
    (transport : RequestOptions -> Response (list RawTx))
    (earliestDate : Date) (fuel : nat) (log log' : list RequestOptions)
    (e : JsError) :
  iterateRequestTxs fuel self transport earliestDate log
  = (Some (inl e), log') ->
  exists cause st1 log1,
    post self transport earliestDate st1 log1 = (inl cause, log')
    /\ e = CodedError "Trades could not be listed." MODULE_ERROR (Some cause).
Proof.
  unfold iterateRequestTxs.
  destruct (doWhilst fuel self transport earliestDate initial log)
    as [[[cause | txs] |] log1] eqn:Hloop;
    erewrite bind_run by exact Hloop; unfold ret; simpl; intros H;
    try discriminate.
  injection H as <- <-.
  destruct (doWhilst_error _ _ _ _ _ _ _ _ Hloop) as (st1 & log2 & Hpost).
  exists cause, st1, log2. split; [exact Hpost |].
  unfold constructError. simpl.
  erewrite _post_error_truthy; [reflexivity |].
  eapply post_error. exact Hpost.
Qed.

(* ------------------------------------------------------------------ *)
(** *** Further properties of the helper methods *)

(** X1. Without the key, the secret or the client identifier, no
    authenticated operation hands a request to the transport: [getBalance],
    [getTrade] and [placeTrade] (on arguments that pass their validation)
    end with the refusal of [_post], and the two listing operations end with
    the listing error around it. *)
Theorem no_request_without_credentials
    (self : Client)
    (balanceTransport : RequestOptions -> Response RawBalance)
    (statusTransport : RequestOptions -> Response RawOrderStatus)
    (listTransport : RequestOptions -> Response (list RawTx))
    (orderTransport : RequestOptions -> Response RawPlaced)
    (trade : TradeRef) (latest : option Latest) (amount price : float)
    (fuel : nat) (log : list RequestOptions) :
  credentials self = false ->
  getBalance self balanceTransport log = (inl refusal, log)
  /\ (ref_orderType trade = TYPE_SELL_ORDER
      \/ ref_orderType trade = TYPE_BUY_ORDER ->
      getTrade self statusTransport (Some trade) log = (inl refusal, log))
  /\ (PrimFloat.eqb amount 0%float = false ->
      PrimFloat.ltb price 0%float = false ->
      placeTrade self orderTransport (JsNumber amount) (JsNumber price)
        "BTC" "USD" log = (inl refusal, log))
  /\ listTransactions (S fuel) self listTransport latest log
     = (Some (inl (CodedError "Trades could not be listed." MODULE_ERROR
                     (Some refusal))), log)
  /\ listTrades (S fuel) self listTransport latest log
     = (Some (inl (CodedError "Trades could not be listed." MODULE_ERROR
                     (Some refusal))), log).
Proof.
  intros Hc.
  assert (Hlist : forall earliestDate,
    iterateRequestTxs (S fuel) self listTransport earliestDate log
    = (Some (inl (CodedError "Trades could not be listed." MODULE_ERROR
                    (Some refusal))), log)).
  { intros earliestDate.
    assert (Hloop :
      doWhilst (S fuel) self listTransport earliestDate initial log
      = (Some (inl refusal), log)).
    { rewrite doWhilst_step. unfold post.
      erewrite bind_run by (apply _post_without_credentials; exact Hc).
      reflexivity. }
    unfold iterateRequestTxs. erewrite bind_run by exact Hloop.
    reflexivity. }
  split; [| split; [| split; [| split]]].
  - unfold getBalance.
    erewrite bind_run by (apply _post_without_credentials; exact Hc).
    reflexivity.
  - intros Hside. unfold getTrade.
    replace (negb (ref_orderType trade =? TYPE_SELL_ORDER)%string
             && negb (ref_orderType trade =? TYPE_BUY_ORDER)%string)
      with false.
    + erewrite bind_run by (apply _post_without_credentials; exact Hc).
      reflexivity.
    + destruct Hside as [-> | ->]; reflexivity.
  - intros Ha Hp. unfold placeTrade. cbv zeta.
    change (Str.toUpperCase "BTC") with (Str.units "BTC").
    change (Str.toUpperCase "USD") with (Str.units "USD").
    change (negb (Str.eqb "BTC" "BTC") || negb (Str.eqb "USD" "USD"))
      with false. cbv iota.
    rewrite Ha, Hp.
    erewrite bind_run by (apply _post_without_credentials; exact Hc).
    reflexivity.
  - unfold listTransactions. cbv zeta.
    erewrite bind_run by apply Hlist. reflexivity.
  - unfold listTrades. cbv zeta.
    erewrite bind_run by apply Hlist. reflexivity.
Qed.

(** *** Further properties of the response interpreter *)

(** X2. The response interpreter hands the parsed body to the caller
    exactly when the transport reported no error, the response object has no
    error, and the body parsed to a value whose [error] field is absent or
    falsy (the empty string); in every other case it returns an error. *)
Theorem requestFunction_success_iff (P : Type) (r : Response P) (data : P) :
  requestFunction r = inr data
  <-> truthy_opt (resp_err r) = false
      /\ truthy_opt (resp_res_error r) = false
      /\ exists error,
           resp_body r = Parsed error data /\ payload_truthy error = false.
Proof.
  unfold requestFunction. split.
  - destruct (truthy_opt (resp_err r)); [discriminate |].
    destruct (resp_body r) as [| x | error d]; [discriminate | |].
    + destruct (truthy_opt (resp_res_error r)); discriminate.
    + destruct (truthy_opt (resp_res_error r)); [discriminate |].
      destruct error as [p |].
      * destruct (payload_truthy (Some p)) eqn:Hp; [discriminate |].
        intros H. injection H as ->. eauto.
      * intros H. injection H as ->.
        repeat split. exists None. split; reflexivity.
  - intros (-> & -> & error & -> & Hp).
    destruct error as [p |]; [| reflexivity].
    rewrite Hp. reflexivity.
Qed.

Lemma find_message_matches (pattern : Regex.t) (allErrors : list string)
    (msg : string) :
  find_message pattern allErrors = Some msg ->
  In msg allErrors /\ test pattern msg = true.
Proof. unfold find_message. apply find_some. Qed.

(** X3. On a body with an error payload, the interpreter reports
    insufficient funds only when the exchange said so: the error has the
    code [INSUFFICIENT_FUNDS] exactly when the [__all__] list of the payload
    holds a message that matches one of the two patterns, and then its
    message is such a message; otherwise the error is the generic server
    error with the payload as its cause.  Messages under other fields, and
    a payload that is a plain string, are never reclassified. *)
Theorem reclassification_only_on_match (p : ErrorPayload) :
  (error_code (classify_error p) = Some INSUFFICIENT_FUNDS
   <-> exists allErrors msg,
         all_errors p = Some allErrors /\ In msg allErrors
         /\ (test REGEX_PATTERN_BUY_ERROR_INSUFFICIENT_FUNDS msg = true
             \/ test REGEX_PATTERN_SELL_ERROR_INSUFFICIENT_FUNDS msg = true))
  /\ (error_code (classify_error p) = Some INSUFFICIENT_FUNDS ->
      exists allErrors msg,
        all_errors p = Some allErrors /\ In msg allErrors
        /\ (test REGEX_PATTERN_BUY_ERROR_INSUFFICIENT_FUNDS msg = true
            \/ test REGEX_PATTERN_SELL_ERROR_INSUFFICIENT_FUNDS msg = true)
        /\ classify_error p = CodedError msg INSUFFICIENT_FUNDS None)
  /\ (error_code (classify_error p) <> Some INSUFFICIENT_FUNDS ->
      classify_error p
      = CodedError
          "There is an error in the body of the response from the exchange service..."
          EXCHANGE_SERVER_ERROR (Some (PayloadError p)))
  /\ (forall text, p = ErrorText text ->
      error_code (classify_error p) = Some EXCHANGE_SERVER_ERROR).
Proof.
  assert (Hfwd :
    error_code (classify_error p) = Some INSUFFICIENT_FUNDS ->
    exists allErrors msg,
      all_errors p = Some allErrors /\ In msg allErrors
      /\ (test REGEX_PATTERN_BUY_ERROR_INSUFFICIENT_FUNDS msg = true
          \/ test REGEX_PATTERN_SELL_ERROR_INSUFFICIENT_FUNDS msg = true)
      /\ classify_error p = CodedError msg INSUFFICIENT_FUNDS None).
  { unfold classify_error, constructError. simpl.
    destruct (all_errors p) as [allErrors |]; [| discriminate].
    destruct (or_else _ _) as [[| c msg] |] eqn:Hor; try discriminate.
    intros _. exists allErrors, (String c msg).
    split; [reflexivity |].
    unfold or_else in Hor.
    destruct (find_message REGEX_PATTERN_BUY_ERROR_INSUFFICIENT_FUNDS
                allErrors) as [[| c1 m1] |] eqn:Hb.
    - apply find_message_matches in Hor as [Hin Ht]. auto.
    - injection Hor as <- <-.
      apply find_message_matches in Hb as [Hin Ht]. auto.
    - apply find_message_matches in Hor as [Hin Ht]. auto. }
  split; [| split; [exact Hfwd | split]].
  - split.
    + intros H. destruct (Hfwd H) as (allErrors & msg & H1 & H2 & H3 & _).
      eauto.
    + intros (allErrors & msg & Hall & Hin & Hm).
      unfold classify_error. rewrite Hall.
      destruct (insufficient_funds_message allErrors)
        as (m & Hor & _ & Hne & _); [eauto |].
      rewrite Hor. destruct m; [congruence | reflexivity].
  - unfold classify_error, constructError. simpl.
    destruct (all_errors p) as [allErrors |]; [| reflexivity].
    destruct (or_else _ _) as [[| c msg] |]; try reflexivity.
    simpl. congruence.
  - intros text ->. reflexivity.
Qed.

(** *** The language of the two patterns *)

Lemma lang_seq_iff (r s : Regex.t) (w : string) :
  Regex.lang (Regex.Seq r s) w
  <-> exists u v, w = (u ++ v)%string /\ Regex.lang r u /\ Regex.lang s v.
Proof.
  split; [apply lang_seq_inv |].
  intros (u & v & -> & Hu & Hv). now apply Regex.lang_seq.
Qed.

Lemma lang_chr_iff (k : Regex.cls) (w : string) :
  Regex.lang (Regex.Chr k) w
  <-> exists c, w = String c "" /\ Regex.cls_mem k c = true.
Proof.
  split.
  - intros H. inversion H; subst. eauto.
  - intros (c & -> & Hc). now constructor.
Qed.

Lemma lit_mem (d c : ascii) :
  Regex.cls_mem (Regex.Lit d) c = true <-> d = c.
Proof. unfold Regex.cls_mem. cbv zeta. apply Ascii.eqb_eq. Qed.

Lemma lang_text_iff (s w : string) : Regex.lang (Regex.text s) w <-> w = s.
Proof.
  revert w. induction s as [| c s IH]; intros w; simpl.
  - split; [apply lang_eps_inv | intros ->; constructor].
  - rewrite lang_seq_iff. split.
    + intros (u & v & -> & Hu & Hv).
      apply lang_chr_iff in Hu as (c0 & -> & Hc).
      apply lit_mem in Hc. subst c0.
      apply IH in Hv. subst v. reflexivity.
    + intros ->. exists (String c ""), s. split; [reflexivity |].
      split; [| now apply IH].
      apply lang_chr_iff. exists c. split; [reflexivity |].
      now apply lit_mem.
Qed.

Lemma lang_star_chr (k : Regex.cls) (w : string) :
  Regex.lang (Regex.Star (Regex.Chr k)) w
  <-> all_chars (fun c => Regex.cls_mem k c = true) w.
Proof.
  split.
  - intros H. remember (Regex.Star (Regex.Chr k)) as e eqn:He.
    induction H as [| | | | | | r u v Hu _ Hv IHv]; try discriminate;
      [exact I |].
    injection He as ->.
    apply lang_chr_iff in Hu as (c & -> & Hc).
    simpl. split; [exact Hc | now apply IHv].
  - induction w as [| c w IH]; simpl.
    + intros _. constructor.
    + intros [Hc Hw].
      apply (@Regex.lang_star_more (Regex.Chr k) (String c "") w).
      * apply lang_chr_iff. eauto.
      * now apply IH.
Qed.

Lemma digit_mem (c : ascii) : Regex.cls_mem Regex.Digit c = true <-> is_digit c.
Proof.
  unfold is_digit, Regex.cls_mem. cbv zeta.
  rewrite andb_true_iff, !Nat.leb_le. reflexivity.
Qed.

Lemma capital_mem (c : ascii) :
  Regex.cls_mem Regex.UpperAZ c = true <-> is_capital c.
Proof.
  unfold is_capital, Regex.cls_mem. cbv zeta.
  rewrite andb_true_iff, !Nat.leb_le. reflexivity.
Qed.

Lemma any_mem (c : ascii) :
  Regex.cls_mem Regex.AnyChar c = true <-> ~ is_line_end c.
Proof.
  unfold is_line_end, Regex.cls_mem. cbv zeta.
  rewrite negb_true_iff, orb_false_iff, !Nat.eqb_neq.
  split; [intros [H1 H2] [H | H]; contradiction |].
  intros H. split; intros E; apply H; auto.
Qed.

Lemma all_digits (w : string) :
  all_chars (fun c => Regex.cls_mem Regex.Digit c = true) w
  <-> all_chars is_digit w.
Proof.
  induction w as [| c w IH]; cbn [all_chars]; [reflexivity |].
  now rewrite digit_mem, IH.
Qed.

Lemma lang_digits (w : string) :
  Regex.lang (Regex.plus (Regex.Chr Regex.Digit)) w <-> digits w.
Proof.
  unfold Regex.plus, digits. rewrite lang_seq_iff. split.
  - intros (u & v & -> & Hu & Hv).
    apply lang_chr_iff in Hu as (c & -> & Hc).
    apply lang_star_chr, all_digits in Hv.
    simpl. split; [discriminate |]. split; [now apply digit_mem | exact Hv].
  - intros [Hne Hall]. destruct w as [| c w]; [congruence |].
    simpl in Hall. destruct Hall as [Hc Hw].
    exists (String c ""), w. split; [reflexivity |]. split.
    + apply lang_chr_iff. exists c. split; [reflexivity | now apply digit_mem].
    + now apply lang_star_chr, all_digits.
Qed.

Lemma lang_decimal (w : string) :
  Regex.lang Regex.decimal w <-> decimal_numeral w.
Proof.
  unfold Regex.decimal, Regex.opt, decimal_numeral.
  rewrite lang_seq_iff. split.
  - intros (i & v & -> & Hi & Hv). apply lang_digits in Hi.
    apply lang_alt_inv in Hv as [Hv | Hv].
    + apply lang_seq_iff in Hv as (p & f & -> & Hp & Hf).
      apply lang_chr_iff in Hp as (c & -> & Hc).
      apply lit_mem in Hc. subst c.
      apply lang_digits in Hf. right. exists i, f. auto.
    + apply lang_eps_inv in Hv as ->. rewrite append_nil_r. now left.
  - intros [Hd | (i & f & -> & Hi & Hf)].
    + exists w, "". rewrite append_nil_r. split; [reflexivity |].
      split; [now apply lang_digits |].
      apply Regex.lang_alt_r. constructor.
    + exists i, ("." ++ f)%string. split; [reflexivity |].
      split; [now apply lang_digits |].
      apply Regex.lang_alt_l.
      apply (@Regex.lang_seq _ _ "." f).
      * apply lang_chr_iff. exists "."%char.
        split; [reflexivity | now apply lit_mem].
      * now apply lang_digits.
Qed.

Lemma lang_currency (w : string) :
  Regex.lang Regex.currency w <-> currency_code w.
Proof.
  unfold Regex.currency, Regex.times3, currency_code.
  rewrite lang_seq_iff. split.
  - intros (u & v & -> & Hu & Hv).
    apply lang_seq_iff in Hv as (v1 & v2 & -> & Hv1 & Hv2).
    apply lang_chr_iff in Hu as (a & -> & Ha).
    apply lang_chr_iff in Hv1 as (b & -> & Hb).
    apply lang_chr_iff in Hv2 as (c & -> & Hc).
    exists a, b, c. rewrite <- !capital_mem. auto.
  - intros (a & b & c & -> & Ha & Hb & Hc).
    exists (String a ""), (String b (String c "")).
    split; [reflexivity |]. split.
    + apply lang_chr_iff. exists a. split; [reflexivity | now apply capital_mem].
    + apply (@Regex.lang_seq _ _ (String b "") (String c "")).
      * apply lang_chr_iff. exists b.
        split; [reflexivity | now apply capital_mem].
      * apply lang_chr_iff. exists c.
        split; [reflexivity | now apply capital_mem].
Qed.

Lemma lang_dot (w : string) :
  Regex.lang Regex.dot w <-> exists c, w = String c "" /\ ~ is_line_end c.
Proof.
  unfold Regex.dot. rewrite lang_chr_iff.
  split; intros (c & -> & Hc); exists c; split; try reflexivity;
    now apply any_mem.
Qed.

(** X4. The sell-side pattern accepts exactly the messages
    "You have only <amount> <CCY> available<c> Check your account balance
    for details<d>", where the amount is a decimal numeral, the currency is
    three capital letters, and <c> and <d>, written as unescaped full stops
    in the pattern, are any two characters other than a line end. *)
Theorem sell_pattern_accepts (msg : string) :
  test REGEX_PATTERN_SELL_ERROR_INSUFFICIENT_FUNDS msg = true
  <-> exists amount code c d,
        decimal_numeral amount /\ currency_code code
        /\ ~ is_line_end c /\ ~ is_line_end d
        /\ msg
           = ("You have only " ++ amount ++ " " ++ code ++ " available"
              ++ String c " Check your account balance for details"
              ++ String d "")%string.
Proof.
  rewrite test_lang.
  unfold REGEX_PATTERN_SELL_ERROR_INSUFFICIENT_FUNDS, Regex.cat.
  split.
  - intros H.
    apply lang_seq_iff in H as (u1 & w1 & -> & H1 & H).
    apply lang_seq_iff in H as (amount & w2 & -> & Ha & H).
    apply lang_seq_iff in H as (u3 & w3 & -> & H3 & H).
    apply lang_seq_iff in H as (code & w4 & -> & Hcode & H).
    apply lang_seq_iff in H as (u5 & w5 & -> & H5 & H).
    apply lang_seq_iff in H as (u6 & w6 & -> & H6 & H).
    apply lang_seq_iff in H as (u7 & w7 & -> & H7 & H).
    apply lang_seq_iff in H as (u8 & w8 & -> & H8 & H).
    apply lang_eps_inv in H as ->.
    apply lang_text_iff in H1, H3, H5, H7. subst.
    apply lang_decimal in Ha. apply lang_currency in Hcode.
    apply lang_dot in H6 as (c & -> & Hc).
    apply lang_dot in H8 as (d & -> & Hd).
    exists amount, code, c, d. repeat split; assumption.
  - intros (amount & code & c & d & Ha & Hcode & Hc & Hd & ->).
    apply Regex.lang_seq; [now apply lang_text_iff |].
    apply Regex.lang_seq; [now apply lang_decimal |].
    apply Regex.lang_seq; [now apply lang_text_iff |].
    apply Regex.lang_seq; [now apply lang_currency |].
    apply Regex.lang_seq; [now apply lang_text_iff |].
    apply (@Regex.lang_seq _ _ (String c "")
             (" Check your account balance for details" ++ String d ""));
      [apply lang_dot; eauto |].
    apply Regex.lang_seq; [now apply lang_text_iff |].
    apply (@Regex.lang_seq _ _ (String d "") "");
      [apply lang_dot; eauto | constructor].
Qed.

(** X5. The buy-side pattern accepts exactly the messages
    "You need <amount> <CCY> to open that order<c> You have only <amount>
    <CCY> available<d> Check your account balance for details<e>", with
    decimal numerals, currencies of three capital letters, and any three
    characters other than a line end in the place of the full stops. *)
Theorem buy_pattern_accepts (msg : string) :
  test REGEX_PATTERN_BUY_ERROR_INSUFFICIENT_FUNDS msg = true
  <-> exists needed code1 available code2 c d e,
        decimal_numeral needed /\ currency_code code1
        /\ decimal_numeral available /\ currency_code code2
        /\ ~ is_line_end c /\ ~ is_line_end d /\ ~ is_line_end e
        /\ msg
           = ("You need " ++ needed ++ " " ++ code1 ++ " to open that order"
              ++ String c " You have only " ++ available ++ " " ++ code2
              ++ " available"
              ++ String d " Check your account balance for details"
              ++ String e "")%string.
Proof.
  rewrite test_lang.
  unfold REGEX_PATTERN_BUY_ERROR_INSUFFICIENT_FUNDS, Regex.cat.
  split.
  - intros H.
    apply lang_seq_iff in H as (u1 & w1 & -> & H1 & H).
    apply lang_seq_iff in H as (needed & w2 & -> & Hn & H).
    apply lang_seq_iff in H as (u3 & w3 & -> & H3 & H).
    apply lang_seq_iff in H as (code1 & w4 & -> & Hc1 & H).
    apply lang_seq_iff in H as (u5 & w5 & -> & H5 & H).
    apply lang_seq_iff in H as (u6 & w6 & -> & H6 & H).
    apply lang_seq_iff in H as (u7 & w7 & -> & H7 & H).
    apply lang_seq_iff in H as (available & w8 & -> & Ha & H).
    apply lang_seq_iff in H as (u9 & w9 & -> & H9 & H).
    apply lang_seq_iff in H as (code2 & w10 & -> & Hc2 & H).
    apply lang_seq_iff in H as (u11 & w11 & -> & H11 & H).
    apply lang_seq_iff in H as (u12 & w12 & -> & H12 & H).
    apply lang_seq_iff in H as (u13 & w13 & -> & H13 & H).
    apply lang_seq_iff in H as (u14 & w14 & -> & H14 & H).
    apply lang_eps_inv in H as ->.
    apply lang_text_iff in H1, H3, H5, H7, H9, H11, H13. subst.
    apply lang_decimal in Hn, Ha. apply lang_currency in Hc1, Hc2.
    apply lang_dot in H6 as (c & -> & Hc).
    apply lang_dot in H12 as (d & -> & Hd).
    apply lang_dot in H14 as (e & -> & He).
    exists needed, code1, available, code2, c, d, e.
    repeat split; assumption.
  - intros (needed & code1 & available & code2 & c & d & e
            & Hn & Hc1 & Ha & Hc2 & Hc & Hd & He & ->).
    apply Regex.lang_seq; [now apply lang_text_iff |].
    apply Regex.lang_seq; [now apply lang_decimal |].
    apply Regex.lang_seq; [now apply lang_text_iff |].
    apply Regex.lang_seq; [now apply lang_currency |].
    apply Regex.lang_seq; [now apply lang_text_iff |].
    apply (@Regex.lang_seq _ _ (String c "")
             (" You have only " ++ available ++ " " ++ code2 ++ " available"
              ++ String d " Check your account balance for details"
              ++ String e ""));
      [apply lang_dot; eauto |].
    apply Regex.lang_seq; [now apply lang_text_iff |].
    apply Regex.lang_seq; [now apply lang_decimal |].
    apply Regex.lang_seq; [now apply lang_text_iff |].
    apply Regex.lang_seq; [now apply lang_currency |].
    apply Regex.lang_seq; [now apply lang_text_iff |].
    apply (@Regex.lang_seq _ _ (String d "")
             (" Check your account balance for details" ++ String e ""));
      [apply lang_dot; eauto |].
    apply Regex.lang_seq; [now apply lang_text_iff |].
    apply (@Regex.lang_seq _ _ (String e "") "");
      [apply lang_dot; eauto | constructor].
Qed.

(* ------------------------------------------------------------------ *)
(** *** Further properties of the paginator *)

Lemma doWhilst_more_fuel (self : Client)
    (transport : RequestOptions -> Response (list RawTx))
    (earliestDate : Date) (fuel : nat) :
  forall (st : Loop) (log log' : list RequestOptions)
         (r : JsError + list RawTx) (more : nat),
    doWhilst fuel self transport earliestDate st log = (Some r, log') ->
    doWhilst (fuel + more) self transport earliestDate st log
    = (Some r, log').
Proof.
  induction fuel as [| fuel IH]; intros st log log' r more; [discriminate |].
  change (S fuel + more)%nat with (S (fuel + more)).
  rewrite !doWhilst_step.
  destruct (post self transport earliestDate st log) as [[err | st1] log1];
    [auto |].
  destruct (continueIteration st1); [apply IH | auto].
Qed.

(** X6. Against an exchange that serves a finite history, with the
    credentials set, the paginator ends with a list of transactions, within
    a number of iterations bounded by the length of the history plus one;
    a larger bound on the iterations gives the same result and the same
    requests. *)
Theorem paginator_ends_on_finite_history (self : Client)
    (history : list RawTx) (earliestDate : Date)
    (log : list RequestOptions) :
  credentials self = true ->
  exists txs log',
    forall fuel,
      (List.length history < fuel)%nat ->
      iterateRequestTxs fuel self (exchange history) earliestDate log
      = (Some (inr txs), log').
Proof.
  intros Hc.
  destruct (doWhilst_exchange_terminates self history earliestDate Hc
              (S (List.length history)) initial log)
    as (txs & log' & Hrun); [simpl; lia | simpl; lia |].
  exists txs, log'. intros fuel Hfuel.
  replace fuel with (S (List.length history) + (fuel - S (List.length history)))%nat
    by lia.
  unfold iterateRequestTxs.
  erewrite bind_run by (apply doWhilst_more_fuel; exact Hrun).
  reflexivity.
Qed.

Lemma post_success (self : Client)
    (transport : RequestOptions -> Response (list RawTx))
    (earliestDate : Date) (st st1 : Loop) (log log1 : list RequestOptions) :
  post self transport earliestDate st log = (inr st1, log1) ->
  exists res,
    _post self transport "user_transactions"
      (TxListParams BITSTAMP_REQUEST_LIMIT (offset st) "desc") log
    = (inr res, log1)
    /\ st1 = onPage earliestDate res st.
Proof.
  unfold post.
  destruct (_post self transport "user_transactions"
              (TxListParams BITSTAMP_REQUEST_LIMIT (offset st) "desc") log)
    as [[err | res] log2] eqn:Hpost;
    erewrite bind_run by exact Hpost; unfold ret; intros H;
    [discriminate |].
  injection H as <- <-. eauto.
Qed.

Lemma every_keeps_not_older (earliestDate : Date) (res : list RawTx) :
  forall st,
    Forall (fun tx =>
              Date_gt earliestDate (Date_parse (tx_datetime tx)) = false)
      (transactionsAll st) ->
    Forall (fun tx =>
              Date_gt earliestDate (Date_parse (tx_datetime tx)) = false)
      (transactionsAll (every earliestDate res st)).
Proof.
  induction res as [| tx res IH]; intros st Hst; simpl; [exact Hst |].
  destruct (Date_gt earliestDate (Date_parse (tx_datetime tx))) eqn:Htx;
    [exact Hst |].
  apply IH. simpl. apply Forall_app. split; [exact Hst |].
  constructor; [exact Htx | constructor].
Qed.

Lemma doWhilst_keeps_not_older (self : Client)
    (transport : RequestOptions -> Response (list RawTx))
    (earliestDate : Date) (fuel : nat) :
  forall (st : Loop) (log log' : list RequestOptions) (txs : list RawTx),
    Forall (fun tx =>
              Date_gt earliestDate (Date_parse (tx_datetime tx)) = false)
      (transactionsAll st) ->
    doWhilst fuel self transport earliestDate st log
    = (Some (inr txs), log') ->
    Forall (fun tx =>
              Date_gt earliestDate (Date_parse (tx_datetime tx)) = false)
      txs.
Proof.
  induction fuel as [| fuel IH]; intros st log log' txs Hst; [discriminate |].
  rewrite doWhilst_step.
  destruct (post self transport earliestDate st log) as [[err | st1] log1]
    eqn:Hpost; [discriminate |].
  apply post_success in Hpost as (res & _ & ->).
  assert (Hnext :
    Forall (fun tx =>
              Date_gt earliestDate (Date_parse (tx_datetime tx)) = false)
      (transactionsAll (onPage earliestDate res st)))
    by (unfold onPage; simpl; now apply every_keeps_not_older).
  destruct (continueIteration (onPage earliestDate res st)).
  - now apply IH.
  - intros H. injection H as <- _. exact Hnext.
Qed.

(** X7. Whatever the transport answers, the list that the paginator
    returns never holds a transaction whose timestamp is strictly older
    than the boundary. *)
Theorem paginator_never_keeps_older
    (self : Client) (transport : RequestOptions -> Response (list RawTx))
    (earliestDate : Date) (fuel : nat) (log log' : list RequestOptions)
    (txs : list RawTx) :
  iterateRequestTxs fuel self transport earliestDate log
  = (Some (inr txs), log') ->
  Forall (fun tx =>
            Date_gt earliestDate (Date_parse (tx_datetime tx)) = false)
    txs.
Proof.
  unfold iterateRequestTxs.
  destruct (doWhilst fuel self transport earliestDate initial log)
    as [[[err | res] |] log1] eqn:Hloop;
    erewrite bind_run by exact Hloop; unfold ret; simpl; intros H;
    try discriminate.
  injection H as <- _.
  eapply doWhilst_keeps_not_older; [| exact Hloop].
  constructor.
Qed.

Lemma offsets_S (start : Z) (n : nat) :
  offsets start (S n) = Some start :: offsets (start + 1000) n.
Proof.
  unfold offsets. cbn [seq map]. f_equal; [f_equal; lia |].
  rewrite <- seq_shift, map_map.
  apply map_ext. intros k. f_equal. lia.
Qed.

Lemma doWhilst_requests (self : Client)
    (transport : RequestOptions -> Response (list RawTx))
    (earliestDate : Date) (fuel : nat) :
  credentials self = true ->
  forall (st : Loop) (log log' : list RequestOptions)
         (r : option (JsError + list RawTx)),
    doWhilst fuel self transport earliestDate st log = (r, log') ->
    exists reqs,
      log' = log ++ reqs
      /\ (List.length reqs <= fuel)%nat
      /\ map requested_offset reqs = offsets (offset st) (List.length reqs)
      /\ Forall (fun req =>
                   requested_limit req = Some 100
                   /\ req_method req = "POST"
                   /\ req_url req
                      = (host self ++ "/api/user_transactions/")%string)
           reqs.
Proof.
  intros Hc. induction fuel as [| fuel IH]; intros st log log' r.
  - intros H. injection H as _ <-. exists [].
    rewrite app_nil_r. repeat split; auto.
  - rewrite doWhilst_step.
    destruct (_post_run _ self transport "user_transactions"
                (TxListParams BITSTAMP_REQUEST_LIMIT (offset st) "desc")
                log Hc)
      as (req & Hm & Hurl & (form & Hform & Hparams) & Hrun).
    assert (Hreq :
      requested_offset req = Some (offset st)
      /\ requested_limit req = Some 100).
    { unfold requested_offset, requested_limit.
      rewrite Hform, Hparams. split; reflexivity. }
    destruct Hreq as [Hoff Hlim].
    assert (Hgood :
      requested_limit req = Some 100
      /\ req_method req = "POST"
      /\ req_url req = (host self ++ "/api/user_transactions/")%string)
      by auto.
    assert (Hone :
      exists reqs,
        log ++ [req] = log ++ reqs
        /\ (List.length reqs <= S fuel)%nat
        /\ map requested_offset reqs
           = offsets (offset st) (List.length reqs)
        /\ Forall (fun req =>
                     requested_limit req = Some 100
                     /\ req_method req = "POST"
                     /\ req_url req
                        = (host self ++ "/api/user_transactions/")%string)
             reqs).
    { exists [req]. split; [reflexivity |]. split; [simpl; lia |]. split.
      - cbn [map List.length]. rewrite Hoff. unfold offsets. cbn [seq map].
        do 2 f_equal. lia.
      - constructor; [exact Hgood | constructor]. }
    unfold post. erewrite bind_run by exact Hrun.
    destruct (requestFunction (transport req)) as [err | res]; unfold ret.
    + intros H. injection H as _ <-. exact Hone.
    + destruct (continueIteration (onPage earliestDate res st)) eqn:Hflag.
      * intros H. apply IH in H as (reqs & -> & Hlen & Hoffs & Hall).
        exists (req :: reqs). rewrite <- app_assoc.
        split; [reflexivity |]. split; [simpl; lia |]. split.
        -- cbn [map List.length].
           rewrite offsets_S, Hoff, Hoffs, onPage_offset. reflexivity.
        -- constructor; [exact Hgood | exact Hall].
      * intros H. injection H as _ <-. exact Hone.
Qed.

(** X8. With the credentials set and whatever the transport answers, the
    requests of a listing run are POST requests to the user_transactions
    endpoint of the host, each for 100 records, at the offsets 0, 1000,
    2000, ... in this order, and there are at most as many as the bound on
    the iterations. *)
Theorem paginator_requests
    (self : Client) (transport : RequestOptions -> Response (list RawTx))
    (earliestDate : Date) (fuel : nat) (log log' : list RequestOptions)
    (r : option (JsError + list RawTx)) :
  credentials self = true ->
  iterateRequestTxs fuel self transport earliestDate log = (r, log') ->
  exists reqs,
    log' = log ++ reqs
    /\ (List.length reqs <= fuel)%nat
    /\ map requested_offset reqs = offsets 0 (List.length reqs)
    /\ Forall (fun req =>
                 requested_limit req = Some 100
                 /\ req_method req = "POST"
                 /\ req_url req
                    = (host self ++ "/api/user_transactions/")%string)
         reqs.
Proof.
  intros Hc. unfold iterateRequestTxs.
  destruct (doWhilst fuel self transport earliestDate initial log)
    as [r0 log1] eqn:Hloop.
  erewrite bind_run by exact Hloop. unfold ret. intros H.
  injection H as _ <-.
  exact (doWhilst_requests self transport earliestDate fuel Hc
           initial log log1 r0 Hloop).
Qed.

Lemma firstn_prefix (A : Type) (n : nat) (pre rest : list A) :
  (List.length pre <= n)%nat ->
  firstn n (pre ++ rest) = pre ++ firstn (n - List.length pre) rest.
Proof.
  revert n. induction pre as [| x pre IH]; intros n Hn; simpl.
  - now rewrite Nat.sub_0_r.
  - destruct n as [| n]; [simpl in Hn; lia |].
    simpl. f_equal. apply IH. simpl in Hn. lia.
Qed.

(** X9. When the records that are not older than the boundary come first
    in the history and are fewer than 100, with either nothing after them or
    a record strictly older than the boundary, the paginator makes one
    request, for 100 records from offset 0, and returns exactly those
    records, in the order of the history. *)
Theorem first_page_suffices (self : Client)
    (pre rest : list RawTx) (earliestDate : Date) (fuel : nat)
    (log : list RequestOptions) :
  credentials self = true ->
  Forall (fun tx => Date_gt earliestDate (Date_parse (tx_datetime tx)) = false)
    pre ->
  (List.length pre < 100)%nat ->
  (rest = []
   \/ exists tx rest',
        rest = tx :: rest'
        /\ Date_gt earliestDate (Date_parse (tx_datetime tx)) = true) ->
  exists req,
    iterateRequestTxs (S fuel) self (exchange (pre ++ rest)) earliestDate log
    = (Some (inr pre), log ++ [req])
    /\ requested_offset req = Some 0
    /\ requested_limit req = Some 100.
Proof.
  intros Hc Hpre Hlen Hrest.
  destruct (post_exchange self (pre ++ rest) earliestDate initial log Hc)
    as (req & Hlim & Hoff & Hpost).
  exists req. split; [| split; [exact Hoff | exact Hlim]].
  assert (Hpage :
    page (pre ++ rest) BITSTAMP_REQUEST_LIMIT (offset initial)
    = pre ++ firstn (100 - List.length pre) rest).
  { unfold page. simpl offset.
    change (Z.to_nat BITSTAMP_REQUEST_LIMIT) with 100%nat.
    change (Z.to_nat 0) with 0%nat. cbn [skipn].
    apply firstn_prefix. lia. }
  rewrite Hpage in Hpost.
  assert (Hstate :
    transactionsAll
      (onPage earliestDate (pre ++ firstn (100 - List.length pre) rest)
         initial) = pre
    /\ continueIteration
         (onPage earliestDate (pre ++ firstn (100 - List.length pre) rest)
            initial) = false).
  { destruct Hrest as [-> | (tx & rest' & -> & Htx)].
    - rewrite firstn_nil, app_nil_r. unfold onPage.
      rewrite (every_accepts earliestDate pre initial Hpre). simpl.
      split; [reflexivity |].
      replace (Z.of_nat (List.length pre) <? BITSTAMP_REQUEST_LIMIT) with true;
        [reflexivity |].
      symmetry. apply Z.ltb_lt. unfold BITSTAMP_REQUEST_LIMIT. lia.
    - destruct (100 - List.length pre)%nat as [| k] eqn:Hk; [lia |].
      cbn [firstn]. unfold onPage.
      rewrite (every_stops earliestDate pre tx (firstn k rest') initial
                 Hpre Htx).
      simpl. split; [reflexivity |].
      now destruct (Z.of_nat (List.length (pre ++ tx :: firstn k rest'))
                    <? BITSTAMP_REQUEST_LIMIT). }
  destruct Hstate as [Hall Hflag].
  assert (Hloop :
    doWhilst (S fuel) self (exchange (pre ++ rest)) earliestDate initial log
    = (Some (inr pre), log ++ [req])).
  { rewrite doWhilst_step, Hpost, Hflag, Hall. reflexivity. }
  unfold iterateRequestTxs. erewrite bind_run by exact Hloop. reflexivity.
Qed.

(** *** The result as a part of the history *)

Lemma subseq_nil_l (A : Type) (m : list A) : subseq [] m.
Proof. induction m; constructor; assumption. Qed.

Lemma subseq_refl (A : Type) (l : list A) : subseq l l.
Proof. induction l; constructor; assumption. Qed.

Lemma subseq_app (A : Type) (l1 m1 l2 m2 : list A) :
  subseq l1 m1 -> subseq l2 m2 -> subseq (l1 ++ l2) (m1 ++ m2).
Proof.
  intros H1 H2. induction H1; simpl; [exact H2 | |]; constructor; assumption.
Qed.

Lemma subseq_In (A : Type) (l m : list A) (x : A) :
  subseq l m -> In x l -> In x m.
Proof.
  induction 1 as [| y l m _ IH | y l m _ IH]; simpl; intros Hin;
    [exact Hin | auto | destruct Hin; auto].
Qed.

Lemma subseq_NoDup (A : Type) (l m : list A) :
  subseq l m -> NoDup m -> NoDup l.
Proof.
  induction 1 as [| y l m Hs IH | y l m Hs IH]; intros Hm.
  - constructor.
  - inversion Hm; subst. auto.
  - inversion Hm as [| y' m' Hnotin Hm']; subst. constructor; [| auto].
    intros Hin. apply Hnotin. eapply subseq_In; eassumption.
Qed.

Lemma firstn_add (A : Type) (a b : nat) (l : list A) :
  firstn (a + b) l = firstn a l ++ firstn b (skipn a l).
Proof.
  revert l. induction a as [| a IH]; intros l; simpl; [reflexivity |].
  destruct l as [| x l]; simpl.
  - now rewrite firstn_nil.
  - now rewrite IH.
Qed.

Lemma subseq_firstn_r (A : Type) (n : nat) (l m : list A) :
  subseq l (firstn n m) -> subseq l m.
Proof.
  intros H. rewrite <- (firstn_skipn n m), <- (app_nil_r l).
  apply subseq_app; [exact H | apply subseq_nil_l].
Qed.

Lemma every_prefix (earliestDate : Date) (res : list RawTx) :
  forall st,
    exists pre suf,
      res = pre ++ suf
      /\ transactionsAll (every earliestDate res st)
         = transactionsAll st ++ pre.
Proof.
  induction res as [| tx res IH]; intros st; simpl.
  - exists [], []. split; [reflexivity | now rewrite app_nil_r].
  - destruct (Date_gt earliestDate (Date_parse (tx_datetime tx))).
    + exists [], (tx :: res). split; [reflexivity |].
      simpl. now rewrite app_nil_r.
    + destruct (IH {| transactionsAll := transactionsAll st ++ [tx];
                      offset := offset st;
                      continueIteration := continueIteration st |})
        as (pre & suf & -> & Hall).
      exists (tx :: pre), suf. split; [reflexivity |].
      rewrite Hall. simpl. now rewrite <- app_assoc.
Qed.

Lemma doWhilst_subseq (self : Client) (history : list RawTx)
    (earliestDate : Date) (fuel : nat) :
  credentials self = true ->
  forall (st : Loop) (log log' : list RequestOptions) (txs : list RawTx),
    0 <= offset st ->
    subseq (transactionsAll st) (firstn (Z.to_nat (offset st)) history) ->
    doWhilst fuel self (exchange history) earliestDate st log
    = (Some (inr txs), log') ->
    subseq txs history.
Proof.
  intros Hc. induction fuel as [| fuel IH]; intros st log log' txs Hoff Hst;
    [discriminate |].
  destruct (post_exchange self history earliestDate st log Hc)
    as (req & _ & _ & Hpost).
  rewrite doWhilst_step, Hpost.
  set (res := page history BITSTAMP_REQUEST_LIMIT (offset st)).
  assert (Hnext :
    subseq (transactionsAll (onPage earliestDate res st))
      (firstn (Z.to_nat (offset (onPage earliestDate res st))) history)).
  { rewrite onPage_offset. unfold responseLength.
    replace (Z.to_nat (offset st + 1000))
      with (Z.to_nat (offset st) + (100 + 900))%nat by lia.
    rewrite firstn_add, firstn_add.
    unfold onPage. simpl transactionsAll.
    destruct (every_prefix earliestDate res st) as (pre & suf & Hres & ->).
    apply subseq_app; [exact Hst |].
    unfold res, page in Hres.
    change (Z.to_nat BITSTAMP_REQUEST_LIMIT) with 100%nat in Hres.
    rewrite Hres, <- app_assoc.
    rewrite <- (app_nil_r pre) at 1.
    apply subseq_app; [apply subseq_refl | apply subseq_nil_l]. }
  destruct (continueIteration (onPage earliestDate res st)).
  - apply IH; [rewrite onPage_offset; unfold responseLength; lia | exact Hnext].
  - intros H. injection H as <- _.
    eapply subseq_firstn_r. exact Hnext.
Qed.

(** X10. Against an exchange that serves a history, the list that the
    paginator returns is the history with some records left out: every
    record of the result is a record of the history, the order of the
    history is kept, and a history without repeated records gives a result
    without repeated records. *)
Theorem paginator_result_is_part_of_history (self : Client)
    (history : list RawTx) (earliestDate : Date) (fuel : nat)
    (log log' : list RequestOptions) (txs : list RawTx) :
  credentials self = true ->
  iterateRequestTxs fuel self (exchange history) earliestDate log
  = (Some (inr txs), log') ->
  subseq txs history
  /\ (forall tx, In tx txs -> In tx history)
  /\ (NoDup history -> NoDup txs).
Proof.
  intros Hc. unfold iterateRequestTxs.
  destruct (doWhilst fuel self (exchange history) earliestDate initial log)
    as [[[err | res] |] log1] eqn:Hloop;
    erewrite bind_run by exact Hloop; unfold ret; simpl; intros H;
    try discriminate.
  injection H as <- _.
  assert (Hsub : subseq res history).
  { eapply (doWhilst_subseq self history earliestDate fuel Hc initial);
      [simpl; lia | simpl; constructor | exact Hloop]. }
  split; [exact Hsub |]. split.
  - intros tx. now apply subseq_In.
  - now apply subseq_NoDup.
Qed.

(* ------------------------------------------------------------------ *)
(** *** Further properties of the endpoint methods *)

Lemma response_error_not_validation (P : Type) (r : Response P)
    (e : JsError) :
  response_error r e ->
  e <> CodedError "The base amount must be a number." MODULE_ERROR None
  /\ e <> CodedError "The limit price must be a positive number."
            MODULE_ERROR None.
Proof. intros H. inversion H; subst; split; discriminate. Qed.

Lemma _post_error_cases (P : Type) (self : Client)
    (transport : RequestOptions -> Response P) (action : string)
    (params : PostParams) (log log' : list RequestOptions) (e : JsError) :
  _post self transport action params log = (inl e, log') ->
  (e = refusal /\ log' = log)
  \/ exists req, log' = log ++ [req] /\ response_error (transport req) e.
Proof.
  destruct (credentials self) eqn:Hc.
  - destruct (_post_run P self transport action params log Hc)
      as (req & _ & _ & _ & ->).
    intros H. injection H as H <-. right. exists req.
    split; [reflexivity | now apply requestFunction_cause].
  - rewrite _post_without_credentials by assumption.
    intros H. injection H as <- <-. now left.
Qed.

Lemma placeTrade_on_pair (self : Client)
    (transport : RequestOptions -> Response RawPlaced)
    (baseAmount limitPrice : JsValue) (baseCurrency quoteCurrency : string)
    (log : list RequestOptions) :
  Str.eq_ignore_case baseCurrency "BTC" ->
  Str.eq_ignore_case quoteCurrency "USD" ->
  placeTrade self transport baseAmount limitPrice baseCurrency quoteCurrency
    log
  = placeTrade self transport baseAmount limitPrice "BTC" "USD" log.
Proof.
  intros Hb Hq.
  apply eq_ignore_case_toUpperCase in Hb, Hq.
  change (Str.toUpperCase "BTC") with (Str.units "BTC") in Hb.
  change (Str.toUpperCase "USD") with (Str.units "USD") in Hq.
  unfold placeTrade. cbv zeta.
  change (Str.toUpperCase "BTC") with (Str.units "BTC").
  change (Str.toUpperCase "USD") with (Str.units "USD").
  rewrite Hb, Hq. reflexivity.
Qed.

(** The run of [placeTrade] on the supported pair and on numbers that pass
    the two checks. *)
Lemma placeTrade_passes (self : Client)
    (transport : RequestOptions -> Response RawPlaced)
    (amount price : float) (log : list RequestOptions) :
  PrimFloat.eqb amount 0%float = false ->
  PrimFloat.ltb price 0%float = false ->
  placeTrade self transport (JsNumber amount) (JsNumber price) "BTC" "USD" log
  = let orderType :=
      if PrimFloat.ltb amount 0%float then TYPE_SELL_ORDER
      else TYPE_BUY_ORDER in
    let amountSubUnit :=
      if PrimFloat.ltb amount 0%float
      then PrimFloat.mul amount (-1)%float else amount in
    match _post self transport orderType
            (OrderParams (fromSmallestSubunit amountSubUnit "BTC") price) log
    with
    | (inl err, log') => (inl err, log')
    | (inr res, log') =>
        (inr {| pt_externalId := Str.ofZ (rp_id res);
                pt_type := "limit";
                pt_state := "open";
                pt_baseAmount := amount;
                pt_baseCurrency := "BTC";
                pt_quoteCurrency := "USD";
                pt_limitPrice := price;
                pt_raw := {| rp_id := rp_id res;
                             rp_orderType := Some orderType |} |}, log')
    end.
Proof.
  intros Ha Hp. unfold placeTrade. cbv zeta.
  change (Str.toUpperCase "BTC") with (Str.units "BTC").
  change (Str.toUpperCase "USD") with (Str.units "USD").
  change (negb (Str.eqb "BTC" "BTC") || negb (Str.eqb "USD" "USD"))
    with false. cbv iota.
  rewrite Ha, Hp.
  destruct (PrimFloat.ltb amount 0%float).
  - change (TYPE_SELL_ORDER =? TYPE_SELL_ORDER)%string with true. cbv iota.
    unfold bind.
    destruct (_post self transport TYPE_SELL_ORDER _ log) as [[err | res] log'];
      reflexivity.
  - change (TYPE_BUY_ORDER =? TYPE_SELL_ORDER)%string with false. cbv iota.
    unfold bind.
    destruct (_post self transport TYPE_BUY_ORDER _ log) as [[err | res] log'];
      reflexivity.
Qed.



(** X11. On the supported pair, whatever the letter case of the codes,
    [placeTrade] answers "The base amount must be a number." exactly when
    the base amount is not a number or equals zero, and "The limit price
    must be a positive number." exactly when the amount passes and the
    price is not a number or is below zero; in both cases no request is
    handed to the transport. *)
Theorem placeTrade_validation_errors (self : Client)
    (transport : RequestOptions -> Response RawPlaced)
    (baseAmount limitPrice : JsValue) (baseCurrency quoteCurrency : string)
    (log : list RequestOptions) :
  Str.eq_ignore_case baseCurrency "BTC" ->
  Str.eq_ignore_case quoteCurrency "USD" ->
  (fst (placeTrade self transport baseAmount limitPrice
          baseCurrency quoteCurrency log)
   = inl (CodedError "The base amount must be a number." MODULE_ERROR None)
   <-> invalid_amount baseAmount)
  /\ (fst (placeTrade self transport baseAmount limitPrice
             baseCurrency quoteCurrency log)
      = inl (CodedError "The limit price must be a positive number."
               MODULE_ERROR None)
      <-> ~ invalid_amount baseAmount /\ invalid_price limitPrice)
  /\ (invalid_amount baseAmount \/ invalid_price limitPrice ->
      snd (placeTrade self transport baseAmount limitPrice
             baseCurrency quoteCurrency log) = log).
Proof.
  intros Hb Hq. rewrite (placeTrade_on_pair _ _ _ _ _ _ _ Hb Hq).
  assert (Hrun : forall amount price,
    PrimFloat.eqb amount 0%float = false ->
    PrimFloat.ltb price 0%float = false ->
    forall e,
      fst (placeTrade self transport (JsNumber amount) (JsNumber price)
             "BTC" "USD" log) = inl e ->
      e <> CodedError "The base amount must be a number." MODULE_ERROR None
      /\ e <> CodedError "The limit price must be a positive number."
                MODULE_ERROR None).
  { intros amount price Ha Hp e.
    rewrite (placeTrade_passes _ _ _ _ _ Ha Hp). cbv zeta.
    match goal with
    | |- context [_post ?s ?t ?a ?p log] =>
        destruct (_post s t a p log) as [[err | res] log'] eqn:Hpost
    end; simpl; intros H; [| discriminate].
    injection H as <-.
    apply _post_error_cases in Hpost as [[-> _] | (req & _ & Hresp)].
    - split; discriminate.
    - now apply response_error_not_validation in Hresp. }
  destruct (placeTrade_checks self transport baseAmount limitPrice log)
    as (Hamount & Hprice & _).
  assert (Ha_dec : invalid_amount baseAmount
                   \/ exists amount, baseAmount = JsNumber amount
                                     /\ PrimFloat.eqb amount 0%float = false).
  { destruct baseAmount as [| | | amount |]; simpl; auto.
    destruct (PrimFloat.eqb amount 0%float) eqn:E;
      [left; reflexivity | right; exists amount; auto]. }
  assert (Hp_dec : invalid_price limitPrice
                   \/ exists price, limitPrice = JsNumber price
                                    /\ PrimFloat.ltb price 0%float = false).
  { destruct limitPrice as [| | | price |]; simpl; auto.
    destruct (PrimFloat.ltb price 0%float) eqn:E;
      [left; reflexivity | right; exists price; auto]. }
  assert (Ha_no : forall amount,
    baseAmount = JsNumber amount -> PrimFloat.eqb amount 0%float = false ->
    ~ invalid_amount baseAmount).
  { intros amount -> E. simpl. congruence. }
  assert (Hp_no : forall price,
    limitPrice = JsNumber price -> PrimFloat.ltb price 0%float = false ->
    ~ invalid_price limitPrice).
  { intros price -> E. simpl. congruence. }
  destruct Ha_dec as [Ha | (amount & Ea & Ha)].
  - (* the amount is refused *)
    rewrite Hamount.
    + simpl. split; [split; auto |].
      split; [| auto].
      split; [discriminate | intros [H _]; contradiction].
    + intros amount E. subst baseAmount. exact Ha.
  - pose proof (Ha_no amount Ea Ha) as Hvalid.
    destruct Hp_dec as [Hp | (price & Ep & Hp)].
    + (* the price is refused *)
      rewrite (Hprice amount Ea Ha).
      * simpl. split; [split; [discriminate | contradiction] |].
        split; [split; auto | auto].
      * intros price E. subst limitPrice. exact Hp.
    + (* both pass *)
      pose proof (Hp_no price Ep Hp) as Hpvalid.
      subst baseAmount limitPrice.
      split; [| split].
      * split; [| contradiction].
        intros H. destruct (Hrun amount price Ha Hp _ H) as [H1 _].
        congruence.
      * split; [| intros [_ H]; contradiction].
        intros H. destruct (Hrun amount price Ha Hp _ H) as [_ H2].
        congruence.
      * intros [H | H]; contradiction.
Qed.

(** X12. On the supported pair and on numbers that pass the checks, with
    the credentials set and an exchange that accepts the order,
    [placeTrade] takes the side from the sign of the base amount: a negative
    amount goes to the sell endpoint and a non-negative one to the buy
    endpoint, in both cases with the magnitude converted to main units and
    the price as given; the trade it returns is open, keeps the signed
    amount and the price, and records the side in its raw part. *)
Theorem placeTrade_derives_side (self : Client)
    (transport : RequestOptions -> Response RawPlaced)
    (amount price : float) (res : RawPlaced)
    (baseCurrency quoteCurrency : string) (log : list RequestOptions) :
  Str.eq_ignore_case baseCurrency "BTC" ->
  Str.eq_ignore_case quoteCurrency "USD" ->
  credentials self = true ->
  PrimFloat.eqb amount 0%float = false ->
  PrimFloat.ltb price 0%float = false ->
  (forall req, requestFunction (transport req) = inr res) ->
  let side :=
    if PrimFloat.ltb amount 0%float then TYPE_SELL_ORDER else TYPE_BUY_ORDER in
  let magnitude :=
    if PrimFloat.ltb amount 0%float
    then PrimFloat.mul amount (-1)%float else amount in
  exists req form,
    placeTrade self transport (JsNumber amount) (JsNumber price)
      baseCurrency quoteCurrency log
    = (inr {| pt_externalId := Str.ofZ (rp_id res);
              pt_type := "limit";
              pt_state := "open";
              pt_baseAmount := amount;
              pt_baseCurrency := "BTC";
              pt_quoteCurrency := "USD";
              pt_limitPrice := price;
              pt_raw := {| rp_id := rp_id res; rp_orderType := Some side |} |},
       log ++ [req])
    /\ req_method req = "POST"
    /\ req_url req = (host self ++ "/api/" ++ side ++ "/")%string
    /\ req_form req = Some form
    /\ form_params form
       = OrderParams (fromSmallestSubunit magnitude "BTC") price.
Proof.
  intros Hb Hq Hc Ha Hp Hok. cbv zeta.
  rewrite (placeTrade_on_pair _ _ _ _ _ _ _ Hb Hq).
  rewrite (placeTrade_passes _ _ _ _ _ Ha Hp). cbv zeta.
  match goal with
  | |- context [_post ?s ?t ?a ?p log] =>
      destruct (_post_run _ s t a p log Hc)
        as (req & Hm & Hurl & (form & Hform & Hparams) & Hrun)
  end.
  exists req, form. rewrite Hrun, Hok.
  repeat split; assumption.
Qed.

(** X13. [getTrade] refuses a missing trade and a trade whose raw order
    type is anything but "sell" or "buy" (in exactly this spelling), each
    with its validation error and without a request; on a valid trade and
    with the credentials set it sends one request for the status of the
    order with the identifier of the trade; the order it returns is a limit
    order on BTC/USD with the fee in USD, has the identifier of the trade
    as external identifier, and its raw part always holds an identifier. *)
Theorem getTrade_validates_trade (self : Client)
    (transport : RequestOptions -> Response RawOrderStatus)
    (trade : TradeRef) (log : list RequestOptions) :
  getTrade self transport None log
  = (inl (CodedError "Trade object is a required parameter." MODULE_ERROR
            None), log)
  /\ (ref_orderType trade <> "sell" -> ref_orderType trade <> "buy" ->
      getTrade self transport (Some trade) log
      = (inl (CodedError
                "Trade object must have a raw orderType parameter with value either 'sell' or 'buy'."
                MODULE_ERROR None), log))
  /\ (ref_orderType trade = "sell" \/ ref_orderType trade = "buy" ->
      credentials self = true ->
      exists req form,
        snd (getTrade self transport (Some trade) log) = log ++ [req]
        /\ req_method req = "POST"
        /\ req_url req = (host self ++ "/api/order_status/")%string
        /\ req_form req = Some form
        /\ form_params form = OrderStatusParams (ref_id trade))
  /\ (forall order log',
        getTrade self transport (Some trade) log = (inr order, log') ->
        ord_externalId order = Str.ofZ (ref_id trade)
        /\ (exists id, os_id (ord_raw order) = Some id)
        /\ ord_type order = "limit"
        /\ ord_baseCurrency order = "BTC"
        /\ ord_quoteCurrency order = "USD"
        /\ ord_feeCurrency order = "USD").
Proof.
  split; [reflexivity |]. split; [| split].
  - intros Hs Hb. unfold getTrade.
    apply String.eqb_neq in Hs, Hb.
    unfold TYPE_SELL_ORDER, TYPE_BUY_ORDER. rewrite Hs, Hb. reflexivity.
  - intros Hside Hc. unfold getTrade.
    replace (negb (ref_orderType trade =? TYPE_SELL_ORDER)%string
             && negb (ref_orderType trade =? TYPE_BUY_ORDER)%string)
      with false by (destruct Hside as [-> | ->]; reflexivity).
    destruct (_post_run _ self transport "order_status"
                (OrderStatusParams (ref_id trade)) log Hc)
      as (req & Hm & Hurl & (form & Hform & Hparams) & Hrun).
    exists req, form. erewrite bind_run by exact Hrun.
    repeat split; try assumption.
    destruct (requestFunction (transport req)); reflexivity.
  - intros order log'. unfold getTrade.
    destruct (negb (ref_orderType trade =? TYPE_SELL_ORDER)%string
              && negb (ref_orderType trade =? TYPE_BUY_ORDER)%string);
      [discriminate |].
    destruct (_post self transport "order_status"
                (OrderStatusParams (ref_id trade)) log)
      as [[err | res] log1] eqn:Hpost;
      erewrite bind_run by exact Hpost; unfold ret; intros H;
      [discriminate |].
    injection H as <- _. simpl.
    repeat split.
    destruct (os_id res) as [id |]; eauto.
Qed.

Lemma filter_lengths (A : Type) (f g : A -> bool) (l : list A) :
  (forall x, f x = true -> g x = false) ->
  (List.length (filter f l) + List.length (filter g l) <= List.length l)%nat.
Proof.
  intros Hfg. induction l as [| x l IH]; simpl; [lia |].
  destruct (f x) eqn:Hf.
  - rewrite (Hfg x Hf). simpl. lia.
  - destruct (g x); simpl; lia.
Qed.

(** X14. The two listing operations read the same pages and split them by
    the type of the record: the transactions of [listTransactions] are the
    deposits (type 0) and withdrawals (type 1) that the paginator returned,
    in its order, each named after its type; the trades of [listTrades] are
    its market trades (type 2), in its order, each closed and identified by
    its order; a record of any other type is in neither result. *)
Theorem listings_split_by_type (self : Client)
    (transport : RequestOptions -> Response (list RawTx))
    (latestTransaction latestTrade : option Latest) (fuel : nat)
    (log log' : list RequestOptions) (txs : list RawTx) :
  transactionsBoundary latestTransaction = tradesBoundary latestTrade ->
  iterateRequestTxs fuel self transport
    (transactionsBoundary latestTransaction) log
  = (Some (inr txs), log') ->
  exists transactions trades,
    listTransactions fuel self transport latestTransaction log
    = (Some (inr transactions), log')
    /\ listTrades fuel self transport latestTrade log
       = (Some (inr trades), log')
    /\ map txn_raw transactions
       = filter (fun tx => (tx_type tx =? 0) || (tx_type tx =? 1)) txs
    /\ map lt_raw trades = filter (fun tx => tx_type tx =? 2) txs
    /\ Forall (fun t =>
                 (txn_type t = "deposit" /\ tx_type (txn_raw t) = 0)
                 \/ (txn_type t = "withdrawal" /\ tx_type (txn_raw t) = 1))
         transactions
    /\ Forall (fun t =>
                 tx_type (lt_raw t) = 2 /\ lt_state t = "closed"
                 /\ lt_externalId t = Str.ofZ (tx_order_id (lt_raw t)))
         trades
    /\ (List.length transactions + List.length trades <= List.length txs)%nat.
Proof.
  intros Hsame Hrun.
  exists (map constructTransactionObject
            (filter (fun tx => (tx_type tx =? TYPE_DEPOSIT)
                               || (tx_type tx =? TYPE_WITHDRAWAL)) txs)),
         (map constructListedTrade
            (filter (fun tx => tx_type tx =? TYPE_MARKET_TRADE) txs)).
  split; [| split; [| split; [| split; [| split; [| split]]]]].
  - unfold listTransactions. cbv zeta.
    erewrite bind_run by exact Hrun. reflexivity.
  - unfold listTrades. cbv zeta. rewrite <- Hsame.
    erewrite bind_run by exact Hrun. reflexivity.
  - rewrite map_map.
    rewrite (map_ext _ (fun tx => tx)); [apply map_id |].
    intros tx. unfold constructTransactionObject.
    destruct (PrimFloat.eqb (parseFloat (tx_btc tx)) 0%float); reflexivity.
  - rewrite map_map. apply map_id.
  - apply Forall_forall. intros t Hin.
    apply in_map_iff in Hin as (tx & <- & Hin).
    apply filter_In in Hin as [_ Htype].
    assert (Hraw : txn_raw (constructTransactionObject tx) = tx
                   /\ txn_type (constructTransactionObject tx)
                      = if tx_type tx =? TYPE_DEPOSIT then "deposit"
                        else "withdrawal").
    { unfold constructTransactionObject.
      destruct (PrimFloat.eqb (parseFloat (tx_btc tx)) 0%float);
        split; reflexivity. }
    destruct Hraw as [-> ->].
    destruct (tx_type tx =? TYPE_DEPOSIT) eqn:Hd.
    + left. split; [reflexivity | now apply Z.eqb_eq in Hd].
    + right. split; [reflexivity |]. simpl in Htype.
      now apply Z.eqb_eq in Htype.
  - apply Forall_forall. intros t Hin.
    apply in_map_iff in Hin as (tx & <- & Hin).
    apply filter_In in Hin as [_ Htype]. apply Z.eqb_eq in Htype.
    simpl. auto.
  - rewrite !length_map. apply filter_lengths.
    intros tx H. apply orb_prop in H.
    unfold TYPE_DEPOSIT, TYPE_WITHDRAWAL, TYPE_MARKET_TRADE in *.
    apply Z.eqb_neq. destruct H as [H | H]; apply Z.eqb_eq in H; lia.
Qed.

(** X15. [getTicker] and [getOrderBook] need no credentials: on the
    supported pair, whatever its letter case and whatever the key, secret
    and client identifier of the client, each sends exactly one GET request
    without form (no key, signature or nonce) to its endpoint, hands an
    error of the response interpreter on unchanged, and otherwise converts
    the body; a missing list of bids or asks gives an empty list, and the
    entries keep their order. *)
Theorem public_endpoints_need_no_credentials (self : Client)
    (tickerTransport : RequestOptions -> Response RawTicker)
    (bookTransport : RequestOptions -> Response RawOrderBook)
    (baseCurrency quoteCurrency : string) (log : list RequestOptions) :
  Str.eq_ignore_case baseCurrency "BTC" ->
  Str.eq_ignore_case quoteCurrency "USD" ->
  (exists req,
     req_method req = "GET"
     /\ req_url req = (host self ++ "/api/ticker/")%string
     /\ req_form req = None
     /\ getTicker self tickerTransport baseCurrency quoteCurrency log
        = (match requestFunction (tickerTransport req) with
           | inl err => inl err
           | inr res =>
               inr {| tk_baseCurrency := "BTC";
                      tk_quoteCurrency := "USD";
                      tk_bid := parseFloat (rt_bid res);
                      tk_ask := parseFloat (rt_ask res);
                      tk_lastPrice := parseFloat (rt_last res);
                      tk_high24Hours := parseFloat (rt_high res);
                      tk_low24Hours := parseFloat (rt_low res);
                      tk_vwap24Hours := parseFloat (rt_vwap res);
                      tk_volume24Hours :=
                        toSmallestSubunit
                          (JsNumber (parseFloat (rt_volume res))) "BTC" |}
           end, log ++ [req]))
  /\ (exists req,
        req_method req = "GET"
        /\ req_url req = (host self ++ "/api/order_book/")%string
        /\ req_form req = None
        /\ getOrderBook self bookTransport baseCurrency quoteCurrency log
           = (match requestFunction (bookTransport req) with
              | inl err => inl err
              | inr res =>
                  inr {| ob_baseCurrency := "BTC";
                         ob_quoteCurrency := "USD";
                         ob_bids :=
                           match rob_bids res with
                           | Some bids => map convertRawEntry bids
                           | None => []
                           end;
                         ob_asks :=
                           match rob_asks res with
                           | Some asks => map convertRawEntry asks
                           | None => []
                           end |}
              end, log ++ [req])).
Proof.
  intros Hb Hq.
  apply eq_ignore_case_toUpperCase in Hb, Hq.
  change (Str.toUpperCase "BTC") with (Str.units "BTC") in Hb.
  change (Str.toUpperCase "USD") with (Str.units "USD") in Hq.
  split.
  - destruct (_get_run _ self tickerTransport "ticker" log)
      as (req & Hm & Hurl & Hform & Hrun).
    exists req. repeat split; try assumption.
    unfold getTicker. cbv zeta. rewrite Hb, Hq.
    change (negb (Str.eqb "BTC" "BTC") || negb (Str.eqb "USD" "USD"))
      with false. cbv iota.
    erewrite bind_run by exact Hrun.
    destruct (requestFunction (tickerTransport req)); reflexivity.
  - destruct (_get_run _ self bookTransport "order_book" log)
      as (req & Hm & Hurl & Hform & Hrun).
    exists req. repeat split; try assumption.
    unfold getOrderBook. cbv zeta. rewrite Hb, Hq.
    change (negb (Str.eqb "BTC" "BTC") || negb (Str.eqb "USD" "USD"))
      with false. cbv iota.
    erewrite bind_run by exact Hrun.
    destruct (requestFunction (bookTransport req)) as [err | res];
      [reflexivity |].
    unfold ret, or_empty.
    destruct (rob_bids res), (rob_asks res); reflexivity.
Qed.

(* ------------------------------------------------------------------ *)
(** *** The signer and the constructor *)

(** X16. With the credentials set, [_post] hands exactly one request to
    the transport and returns the interpretation of its response.  The
    request is a POST to host + "/api/" + action + "/" with the timeout of
    the client, the User-Agent and Content-Type headers, and a form that
    holds the parameters of the caller, the key, a nonce that is ten times
    the reading of the clock, and the signature: the HMAC of nonce, client
    identifier and key, in this order, under the secret, in upper case. *)
Theorem _post_signs_request (P : Type) (self : Client)
    (transport : RequestOptions -> Response P) (action : string)
    (params : PostParams) (log : list RequestOptions) :
  credentials self = true ->
  exists req form,
    _post self transport action params log
    = (requestFunction (transport req), log ++ [req])
    /\ req_method req = "POST"
    /\ req_url req = (host self ++ "/api/" ++ action ++ "/")%string
    /\ req_timeout req = timeout self
    /\ req_headers req = [USER_AGENT; ("Content-Type", "application/json")]
    /\ req_form req = Some form
    /\ form_params form = params
    /\ form_key form = present (key self)
    /\ form_nonce form = 10 * getTime (List.length log)
    /\ form_signature form
       = Str.toUpperCase
           (hmacSha256Hex (present (secret self))
              (Str.ofZ (form_nonce form) ++ present (clientId self)
               ++ present (key self))%string)
    /\ Forall (fun u => Str.isLower u = false) (form_signature form).
Proof.
  unfold credentials, _post. intros H.
  apply negb_true_iff in H. rewrite H.
  unfold bind, Date_getTime, _request, send, ret.
  cbn [req_method withUserAgent].
  change ("POST" =? "GET")%string with false.
  change ("POST" =? "POST")%string with true. cbv iota.
  eexists. eexists.
  split; [reflexivity |].
  cbn [req_method req_url req_timeout req_headers req_form withUserAgent].
  repeat (split; [reflexivity |]).
  split; [cbn [form_nonce]; lia |].
  split; [reflexivity | apply toUpperCase_no_lower].
Qed.

(** X17. The constructor falls back to the host of the exchange when the
    settings give no host or an empty one, and to 5000 ms when they give no
    timeout or 0; a non-empty host and a non-zero timeout are kept.  Every
    request of a client so built carries that host, that timeout and the
    User-Agent header. *)
Theorem constructor_defaults (P : Type) (settings : Settings)
    (transport : RequestOptions -> Response P) (action : string)
    (log : list RequestOptions) :
  let self := Bitstamp settings in
  (set_host settings = None \/ set_host settings = Some "" ->
   host self = "https://www.bitstamp.net")
  /\ (forall h, set_host settings = Some h -> h <> "" -> host self = h)
  /\ (set_timeout settings = None \/ set_timeout settings = Some 0 ->
      timeout self = 5000)
  /\ (forall t, set_timeout settings = Some t -> t <> 0 -> timeout self = t)
  /\ (exists req,
        snd (_get self transport action log) = log ++ [req]
        /\ req_url req = (host self ++ "/api/" ++ action ++ "/")%string
        /\ req_timeout req = timeout self
        /\ req_headers req = [USER_AGENT])
  /\ (credentials self = true ->
      forall params,
      exists req,
        snd (_post self transport action params log) = log ++ [req]
        /\ req_url req = (host self ++ "/api/" ++ action ++ "/")%string
        /\ req_timeout req = timeout self
        /\ In USER_AGENT (req_headers req)).
Proof.
  cbv zeta. unfold Bitstamp at 1 2 3 4. cbn [host timeout].
  split; [intros [-> | ->]; reflexivity |].
  split; [intros h -> Hh; destruct h; [congruence | reflexivity] |].
  split; [intros [-> | ->]; reflexivity |].
  split; [intros t -> Ht; destruct t; [congruence | reflexivity ..] |].
  split.
  - unfold _get, _request, bind, send, ret.
    cbn [req_method withUserAgent].
    change ("GET" =? "GET")%string with true. cbv iota.
    eexists. cbn [snd]. split; [reflexivity |].
    cbn [req_url req_timeout req_headers withUserAgent].
    repeat split.
  - intros Hc params. unfold credentials in Hc.
    apply negb_true_iff in Hc. unfold _post. rewrite Hc.
    unfold bind, Date_getTime, _request, send, ret.
    cbn [req_method withUserAgent].
    change ("POST" =? "GET")%string with false.
    change ("POST" =? "POST")%string with true. cbv iota.
    eexists. cbn [snd]. split; [reflexivity |].
    cbn [req_url req_timeout req_headers withUserAgent].
    repeat split. now left.
Qed.

(** X18. The operations that post to a single endpoint hand an error of
    the response interpreter to the caller as it is, after exactly one
    request, and fail in no other way once their arguments are valid: with
    the credentials set, [getBalance], [getTrade] on a sell or buy order
    and [placeTrade] on the supported pair with a non-zero amount and a
    price that is not negative return an error exactly when the
    interpreter produced that very error value.  They do not wrap it, as
    the listing operations do. *)
Theorem endpoint_errors_pass_unchanged (self : Client)
    (balanceTransport : RequestOptions -> Response RawBalance)
    (statusTransport : RequestOptions -> Response RawOrderStatus)
    (placeTransport : RequestOptions -> Response RawPlaced)
    (trade : TradeRef) (amount price : float)
    (baseCurrency quoteCurrency : string) (log : list RequestOptions) :
  credentials self = true ->
  ref_orderType trade = TYPE_SELL_ORDER
  \/ ref_orderType trade = TYPE_BUY_ORDER ->
  Str.eq_ignore_case baseCurrency "BTC" ->
  Str.eq_ignore_case quoteCurrency "USD" ->
  PrimFloat.eqb amount 0%float = false ->
  PrimFloat.ltb price 0%float = false ->
  (exists req,
     snd (getBalance self balanceTransport log) = log ++ [req]
     /\ forall e,
          fst (getBalance self balanceTransport log) = inl e
          <-> requestFunction (balanceTransport req) = inl e)
  /\ (exists req,
        snd (getTrade self statusTransport (Some trade) log) = log ++ [req]
        /\ forall e,
             fst (getTrade self statusTransport (Some trade) log) = inl e
             <-> requestFunction (statusTransport req) = inl e)
  /\ (exists req,
        snd (placeTrade self placeTransport (JsNumber amount)
               (JsNumber price) baseCurrency quoteCurrency log)
        = log ++ [req]
        /\ forall e,
             fst (placeTrade self placeTransport (JsNumber amount)
                    (JsNumber price) baseCurrency quoteCurrency log) = inl e
             <-> requestFunction (placeTransport req) = inl e).
Proof.
  intros Hc Htype Hbase Hquote Hamount Hprice.
  split; [| split].
  - destruct (_post_run RawBalance self balanceTransport "balance" NoParams
                log Hc) as (req & _ & _ & _ & Hrun).
    exists req. unfold getBalance.
    erewrite bind_run by exact Hrun.
    destruct (requestFunction (balanceTransport req)) as [err | res];
      unfold ret; cbn [fst snd]; (split; [reflexivity |]);
      intros e; split; congruence.
  - destruct (_post_run RawOrderStatus self statusTransport "order_status"
                (OrderStatusParams (ref_id trade)) log Hc)
      as (req & _ & _ & _ & Hrun).
    exists req. unfold getTrade.
    assert (Hguard :
              negb (ref_orderType trade =? TYPE_SELL_ORDER)%string
              && negb (ref_orderType trade =? TYPE_BUY_ORDER)%string = false).
    { destruct Htype as [-> | ->]; reflexivity. }
    rewrite Hguard.
    erewrite bind_run by exact Hrun.
    destruct (requestFunction (statusTransport req)) as [err | res];
      unfold ret; cbn [fst snd]; (split; [reflexivity |]);
      intros e; split; congruence.
  - rewrite (placeTrade_on_pair self placeTransport (JsNumber amount)
               (JsNumber price) baseCurrency quoteCurrency log Hbase Hquote).
    rewrite (placeTrade_passes self placeTransport amount price log
               Hamount Hprice).
    cbv zeta.
    match goal with
    | |- context [_post self placeTransport ?a ?p log] =>
        destruct (_post_run RawPlaced self placeTransport a p log Hc)
          as (req & _ & _ & _ & Hrun)
    end.
    exists req. rewrite Hrun.
    destruct (requestFunction (placeTransport req)) as [err | res];
      cbn [fst snd]; (split; [reflexivity |]);
      intros e; split; congruence.
Qed.

(** What [_post] returns as an error: a coded error of the response
    handler, or its refusal when a credential is missing. *)
Lemma _post_error_coded_or_refused (P : Type) (self : Client)
    (transport : RequestOptions -> Response P) (action : string)
    (params : PostParams) (log log' : list RequestOptions) (e : JsError) :
  _post self transport action params log = (inl e, log') ->
  coded e \/ (credentials self = false /\ e = refusal).
Proof.
  destruct (credentials self) eqn:Hc; intros H.
  - left. eapply _post_error_coded; eassumption.
  - right. rewrite _post_without_credentials in H by assumption.
    injection H as <- _. split; reflexivity.
Qed.

(** X20. Every error that a public operation surfaces is an error value
    with a message and a code, with one exception: the refusal of [_post],
    a bare string, which [getBalance], [getTrade] and [placeTrade] surface
    only when a credential is missing.  [getTicker] and [getOrderBook]
    surface coded errors whatever the credentials.  The error of a listing
    operation is always the listing error, with code [MODULE_ERROR], and
    keeps the failure of the page as its cause: a coded error, or the
    refusal when a credential is missing.  An error of the response handler
    is one of the cases of [response_error], each with the cause it keeps,
    and [constructError] keeps a truthy cause. *)
Theorem surfaced_errors_carry_code
    (self : Client)
    (tickerTransport : RequestOptions -> Response RawTicker)
    (bookTransport : RequestOptions -> Response RawOrderBook)
    (balanceTransport : RequestOptions -> Response RawBalance)
    (statusTransport : RequestOptions -> Response RawOrderStatus)
    (listTransport : RequestOptions -> Response (list RawTx))
    (orderTransport : RequestOptions -> Response RawPlaced)
    (baseCurrency quoteCurrency : Str.js) (trade : option TradeRef)
    (latest : option Latest) (baseAmount limitPrice : JsValue) (fuel : nat)
    (log log' : list RequestOptions) (e : JsError) :
  (getTicker self tickerTransport baseCurrency quoteCurrency log
   = (inl e, log') -> coded e)
  /\ (getOrderBook self bookTransport baseCurrency quoteCurrency log
      = (inl e, log') -> coded e)
  /\ (getBalance self balanceTransport log = (inl e, log') ->
      coded e \/ (credentials self = false /\ e = refusal))
  /\ (getTrade self statusTransport trade log = (inl e, log') ->
      coded e \/ (credentials self = false /\ e = refusal))
  /\ (placeTrade self orderTransport baseAmount limitPrice
        baseCurrency quoteCurrency log = (inl e, log') ->
      coded e \/ (credentials self = false /\ e = refusal))
  /\ (listTransactions fuel self listTransport latest log
      = (Some (inl e), log') ->
      exists cause,
        e = CodedError "Trades could not be listed." MODULE_ERROR (Some cause)
        /\ (coded cause \/ (credentials self = false /\ cause = refusal)))
  /\ (listTrades fuel self listTransport latest log
      = (Some (inl e), log') ->
      exists cause,
        e = CodedError "Trades could not be listed." MODULE_ERROR (Some cause)
        /\ (coded cause \/ (credentials self = false /\ cause = refusal)))
  /\ (forall (P : Type) (r : Response P) (e' : JsError),
        requestFunction r = inl e' -> response_error r e')
  /\ (forall message code cause,
        truthy cause = true ->
        error_cause (constructError message code (Some cause)) = Some cause).
Proof.
  assert (Hlist :
    forall earliestDate,
      iterateRequestTxs fuel self listTransport earliestDate log
      = (Some (inl e), log') ->
      exists cause,
        e = CodedError "Trades could not be listed." MODULE_ERROR (Some cause)
        /\ (coded cause \/ (credentials self = false /\ cause = refusal))).
  { intros earliestDate H.
    destruct (iterateRequestTxs_error _ _ _ _ _ _ _ H)
      as (cause & st1 & log1 & Hpost & ->).
    exists cause. split; [reflexivity |].
    eapply _post_error_coded_or_refused.
    eapply post_error. exact Hpost. }
  repeat match goal with |- _ /\ _ => split end.
  - unfold getTicker. cbv zeta.
    destruct (negb _ || negb _).
    + unfold ret. intros H. injection H as <- _.
      unfold coded, constructError. eauto.
    + destruct (_get self tickerTransport "ticker" log) as [[err | res] log1]
        eqn:Hget; erewrite bind_run by exact Hget; unfold ret; intros H;
        [| discriminate].
      injection H as <- _. unfold _get in Hget.
      eapply _request_error_coded. exact Hget.
  - unfold getOrderBook. cbv zeta.
    destruct (negb _ || negb _).
    + unfold ret. intros H. injection H as <- _.
      unfold coded, constructError. eauto.
    + destruct (_get self bookTransport "order_book" log)
        as [[err | res] log1] eqn:Hget;
        erewrite bind_run by exact Hget; unfold ret; intros H;
        [| discriminate].
      injection H as <- _. unfold _get in Hget.
      eapply _request_error_coded. exact Hget.
  - unfold getBalance.
    destruct (_post self balanceTransport "balance" NoParams log)
      as [[err | res] log1] eqn:Hpost;
      erewrite bind_run by exact Hpost; unfold ret; intros H;
      [| discriminate].
    injection H as <- _. eapply _post_error_coded_or_refused; eassumption.
  - unfold getTrade. destruct trade as [t |].
    + destruct (negb _ && negb _).
      * unfold ret. intros H. injection H as <- _.
        left. unfold coded, constructError. eauto.
      * destruct (_post self statusTransport "order_status"
                    (OrderStatusParams (ref_id t)) log)
          as [[err | res] log1] eqn:Hpost;
          erewrite bind_run by exact Hpost; unfold ret; intros H;
          [| discriminate].
        injection H as <- _. eapply _post_error_coded_or_refused; eassumption.
    + unfold ret. intros H. injection H as <- _.
      left. unfold coded, constructError. eauto.
  - unfold placeTrade. cbv zeta.
    destruct (negb _ || negb _);
      [unfold ret; intros H; injection H as <- _;
       left; unfold coded, constructError; eauto |].
    destruct baseAmount as [| | | amount |];
      try (unfold ret; intros H; injection H as <- _;
           left; unfold coded, constructError; eauto; fail).
    destruct (PrimFloat.eqb amount 0);
      [unfold ret; intros H; injection H as <- _;
       left; unfold coded, constructError; eauto |].
    destruct limitPrice as [| | | price |];
      try (unfold ret; intros H; injection H as <- _;
           left; unfold coded, constructError; eauto; fail).
    destruct (PrimFloat.ltb price 0);
      [unfold ret; intros H; injection H as <- _;
       left; unfold coded, constructError; eauto |].
    match goal with
    | |- context [_post ?s ?t ?a ?p] =>
        destruct (_post s t a p log) as [[err | res] log1] eqn:Hpost
    end;
      erewrite bind_run by exact Hpost; unfold ret; intros H;
      [| discriminate].
    injection H as <- _. eapply _post_error_coded_or_refused; eassumption.
  - unfold listTransactions. cbv zeta.
    destruct (iterateRequestTxs fuel self listTransport
                (transactionsBoundary latest) log)
      as [[[err | txs] |] log1] eqn:Hrun;
      erewrite bind_run by exact Hrun; unfold ret; intros H;
      try discriminate.
    injection H as <- <-. eapply Hlist. exact Hrun.
  - unfold listTrades. cbv zeta.
    destruct (iterateRequestTxs fuel self listTransport
                (tradesBoundary latest) log)
      as [[[err | txs] |] log1] eqn:Hrun;
      erewrite bind_run by exact Hrun; unfold ret; intros H;
      try discriminate.
    injection H as <- <-. eapply Hlist. exact Hrun.
  - apply requestFunction_cause.
  - intros message code cause Ht. unfold constructError. simpl.
    now rewrite Ht.
Qed.

End Client.

(* ================================================================== *)
(** ** Concrete runs

    The operations on the collaborators of [Sample] and [Wire], with the
    client built from [Sample.settings]. *)

Local Abbreviation self := (Bitstamp Sample.settings).
Local Abbreviation iterateRequestTxs' :=
  (iterateRequestTxs Sample.getTime Sample.hmacSha256Hex Wire.Date_parse).
Local Abbreviation doWhilst' :=
  (doWhilst Sample.getTime Sample.hmacSha256Hex Wire.Date_parse).
Local Abbreviation post' :=
  (post Sample.getTime Sample.hmacSha256Hex Wire.Date_parse).
Local Abbreviation _post' := (_post Sample.getTime Sample.hmacSha256Hex).
Local Abbreviation listTransactions' :=
  (listTransactions Sample.getTime Sample.hmacSha256Hex Sample.parseFloat
     Wire.Date_parse Wire.Date_toISOString Sample.toSmallestSubunit).
Local Abbreviation listTrades' :=
  (listTrades Sample.getTime Sample.hmacSha256Hex Sample.parseFloat
     Wire.Date_parse Sample.toSmallestSubunit).
Local Abbreviation getTicker' :=
  (getTicker Sample.parseFloat Sample.toSmallestSubunit).
Local Abbreviation getOrderBook' :=
  (getOrderBook Sample.parseFloat Sample.toSmallestSubunit).
Local Abbreviation getBalance' :=
  (getBalance Sample.getTime Sample.hmacSha256Hex Sample.toSmallestSubunit).
Local Abbreviation getTrade' :=
  (getTrade Sample.getTime Sample.hmacSha256Hex Sample.toSmallestSubunit).
Local Abbreviation placeTrade' :=
  (placeTrade Sample.getTime Sample.hmacSha256Hex Sample.fromSmallestSubunit).

(** *** The patterns and the timestamps *)

Example sell_message_matches :
  test REGEX_PATTERN_SELL_ERROR_INSUFFICIENT_FUNDS
    "You have only 0.00000000 BTC available. Check your account balance for details."
  = true.
Proof. vm_compute. reflexivity. Qed.

Example buy_message_matches :
  test REGEX_PATTERN_BUY_ERROR_INSUFFICIENT_FUNDS
    "You need 12.5 USD to open that order. You have only 3 USD available. Check your account balance for details."
  = true.
Proof. vm_compute. reflexivity. Qed.

Example other_messages_do_not_match :
  test REGEX_PATTERN_SELL_ERROR_INSUFFICIENT_FUNDS "Invalid nonce" = false
  /\ test REGEX_PATTERN_BUY_ERROR_INSUFFICIENT_FUNDS "Invalid nonce" = false
  /\ test REGEX_PATTERN_SELL_ERROR_INSUFFICIENT_FUNDS
       "You have only 0. BTC available. Check your account balance for details."
     = false
  /\ test REGEX_PATTERN_SELL_ERROR_INSUFFICIENT_FUNDS
       "You have only 1 btc available. Check your account balance for details."
     = false.
Proof. vm_compute. auto. Qed.

Example wire_timestamps :
  Wire.Date_parse "2016-05-13 12:00:00" = Some Sample.noon
  /\ Wire.Date_parse "1970-01-01 00:00:00+0" = epoch
  /\ Wire.Date_parse "13/05/2016" = None
  /\ Wire.datetime Sample.noon = "2016-05-13 12:00:00"
  /\ Wire.Date_toISOString (Wire.Date_parse "2016-02-29 23:59:59+0")
     = "2016-02-29T23:59:59.000Z".
Proof. vm_compute. auto. Qed.

(** *** The paginator *)

(** C1. On a history of 101 records, all newer than the boundary, the
    paginator asks for 100 records from offset 0, receives a full page, and
    then asks for 100 records from offset 1000: the offset moves by
    [responseLength], not by the page size.  The second page is empty, the
    loop ends, and record 101 of the history, which is newer than the
    boundary, is not in the result. *)
Theorem iterateRequestTxs_skips_records (fuel : nat) :
  let history := Sample.history 101 in
  let outcome :=
    run (iterateRequestTxs' (2 + fuel) self (exchange history) epoch) in
  fst outcome = Some (inr (firstn 100 history))
  /\ map requested_limit (snd outcome) = [Some 100; Some 100]
  /\ map requested_offset (snd outcome) = [Some 0; Some 1000]
  /\ BITSTAMP_REQUEST_LIMIT = 100
  /\ responseLength = 1000
  /\ exists tx,
       nth_error history 100 = Some tx
       /\ Date_gt (Wire.Date_parse (tx_datetime tx)) epoch = true
       /\ Forall (fun t => tx_id t <> tx_id tx) (firstn 100 history).
Proof.
  cbv zeta.
  split; [vm_compute; reflexivity |].
  split; [vm_compute; reflexivity |].
  split; [vm_compute; reflexivity |].
  split; [reflexivity |].
  split; [reflexivity |].
  exists (Sample.deposit 100).
  split; [vm_compute; reflexivity |].
  split; [vm_compute; reflexivity |].
  apply Forall_forall. intros t Hin.
  assert (H : forallb (fun t => negb (tx_id t =? tx_id (Sample.deposit 100)))
                (firstn 100 (Sample.history 101)) = true)
    by (vm_compute; reflexivity).
  rewrite forallb_forall in H. specialize (H t Hin).
  apply negb_true_iff, Z.eqb_neq in H. exact H.
Qed.

(** C2.  A transaction whose timestamp equals the boundary is not strictly
    newer than it, yet the scan appends it and does not mark the loop for
    termination: the test [earliestDate > currentTxDateTime] stops at
    strictly older transactions only, where the description of
    [iterateRequestTxs] stops at every transaction that is not newer.
    [listTransactions], given the newest record as the latest known one,
    returns that record again. *)
Lemma transaction_at_boundary_is_appended :
  let boundary := Wire.Date_parse "2016-05-13 12:00:00" in
  let tx := Sample.deposit 0 in
  Wire.Date_parse (tx_datetime tx) = boundary
  /\ Date_gt (Wire.Date_parse (tx_datetime tx)) boundary = false
  /\ every Wire.Date_parse boundary [tx] initial
     = {| transactionsAll := [tx]; offset := 0; continueIteration := true |}
  /\ exists normalized,
       fst (run (listTransactions' 3 self (exchange (Sample.history 3))
                   (Some {| latest_datetime := "2016-05-13 12:00:00";
                            latest_first_fill_datetime := None |})))
       = Some (inr [normalized])
       /\ txn_raw normalized = tx.
Proof.
  cbv zeta.
  split; [vm_compute; reflexivity |].
  split; [vm_compute; reflexivity |].
  split; [vm_compute; reflexivity |].
  eexists. split; vm_compute; reflexivity.
Qed.

Lemma scan_stops_at_older_transaction_witness :
  doWhilst' 1%nat self (exchange (Sample.history 3))
    (Some (Sample.noon - 30000)) initial []
  = (Some (inr [Sample.deposit 0]),
     snd (_post' self (exchange (Sample.history 3)) "user_transactions"
            (TxListParams BITSTAMP_REQUEST_LIMIT 0 "desc") [])).
Proof.
  refine
    (proj1 (proj2 (proj2
       (scan_stops_at_older_transaction
          Sample.getTime Sample.hmacSha256Hex Wire.Date_parse
          self (exchange (Sample.history 3)) (Some (Sample.noon - 30000))
          initial [Sample.deposit 0] (Sample.deposit 1) [Sample.deposit 2]
          [] _ 0%nat _ _ _)))).
  - constructor; [vm_compute; reflexivity | constructor].
  - vm_compute. reflexivity.
  - vm_compute. reflexivity.
Defined.


(** *** The response interpreter *)

(** The body
    [{error: {__all__: ["You have only 0.00000000 BTC available. Check your account balance for details."]}}]
    yields the insufficient-funds error with that message. *)
Lemma insufficient_funds_is_reclassified_witness :
  exists msg,
    In msg
      ["You have only 0.00000000 BTC available. Check your account balance for details."]
    /\ requestFunction (respond_error Sample.no_funds Sample.placed)
       = inl (CodedError msg INSUFFICIENT_FUNDS None).
Proof.
  destruct (insufficient_funds_is_reclassified RawPlaced
              (respond_error Sample.no_funds Sample.placed)
              [("__all__",
                ["You have only 0.00000000 BTC available. Check your account balance for details."])]
              ["You have only 0.00000000 BTC available. Check your account balance for details."]
              Sample.placed eq_refl eq_refl eq_refl eq_refl)
    as (msg & Hin & _ & _ & Hrun & _).
  - eexists. split; [left; reflexivity |].
    right. vm_compute. reflexivity.
  - exists msg. split; assumption.
Defined.

Example insufficient_funds_on_a_sell_order :
  fst (run (placeTrade' self (fun _ => respond_error Sample.no_funds Sample.placed)
              (JsNumber (-50000000)) (JsNumber 30000) "BTC" "USD"))
  = inl (CodedError
           "You have only 0.00000000 BTC available. Check your account balance for details."
           INSUFFICIENT_FUNDS None).
Proof. vm_compute. reflexivity. Qed.

(** *** The normalizers *)

Example a_deposit_is_normalized :
  constructTransactionObject Sample.parseFloat Wire.Date_parse
    Wire.Date_toISOString Sample.toSmallestSubunit (Sample.deposit 0)
  = {| txn_externalId := "100000";
       txn_timestamp := "2016-05-13T12:00:00.000Z";
       txn_state := "completed";
       txn_amount := 50000000;
       txn_currency := "BTC";
       txn_type := "deposit";
       txn_raw := Sample.deposit 0 |}.
Proof. vm_compute. reflexivity. Qed.

Lemma getTrade_aggregates_fills_witness :
  exists order,
    fst (run (getTrade' self (fun _ => respond Sample.order_status)
                (Some {| ref_id := 42; ref_orderType := "sell" |})))
    = inr order
    /\ ord_baseAmount order = -75000000
    /\ ord_quoteAmount order = 22550
    /\ ord_feeAmount order = 57
    /\ ord_baseAmount order < 0
    /\ ord_state order = "closed".
Proof.
  destruct (getTrade' self (fun _ => respond Sample.order_status)
              (Some {| ref_id := 42; ref_orderType := "sell" |}) [])
    as [[err | order] log'] eqn:Hrun; [vm_compute in Hrun; discriminate |].
  pose proof (getTrade_aggregates_fills
                Sample.getTime Sample.hmacSha256Hex Sample.toSmallestSubunit
                self (fun _ => respond Sample.order_status)
                {| ref_id := 42; ref_orderType := "sell" |} order [] log' Hrun)
    as (_ & _ & _ & Hneg & _ & _).
  exists order. unfold run. rewrite Hrun.
  split; [reflexivity |].
  assert (Hbase : ord_baseAmount order < 0).
  { apply Hneg.
    - reflexivity.
    - vm_compute in Hrun. injection Hrun as <- _. discriminate.
    - vm_compute in Hrun. injection Hrun as <- _.
      repeat constructor. }
  vm_compute in Hrun. injection Hrun as <- _.
  split; [reflexivity |].
  split; [reflexivity |].
  split; [reflexivity |].
  split; [exact Hbase | reflexivity].
Defined.

(** *** Validation *)

(** C7. A limit price of zero passes the check [limitPrice < 0]: with a
    base amount of 1 BTC and the price 0, [placeTrade] goes on to a POST
    to the buy endpoint with the price 0, whatever the transport answers. *)
Theorem placeTrade_accepts_zero_price
    (transport : RequestOptions -> Response RawPlaced) :
  PrimFloat.eqb 0%float 0%float = true
  /\ exists req form,
       snd (run (placeTrade' self transport
                   (JsNumber 100000000) (JsNumber 0) "BTC" "USD")) = [req]
       /\ req_url req = "https://www.bitstamp.net/api/buy/"
       /\ req_method req = "POST"
       /\ req_form req = Some form
       /\ form_params form = OrderParams 1 0.
Proof.
  split; [reflexivity |].
  unfold run, placeTrade. cbv zeta.
  change (Str.toUpperCase "BTC") with (Str.units "BTC").
  change (Str.toUpperCase "USD") with (Str.units "USD").
  change (negb (Str.eqb "BTC" "BTC") || negb (Str.eqb "USD" "USD"))
    with false. cbv iota.
  change (PrimFloat.eqb 100000000 0) with false.
  change (PrimFloat.ltb 0 0) with false. cbv iota.
  change (PrimFloat.ltb 100000000 0) with false. cbv iota.
  change (TYPE_BUY_ORDER =? TYPE_SELL_ORDER)%string with false. cbv iota.
  destruct (_post_run Sample.getTime Sample.hmacSha256Hex RawPlaced self
              transport TYPE_BUY_ORDER
              (OrderParams (Sample.fromSmallestSubunit 100000000 "BTC") 0)
              [] eq_refl)
    as (req & Hm & Hurl & (form & Hform & Hparams) & Hrun).
  exists req, form.
  erewrite bind_run by exact Hrun.
  repeat split; try assumption.
  destruct (requestFunction (transport req)); reflexivity.
Qed.

Lemma unsupported_pair_is_rejected_witness :
  run (getTicker' self (fun _ => respond Sample.ticker) "eth" "usd")
  = (inl (CodedError
            "Bitstamp only supports BTC and USD as base and quote currencies, respectively."
            MODULE_ERROR None), []).
Proof.
  refine
    (proj1
       (unsupported_pair_is_rejected
          Sample.getTime Sample.hmacSha256Hex Sample.parseFloat
          Sample.toSmallestSubunit Sample.fromSmallestSubunit
          self (fun _ => respond Sample.ticker)
          (fun _ => respond {| rob_bids := None; rob_asks := None |})
          (fun _ => respond Sample.placed)
          (JsNumber 100000000) (JsNumber 30000) "eth" "usd" [] _)).
  intros [H _]. apply toUpperCase_BTC in H.
  vm_compute in H. discriminate.
Defined.

(** C9 as the claim has it fails on the quote code u, long s (U+017F), d.
    The code is not USD in any letter case and is no string of code units
    below 256, yet [toUpperCase] turns it into "USD": [getTicker] and
    [getOrderBook] send their request and return a result under the code
    "USD", and [placeTrade] posts the order. *)
Lemma long_s_pair_is_served :
  (forall s : string, Str.units s <> [117; 383; 100])
  /\ Str.toUpperCase [117; 383; 100] = "USD"
  /\ (exists ticker req,
        run (getTicker' self (fun _ => respond Sample.ticker)
               "BTC" [117; 383; 100])
        = (inr ticker, [req])
        /\ req_url req = "https://www.bitstamp.net/api/ticker/"
        /\ tk_quoteCurrency ticker = "USD")
  /\ (exists book req,
        run (getOrderBook' self
               (fun _ => respond {| rob_bids := None; rob_asks := None |})
               "BTC" [117; 383; 100])
        = (inr book, [req])
        /\ req_url req = "https://www.bitstamp.net/api/order_book/")
  /\ (exists trade req,
        run (placeTrade' self (fun _ => respond Sample.placed)
               (JsNumber 100000000) (JsNumber 30000) "BTC" [117; 383; 100])
        = (inr trade, [req])
        /\ req_url req = "https://www.bitstamp.net/api/buy/").
Proof.
  split; [| split; [| split; [| split]]].
  - intros s H.
    pose proof (units_plain s) as Hs. rewrite H in Hs.
    assert (Hall : Forall (fun u => u < 256) (Str.units s)).
    { clear. induction s as [| c s IH]; [constructor |].
      change (Str.units (String c s)) with (Str.unit_of c :: Str.units s).
      constructor; [apply unit_of_bound | exact IH]. }
    rewrite H in Hall.
    apply Forall_inv_tail, Forall_inv in Hall. lia.
  - vm_compute. reflexivity.
  - eexists. eexists. split; [vm_compute; reflexivity |].
    split; reflexivity.
  - eexists. eexists. split; [vm_compute; reflexivity |]. reflexivity.
  - eexists. eexists. split; [vm_compute; reflexivity |]. reflexivity.
Qed.


Example lower_case_pair_is_served :
  fst (run (getTicker' self (fun _ => respond Sample.ticker) "btc" "usd"))
  = fst (run (getTicker' self (fun _ => respond Sample.ticker) "BTC" "USD"))
  /\ exists ticker,
       fst (run (getTicker' self (fun _ => respond Sample.ticker) "btc" "usd"))
       = inr ticker
       /\ tk_baseCurrency ticker = "BTC"
       /\ tk_quoteCurrency ticker = "USD"
       /\ tk_volume24Hours ticker = 1234567890.
Proof.
  split; [vm_compute; reflexivity |].
  eexists. split; [vm_compute; reflexivity |]. repeat split.
Qed.

(** *** Errors surfaced to the caller *)

(** C8.  The failure that the claim names, an authenticated call without
    the API key, does not surface an error value with a code: for every
    transport, [getBalance], [getTrade] and [placeTrade] hand to the caller
    the bare string of [_post], which has neither code nor cause, where
    every other path of the module builds its error with [constructError].
    The listing operations wrap the same string in their coded error. *)
Theorem missing_credentials_surface_bare_string
    (balanceTransport : RequestOptions -> Response RawBalance)
    (statusTransport : RequestOptions -> Response RawOrderStatus)
    (orderTransport : RequestOptions -> Response RawPlaced)
    (listTransport : RequestOptions -> Response (list RawTx)) :
  let client := Bitstamp Sample.settings_no_key in
  let message :=
    "Must provide key, secret and client ID to make this API request." in
  run (getBalance' client balanceTransport) = (inl (BareString message), [])
  /\ run (getTrade' client statusTransport
            (Some {| ref_id := 42; ref_orderType := "sell" |}))
     = (inl (BareString message), [])
  /\ run (placeTrade' client orderTransport
            (JsNumber 100000000) (JsNumber 30000) "BTC" "USD")
     = (inl (BareString message), [])
  /\ error_code (BareString message) = None
  /\ error_cause (BareString message) = None
  /\ ~ coded (BareString message)
  /\ run (listTransactions' 3 client listTransport None)
     = (Some (inl (CodedError "Trades could not be listed." MODULE_ERROR
                     (Some (BareString message)))), []).
Proof.
  cbv zeta.
  repeat (split; [vm_compute; reflexivity |]).
  split; [| vm_compute; reflexivity].
  intros (message & code & cause & H). discriminate.
Qed.

(* ------------------------------------------------------------------ *)
(** *** Concrete runs of the further properties *)

Lemma btc_ignores_case : Str.eq_ignore_case "btc" "BTC".
Proof. repeat constructor; right; right; split; reflexivity. Qed.

Lemma usd_ignores_case : Str.eq_ignore_case "usd" "USD".
Proof. repeat constructor; right; right; split; reflexivity. Qed.

Lemma no_request_without_credentials_witness :
  getBalance' (Bitstamp Sample.settings_no_key)
    (fun _ => respond Sample.balance) []
  = (inl refusal, []).
Proof.
  refine
    (proj1
       (no_request_without_credentials
          Sample.getTime Sample.hmacSha256Hex Sample.parseFloat
          Wire.Date_parse Wire.Date_toISOString Sample.toSmallestSubunit
          Sample.fromSmallestSubunit
          (Bitstamp Sample.settings_no_key)
          (fun _ => respond Sample.balance)
          (fun _ => respond Sample.order_status)
          (exchange (Sample.history 3))
          (fun _ => respond Sample.placed)
          {| ref_id := 42; ref_orderType := "sell" |} None
          1%float 1%float 0%nat [] _)).
  reflexivity.
Defined.

Lemma paginator_ends_on_finite_history_witness :
  exists txs log',
    forall fuel,
      (List.length (Sample.history 3) < fuel)%nat ->
      iterateRequestTxs' fuel self (exchange (Sample.history 3)) epoch []
      = (Some (inr txs), log').
Proof.
  refine
    (paginator_ends_on_finite_history
       Sample.getTime Sample.hmacSha256Hex Wire.Date_parse
       self (Sample.history 3) epoch [] _).
  reflexivity.
Defined.

Lemma paginator_never_keeps_older_witness :
  Forall (fun tx =>
            Date_gt (Some (Sample.noon - 90000))
              (Wire.Date_parse (tx_datetime tx)) = false)
    [Sample.deposit 0; Sample.deposit 1].
Proof.
  refine
    (paginator_never_keeps_older
       Sample.getTime Sample.hmacSha256Hex Wire.Date_parse
       self (exchange (Sample.history 5)) (Some (Sample.noon - 90000))
       3%nat []
       (snd (iterateRequestTxs' 3%nat self (exchange (Sample.history 5))
               (Some (Sample.noon - 90000)) []))
       [Sample.deposit 0; Sample.deposit 1] _).
  vm_compute. reflexivity.
Defined.

Lemma paginator_requests_witness :
  exists reqs,
    snd (iterateRequestTxs' 5%nat self (exchange (Sample.history 101)) epoch [])
    = [] ++ reqs
    /\ (List.length reqs <= 5)%nat
    /\ map requested_offset reqs = offsets 0 (List.length reqs)
    /\ Forall (fun req =>
                 requested_limit req = Some 100
                 /\ req_method req = "POST"
                 /\ req_url req
                    = (host self ++ "/api/user_transactions/")%string)
         reqs.
Proof.
  refine
    (paginator_requests
       Sample.getTime Sample.hmacSha256Hex Wire.Date_parse
       self (exchange (Sample.history 101)) epoch 5%nat []
       (snd (iterateRequestTxs' 5%nat self (exchange (Sample.history 101))
               epoch []))
       (fst (iterateRequestTxs' 5%nat self (exchange (Sample.history 101))
               epoch []))
       _ _).
  - reflexivity.
  - apply surjective_pairing.
Defined.

Lemma first_page_suffices_witness :
  exists req,
    iterateRequestTxs' 1%nat self
      (exchange ([Sample.deposit 0] ++ [Sample.deposit 1; Sample.deposit 2]))
      (Some (Sample.noon - 30000)) []
    = (Some (inr [Sample.deposit 0]), [] ++ [req])
    /\ requested_offset req = Some 0
    /\ requested_limit req = Some 100.
Proof.
  refine
    (first_page_suffices
       Sample.getTime Sample.hmacSha256Hex Wire.Date_parse
       self [Sample.deposit 0] [Sample.deposit 1; Sample.deposit 2]
       (Some (Sample.noon - 30000)) 0%nat [] _ _ _ _).
  - reflexivity.
  - constructor; [vm_compute; reflexivity | constructor].
  - simpl. lia.
  - right. exists (Sample.deposit 1), [Sample.deposit 2].
    split; [reflexivity | vm_compute; reflexivity].
Defined.

Lemma paginator_result_is_part_of_history_witness :
  subseq [Sample.deposit 0; Sample.deposit 1] (Sample.history 5)
  /\ (forall tx,
        In tx [Sample.deposit 0; Sample.deposit 1] ->
        In tx (Sample.history 5))
  /\ (NoDup (Sample.history 5) ->
      NoDup [Sample.deposit 0; Sample.deposit 1]).
Proof.
  refine
    (paginator_result_is_part_of_history
       Sample.getTime Sample.hmacSha256Hex Wire.Date_parse
       self (Sample.history 5) (Some (Sample.noon - 90000)) 3%nat []
       (snd (iterateRequestTxs' 3%nat self (exchange (Sample.history 5))
               (Some (Sample.noon - 90000)) []))
       [Sample.deposit 0; Sample.deposit 1] _ _).
  - reflexivity.
  - vm_compute. reflexivity.
Defined.

Lemma placeTrade_validation_errors_witness :
  fst (placeTrade' self (fun _ => respond Sample.placed)
         (JsString "1") (JsNumber 30000) "btc" "usd" [])
  = inl (CodedError "The base amount must be a number." MODULE_ERROR None)
  <-> invalid_amount (JsString "1").
Proof.
  refine
    (proj1
       (placeTrade_validation_errors
          Sample.getTime Sample.hmacSha256Hex Sample.fromSmallestSubunit
          self (fun _ => respond Sample.placed)
          (JsString "1") (JsNumber 30000) "btc" "usd" [] _ _)).
  - exact btc_ignores_case.
  - exact usd_ignores_case.
Defined.

Lemma placeTrade_derives_side_witness :
  exists req form,
    placeTrade' self (fun _ => respond Sample.placed)
      (JsNumber (-50000000)) (JsNumber 30000) "btc" "usd" []
    = (inr {| pt_externalId := "987654";
              pt_type := "limit";
              pt_state := "open";
              pt_baseAmount := (-50000000)%float;
              pt_baseCurrency := "BTC";
              pt_quoteCurrency := "USD";
              pt_limitPrice := 30000%float;
              pt_raw := {| rp_id := 987654; rp_orderType := Some "sell" |} |},
       [] ++ [req])
    /\ req_method req = "POST"
    /\ req_url req = "https://www.bitstamp.net/api/sell/"
    /\ req_form req = Some form
    /\ form_params form = OrderParams 0.5 30000.
Proof.
  refine
    (placeTrade_derives_side
       Sample.getTime Sample.hmacSha256Hex Sample.fromSmallestSubunit
       self (fun _ => respond Sample.placed)
       (-50000000)%float 30000%float Sample.placed "btc" "usd" []
       _ _ _ _ _ _).
  - exact btc_ignores_case.
  - exact usd_ignores_case.
  - reflexivity.
  - reflexivity.
  - reflexivity.
  - intros req. reflexivity.
Defined.

Lemma listings_split_by_type_witness :
  exists transactions trades,
    fst (listTransactions' 3%nat self (exchange (Sample.history 5)) None [])
    = Some (inr transactions)
    /\ fst (listTrades' 3%nat self (exchange (Sample.history 5)) None [])
       = Some (inr trades)
    /\ (List.length transactions + List.length trades <= 5)%nat.
Proof.
  destruct
    (listings_split_by_type
       Sample.getTime Sample.hmacSha256Hex Sample.parseFloat
       Wire.Date_parse Wire.Date_toISOString Sample.toSmallestSubunit
       self (exchange (Sample.history 5)) None None 3%nat []
       (snd (iterateRequestTxs' 3%nat self (exchange (Sample.history 5))
               epoch []))
       (Sample.history 5) eq_refl)
    as (transactions & trades & Htx & Htrades & _ & _ & _ & _ & Hlen).
  - vm_compute. reflexivity.
  - exists transactions, trades.
    rewrite Htx, Htrades. repeat split. exact Hlen.
Defined.

Lemma public_endpoints_need_no_credentials_witness :
  exists req,
    req_method req = "GET"
    /\ req_url req = "https://www.bitstamp.net/api/ticker/"
    /\ req_form req = None
    /\ snd (getTicker' (Bitstamp Sample.settings_no_key)
              (fun _ => respond Sample.ticker) "btc" "usd" [])
       = [] ++ [req].
Proof.
  destruct
    (public_endpoints_need_no_credentials
       Sample.parseFloat Sample.toSmallestSubunit
       (Bitstamp Sample.settings_no_key)
       (fun _ => respond Sample.ticker)
       (fun _ => respond {| rob_bids := None; rob_asks := None |})
       "btc" "usd" [] btc_ignores_case usd_ignores_case)
    as [(req & Hm & Hurl & Hform & Hrun) _].
  exists req. rewrite Hrun. repeat split; assumption.
Defined.

Lemma _post_signs_request_witness :
  exists req form,
    _post' self (fun _ => respond Sample.balance) "balance" NoParams []
    = (requestFunction (respond Sample.balance), [] ++ [req])
    /\ req_form req = Some form
    /\ form_nonce form = 14631408000000
    /\ form_key form = "key".
Proof.
  destruct
    (_post_signs_request
       Sample.getTime Sample.hmacSha256Hex RawBalance
       self (fun _ => respond Sample.balance) "balance" NoParams [] eq_refl)
    as (req & form & Hrun & _ & _ & _ & _ & Hform & _ & Hkey & Hnonce & _).
  exists req, form. repeat split; assumption.
Defined.

Lemma endpoint_errors_pass_unchanged_witness :
  exists req,
    snd (placeTrade' self
           (fun _ => respond_error Sample.no_funds Sample.placed)
           (JsNumber 100000000) (JsNumber 30000) "btc" "usd" [])
    = [] ++ [req]
    /\ forall e,
         fst (placeTrade' self
                (fun _ => respond_error Sample.no_funds Sample.placed)
                (JsNumber 100000000) (JsNumber 30000) "btc" "usd" [])
         = inl e
         <-> requestFunction (respond_error Sample.no_funds Sample.placed)
             = inl e.
Proof.
  refine
    (proj2
       (proj2
          (endpoint_errors_pass_unchanged
             Sample.getTime Sample.hmacSha256Hex Sample.toSmallestSubunit
             Sample.fromSmallestSubunit self
             (fun _ => respond_error Sample.no_funds Sample.balance)
             (fun _ => respond_error Sample.no_funds Sample.order_status)
             (fun _ => respond_error Sample.no_funds Sample.placed)
             {| ref_id := 42; ref_orderType := "sell" |}
             100000000%float 30000%float "btc" "usd" [] _ _ _ _ _ _))).
  - reflexivity.
  - left. reflexivity.
  - exact btc_ignores_case.
  - exact usd_ignores_case.
  - reflexivity.
  - reflexivity.
Defined.
